(** * Canvas LMS client of the Obsidian Canvas plugin: the request layer

    A shallow embedding of [CanvasAPI] (the class that follows the settings
    tab in [src/settings.ts]) and of [MyPluginSettings], with the part of the
    JavaScript platform the class relies on: strings, [String(value)],
    [encodeURIComponent], [URLSearchParams], exceptions and [requestUrl]. *)

From Stdlib Require Import ZArith NArith List Bool String Ascii Lia DecimalString.
Import ListNotations.

Set Implicit Arguments.
Set Warnings "-register-all".

(** ** JavaScript strings and values *)

Module JS.

(** A JavaScript string is a sequence of UTF-16 code units. *)
Definition code_unit := N.
Definition jsstring := list code_unit.

(** String literals of the source, written as Rocq strings (ASCII only). *)
Definition lit (s : string) : jsstring :=
  map N_of_ascii (list_ascii_of_string s).

(** [search] is a prefix of [s]. *)
Fixpoint is_prefix (search s : jsstring) : bool :=
  match search, s with
  | [], _ => true
  | _ :: _, [] => false
  | a :: search', b :: s' => (a =? b)%N && is_prefix search' s'
  end.

(** [String.prototype.startsWith] and [String.prototype.includes], with the
    receiver first. *)
Definition startsWith (s search : jsstring) : bool := is_prefix search s.

Fixpoint includes (s search : jsstring) : bool :=
  is_prefix search s ||
  match s with
  | [] => false
  | _ :: s' => includes s' search
  end.

(** [s.replace(/\/$/, '')]: the pattern matches a slash that is the last
    code unit of [s]; a [replace] without the [g] flag replaces that single
    match. *)
Fixpoint replace_trailing_slash (s : jsstring) : jsstring :=
  match s with
  | [] => []
  | c :: s' =>
      match s' with
      | [] => if (c =? 47)%N then [] else [c]
      | _ :: _ => c :: replace_trailing_slash s'
      end
  end.

(** [Array.prototype.join] on strings. *)
Fixpoint join (sep : jsstring) (l : list jsstring) : jsstring :=
  match l with
  | [] => []
  | x :: l' =>
      match l' with
      | [] => x
      | _ :: _ => x ++ sep ++ join sep l'
      end
  end.

(** Values of type [any] that the client handles.  A number is
    integer-valued here (a page size, a course id, an HTTP status): [VNum z]
    is the Number value for [z]; numbers with a fractional part, [NaN] and
    the infinities are not among these values.  An
    object is the list of its own enumerable properties in enumeration
    order.  The property names of this program ([per_page],
    [enrollment_type], ...) are not array indices, so that order is the order
    in which the properties were created. *)
Inductive JsValue :=
| VUndefined
| VNull
| VBool (b : bool)
| VNum (z : Z)
| VStr (s : jsstring)
| VArr (elems : list JsValue)
| VObj (props : list (jsstring * JsValue)).

Definition JsObject := list (jsstring * JsValue).

(** Induction on a value, with the property at hand for the elements of an
    array and for the values of the properties of an object. *)
Fixpoint JsValue_nested_ind (P : JsValue -> Prop)
  (Hundefined : P VUndefined) (Hnull : P VNull)
  (Hbool : forall b, P (VBool b)) (Hnum : forall z, P (VNum z))
  (Hstr : forall s, P (VStr s))
  (Harr : forall elems, Forall P elems -> P (VArr elems))
  (Hobj : forall props, Forall (fun kv => P (snd kv)) props -> P (VObj props))
  (v : JsValue) {struct v} : P v :=
  match v with
  | VUndefined => Hundefined
  | VNull => Hnull
  | VBool b => Hbool b
  | VNum z => Hnum z
  | VStr s => Hstr s
  | VArr elems =>
      Harr elems
        ((fix all (l : list JsValue) : Forall P l :=
            match l with
            | [] => Forall_nil P
            | x :: l' =>
                Forall_cons x
                  (JsValue_nested_ind Hundefined Hnull Hbool Hnum Hstr Harr Hobj x)
                  (all l')
            end) elems)
  | VObj props =>
      Hobj props
        ((fix all (l : list (jsstring * JsValue))
            : Forall (fun kv => P (snd kv)) l :=
            match l with
            | [] => Forall_nil _
            | kv :: l' =>
                Forall_cons kv
                  (let (k, x) as kv return P (snd kv) := kv in
                   JsValue_nested_ind Hundefined Hnull Hbool Hnum Hstr Harr Hobj x)
                  (all l')
            end) props)
  end.

Definition Object_keys (o : JsObject) : list jsstring := map fst o.
Definition Object_entries (o : JsObject) : list (jsstring * JsValue) := o.

(** [o.k = v]: an existing property keeps its place, a new one goes last. *)
Fixpoint obj_set (o : JsObject) (k : jsstring) (v : JsValue) : JsObject :=
  match o with
  | [] => [(k, v)]
  | (k', v') :: o' =>
      if list_eq_dec N.eq_dec k k' then (k, v) :: o'
      else (k', v') :: obj_set o' k v
  end.

(** *** Numbers as strings

    A number is a double.  [VNum z] is the Number value for the integer
    [z]: [z] itself up to [2^53], and the nearest double, the one with the
    even significand at a tie, beyond. *)

(** The decimal digits of an integer. *)
Definition decimal (z : Z) : jsstring :=
  lit (NilZero.string_of_int (Z.to_int z)).

(** The double nearest to the positive integer [a], as an integer; [None]
    is [Infinity], above the largest double. *)
Definition double_of (a : Z) : option Z :=
  let e := Z.max 0 (Z.log2 a + 1 - 53) in
  let q := Z.shiftr a e in
  let r := (a - Z.shiftl q e)%Z in
  let half := Z.shiftl 1 (e - 1) in
  let q' :=
    if (0 <? e)%Z && ((half <? r)%Z || ((half =? r)%Z && Z.odd q))
    then (q + 1)%Z else q in
  let v := Z.shiftl q' e in
  if (v <? 2 ^ 1024)%Z then Some v else None.

(** [Number::toString] looks for integers [n], [k] and [s] with
    [10^(k-1) <= s < 10^k], such that [s * 10^(n-k)] is a decimal the double
    is the Number value for, and [k] is as small as possible; among several
    [s] the one closest to the double is taken, the even one of two
    equally close.  A candidate is a pair of [s] and [n]. *)
Definition value_of (k : Z) (c : Z * Z) : Z := (fst c * 10 ^ (snd c - k))%Z.

Definition valid (v k : Z) (c : Z * Z) : bool :=
  (k <=? snd c)%Z && (10 ^ (k - 1) <=? fst c)%Z && (fst c <? 10 ^ k)%Z
  && match double_of (value_of k c) with
     | Some v' => (v' =? v)%Z
     | None => false
     end.

Definition closer (v k : Z) (a b : Z * Z) : Z * Z :=
  let da := Z.abs (value_of k a - v) in
  let db := Z.abs (value_of k b - v) in
  if (da <? db)%Z then a
  else if (db <? da)%Z then b
  else if Z.even (fst a) then a else b.

(** The candidates with [k] digits: the multiples of [10^(n-k)] on either
    side of [v], for the two [n] that [v] admits. *)
Definition shortest_with (v k : Z) : option (Z * Z) :=
  let d := Z.of_nat (List.length (decimal v)) in
  let around n := let q := (v / 10 ^ (n - k))%Z in [(q, n); ((q + 1)%Z, n)] in
  match filter (valid v k) (around d ++ around (d + 1)%Z) with
  | [] => None
  | c :: cs => Some (fold_left (closer v k) cs c)
  end.

(** Seventeen digits tell any two doubles apart. *)
Fixpoint shortest_from (v k : Z) (digits_left : nat) : Z * Z * Z :=
  match digits_left with
  | O => let d := Z.of_nat (List.length (decimal v)) in (v, d, d)
  | S digits_left' =>
      match shortest_with v k with
      | Some (s, n) => (s, k, n)
      | None => shortest_from v (k + 1) digits_left'
      end
  end.

(** The digits of [s] followed by [n - k] zeros up to [n = 21], and the
    exponent form beyond: [1e+21], [1.2345678901234568e+24].  An integer
    has [k <= n]. *)
Definition render (s k n : Z) : jsstring :=
  if (n <=? 21)%Z then decimal s ++ repeat 48%N (Z.to_nat (n - k))
  else
    match decimal s with
    | [] => []
    | first :: rest =>
        first :: match rest with [] => [] | _ :: _ => lit "." ++ rest end
          ++ lit "e+" ++ decimal (n - 1)
    end.

(** Whether the Number value for [z] is finite. *)
Definition is_finite (z : Z) : bool :=
  match double_of (Z.abs z) with
  | Some _ => true
  | None => false
  end.

(** [Number::toString] of the Number value for [z]. *)
Definition number_to_string (z : Z) : jsstring :=
  if (z =? 0)%Z then lit "0"
  else
    (if (z <? 0)%Z then lit "-" else [])
      ++ match double_of (Z.abs z) with
         | Some v => let '(s, k, n) := shortest_from v 1 17 in render s k n
         | None => lit "Infinity"
         end.

(** [String(value)], that is [ToString]; an array joins its elements with a
    comma, [undefined] and [null] elements giving the empty string. *)
Fixpoint ToString (v : JsValue) : jsstring :=
  match v with
  | VUndefined => lit "undefined"
  | VNull => lit "null"
  | VBool true => lit "true"
  | VBool false => lit "false"
  | VNum z => number_to_string z
  | VStr s => s
  | VArr elems =>
      join (lit ",")
        (map (fun e => match e with
                       | VUndefined | VNull => []
                       | _ => ToString e
                       end) elems)
  | VObj _ => lit "[object Object]"
  end.

(** [ToBoolean], the test of [if (x)], [x && y] and [x ? a : b]. *)
Definition ToBoolean (v : JsValue) : bool :=
  match v with
  | VUndefined | VNull => false
  | VBool b => b
  | VNum z => negb (z =? 0)%Z
  | VStr s => match s with [] => false | _ :: _ => true end
  | VArr _ | VObj _ => true
  end.

(** An optional string argument: [None] is an omitted argument
    ([undefined]). *)
Definition truthy (a : option jsstring) : bool :=
  match a with
  | None => false
  | Some s => ToBoolean (VStr s)
  end.

(** *** Exceptions *)

(** What is thrown is an error object, with its [name] and its [message]:
    the errors of the engine and of the code are, and a rejection of
    [requestUrl] is taken to be one.  (A promise rejected with [null] or
    [undefined], of which [error.message] cannot be read, is not among
    these.) *)
Record Exn := mkExn { exn_name : jsstring; exn_message : jsstring }.

Definition Error (message : jsstring) : Exn := mkExn (lit "Error") message.
Definition URIError (message : jsstring) : Exn := mkExn (lit "URIError") message.

(** The outcome of evaluating an expression or awaiting a promise. *)
Inductive Completion (A : Type) :=
| Return (a : A)
| Throw (e : Exn).
Arguments Return {A} a.
Arguments Throw {A} e.

Definition cbind {A B} (c : Completion A) (k : A -> Completion B) : Completion B :=
  match c with
  | Return a => k a
  | Throw e => Throw e
  end.

(** *** UTF-16, UTF-8 and percent-encoding *)

Definition is_high_surrogate (c : code_unit) : bool :=
  ((0xD800 <=? c) && (c <=? 0xDBFF))%N.
Definition is_low_surrogate (c : code_unit) : bool :=
  ((0xDC00 <=? c) && (c <=? 0xDFFF))%N.

Definition surrogate_pair (hi lo : code_unit) : N :=
  (0x10000 + (hi - 0xD800) * 0x400 + (lo - 0xDC00))%N.

(** The UTF-8 bytes of a code point. *)
Definition utf8 (cp : N) : list N :=
  (if cp <? 0x80 then [cp]
   else if cp <? 0x800 then [0xC0 + cp / 0x40; 0x80 + cp mod 0x40]
   else if cp <? 0x10000 then
     [0xE0 + cp / 0x1000; 0x80 + (cp / 0x40) mod 0x40; 0x80 + cp mod 0x40]
   else
     [0xF0 + cp / 0x40000; 0x80 + (cp / 0x1000) mod 0x40;
      0x80 + (cp / 0x40) mod 0x40; 0x80 + cp mod 0x40])%N.

Definition hex_digit (d : N) : code_unit :=
  (if d <? 10 then 48 + d else 55 + d)%N.

(** [%XX], with upper-case hexadecimal digits. *)
Definition percent_byte (b : N) : jsstring :=
  [37%N; hex_digit (b / 16); hex_digit (b mod 16)].

Definition is_digit (c : code_unit) : bool := ((48 <=? c) && (c <=? 57))%N.
Definition is_upper (c : code_unit) : bool := ((65 <=? c) && (c <=? 90))%N.
Definition is_lower (c : code_unit) : bool := ((97 <=? c) && (c <=? 122))%N.
Definition is_alnum (c : code_unit) : bool :=
  is_digit c || is_upper c || is_lower c.

(** The characters [encodeURIComponent] leaves alone: letters, digits and
    [- _ . ! ~ * ' ( )]. *)
Definition uri_unreserved (c : code_unit) : bool :=
  is_alnum c ||
  existsb (N.eqb c) [45; 95; 46; 33; 126; 42; 39; 40; 41]%N.

(** [encodeURIComponent]: every other character becomes the percent-encoded
    bytes of its UTF-8 form; a surrogate without its partner raises
    [URIError]. *)
Fixpoint encodeURIComponent (s : jsstring) : Completion jsstring :=
  match s with
  | [] => Return []
  | c :: s' =>
      if uri_unreserved c then
        cbind (encodeURIComponent s') (fun r => Return (c :: r))
      else if is_low_surrogate c then Throw (URIError (lit "URI malformed"))
      else if is_high_surrogate c then
        match s' with
        | lo :: s'' =>
            if is_low_surrogate lo then
              cbind (encodeURIComponent s'')
                (fun r => Return (flat_map percent_byte (utf8 (surrogate_pair c lo)) ++ r))
            else Throw (URIError (lit "URI malformed"))
        | [] => Throw (URIError (lit "URI malformed"))
        end
      else
        cbind (encodeURIComponent s')
          (fun r => Return (flat_map percent_byte (utf8 c) ++ r))
  end.

(** [String.prototype.isWellFormed]: every surrogate has its partner. *)
Fixpoint isWellFormed (s : jsstring) : bool :=
  match s with
  | [] => true
  | c :: s' =>
      if is_high_surrogate c then
        match s' with
        | lo :: s'' => is_low_surrogate lo && isWellFormed s''
        | [] => false
        end
      else if is_low_surrogate c then false
      else isWellFormed s'
  end.

(** The scalar values of a string converted to a [USVString], as the
    arguments of [URLSearchParams.append] are: a surrogate without its
    partner is replaced by U+FFFD. *)
Fixpoint scalar_values (s : jsstring) : list N :=
  match s with
  | [] => []
  | c :: s' =>
      if is_high_surrogate c then
        match s' with
        | lo :: s'' =>
            if is_low_surrogate lo then surrogate_pair c lo :: scalar_values s''
            else 0xFFFD%N :: scalar_values s'
        | [] => [0xFFFD%N]
        end
      else if is_low_surrogate c then 0xFFFD%N :: scalar_values s'
      else c :: scalar_values s'
  end.

(** The byte serializer of [application/x-www-form-urlencoded]: letters,
    digits and [* - . _] stay, a space becomes [+], any other byte [%XX]. *)
Definition form_safe (b : N) : bool :=
  is_alnum b || existsb (N.eqb b) [42; 45; 46; 95]%N.

Definition form_byte (b : N) : jsstring :=
  if (b =? 32)%N then [43%N]
  else if form_safe b then [b]
  else percent_byte b.

Definition form_urlencode (s : jsstring) : jsstring :=
  flat_map form_byte (flat_map utf8 (scalar_values s)).

(** *** URLSearchParams *)

(** The list of name-value pairs of a [URLSearchParams] object. *)
Definition URLSearchParams := list (jsstring * jsstring).

Definition new_URLSearchParams : URLSearchParams := [].

Definition URLSearchParams_append (q : URLSearchParams) (name value : jsstring)
  : URLSearchParams :=
  q ++ [(name, value)].

(** [toString]: the serializer goes through the pairs, puts an ampersand
    before a pair when the output so far is not empty, then the encoded
    name, an equals sign and the encoded value. *)
Definition serialize_step (output : jsstring) (nv : jsstring * jsstring)
  : jsstring :=
  (match output with [] => output | _ :: _ => output ++ lit "&" end)
    ++ form_urlencode (fst nv) ++ lit "=" ++ form_urlencode (snd nv).

Definition URLSearchParams_toString (q : URLSearchParams) : jsstring :=
  fold_left serialize_step q [].

End JS.

(** ** The HTTP interface of the host: [requestUrl] *)

Module Obsidian.
Import JS.

Record RequestUrlParam := mkRequestUrlParam {
  url : jsstring;
  method : jsstring;
  headers : list (jsstring * jsstring);
  body : option jsstring;   (* [None] is [undefined] *)
  throw : bool
}.

(** [json] is the decoded body the host hands to the client. *)
Record RequestUrlResponse := mkRequestUrlResponse {
  status : Z;
  text : jsstring;
  json : JsValue
}.

(** The requests handed to [requestUrl] so far, oldest first. *)
Definition Network := list RequestUrlParam.

(** An asynchronous computation, run to the point where its promise
    settles: it resolves ([Return]) or rejects ([Throw]), and it has sent
    some requests.  Console output is not part of the model. *)
Definition Async (A : Type) := Network -> Completion A * Network.

Definition ret {A} (a : A) : Async A := fun n => (Return a, n).
Definition raise {A} (e : Exn) : Async A := fun n => (Throw e, n).
Definition lift {A} (c : Completion A) : Async A := fun n => (c, n).

Definition bind {A B} (c : Async A) (k : A -> Async B) : Async B :=
  fun n =>
    match c n with
    | (Return a, n') => k a n'
    | (Throw e, n') => (Throw e, n')
    end.

(** [try { c } catch (error) { handler error }] *)
Definition try_catch {A} (c : Async A) (handler : Exn -> Async A) : Async A :=
  fun n =>
    match c n with
    | (Return a, n') => (Return a, n')
    | (Throw e, n') => handler e n'
    end.

(** The remote side: what comes back for a request, given the requests sent
    before it; [Throw] is a failure of the transport. *)
Definition Server := Network -> RequestUrlParam -> Completion RequestUrlResponse.

(** [await requestUrl(param)].  The client always passes [throw: false], so
    the host hands back the response whatever its status. *)
Definition requestUrl (server : Server) (param : RequestUrlParam)
  : Async RequestUrlResponse :=
  fun n => (server n param, n ++ [param]).

End Obsidian.

Declare Scope async_scope.
Delimit Scope async_scope with async.
Notation "x <- c ;; k" := (Obsidian.bind c (fun x => k))
  (at level 61, c at next level, right associativity) : async_scope.

(** ** Settings *)

Module Settings.
Import JS.

Record MyPluginSettings := mkSettings {
  mySetting : jsstring;
  canvasApiUrl : jsstring;
  canvasApiToken : jsstring;
  useProxy : bool;
  corsProxyUrl : jsstring
}.

Definition DEFAULT_SETTINGS : MyPluginSettings :=
  {| mySetting := lit "default";
     canvasApiUrl := lit "https://canvas.instructure.com";
     canvasApiToken := lit "";
     useProxy := false;
     corsProxyUrl := lit "https://cors-anywhere.herokuapp.com/" |}.

End Settings.

(** ** The client *)

Module CanvasAPI.
Import JS Obsidian.

Record t := mkCanvasAPI {
  apiUrl : jsstring;
  accessToken : jsstring;
  useProxy : bool;
  corsProxyUrl : jsstring
}.

Definition constructor (settings : Settings.MyPluginSettings) : t :=
  {| apiUrl := replace_trailing_slash (Settings.canvasApiUrl settings);
     accessToken := Settings.canvasApiToken settings;
     useProxy := Settings.useProxy settings;
     corsProxyUrl := Settings.corsProxyUrl settings |}.

(** The steps of [_request] that compute the URL, one per commented block
    of the source. *)

(** Ensure endpoint starts with '/' *)
Definition ensure_leading_slash (endpoint : jsstring) : jsstring :=
  if startsWith endpoint (lit "/") then endpoint else lit "/" ++ endpoint.

(** Ensure endpoint includes api/v1 path *)
Definition ensure_api_version (endpoint : jsstring) : jsstring :=
  if includes endpoint (lit "/api/v1") then endpoint
  else lit "/api/v1" ++ endpoint.

(** Add query parameters *)
Definition query_string (params : JsObject) : jsstring :=
  URLSearchParams_toString
    (fold_left
       (fun queryParams kv =>
          URLSearchParams_append queryParams (fst kv) (ToString (snd kv)))
       (Object_entries params) new_URLSearchParams).

Definition add_query (url : jsstring) (params : JsObject) : jsstring :=
  if (0 <? List.length (Object_keys params))%nat
  then url ++ lit "?" ++ query_string params
  else url.

Section Methods.

(** [JSON.stringify], for the request body; no public operation sends one. *)
Variable JSON_stringify : JsValue -> jsstring.
Variable server : Server.
Variable this : t.

(** Use CORS proxy if enabled *)
Definition use_proxy (url : jsstring) : Completion jsstring :=
  if useProxy this && ToBoolean (VStr (corsProxyUrl this))
  then cbind (encodeURIComponent url)
         (fun encoded => Return (corsProxyUrl this ++ encoded))
  else Return url.

Definition _request (endpoint method : jsstring) (params : JsObject)
  (data : JsValue) : Async JsValue :=
  try_catch
    (let endpoint := ensure_leading_slash endpoint in
     let endpoint := ensure_api_version endpoint in
     let url := apiUrl this ++ endpoint in
     let url := add_query url params in
     url <- lift (use_proxy url) ;;
     let headers :=
       [(lit "Authorization", lit "Bearer " ++ accessToken this);
        (lit "Content-Type", lit "application/json")] in
     response <- requestUrl server
       {| url := url;
          method := method;
          headers := headers;
          body := if ToBoolean data then Some (JSON_stringify data) else None;
          throw := false |} ;;
     if (400 <=? status response)%Z then
       raise (Error (lit "Canvas API request failed: "
                       ++ number_to_string (status response)
                       ++ lit " - " ++ text response))
     else ret (json response))%async
    (fun error => raise error).

Definition getUserProfile : Async JsValue :=
  _request (lit "/users/self") (lit "GET") [] VNull.

Definition getCourses (enrollmentType enrollmentState : option jsstring)
  : Async JsValue :=
  let params : JsObject := [(lit "per_page", VNum 50)] in
  let params :=
    match enrollmentType with
    | Some s => if truthy enrollmentType
                then obj_set params (lit "enrollment_type") (VStr s)
                else params
    | None => params
    end in
  let params :=
    match enrollmentState with
    | Some s => if truthy enrollmentState
                then obj_set params (lit "enrollment_state") (VStr s)
                else params
    | None => params
    end in
  _request (lit "/courses") (lit "GET") params VNull.

(** [courseId] is a string or a number; the template literal applies
    [ToString] to it. *)
Definition getCourseAssignments (courseId : JsValue) : Async JsValue :=
  _request (lit "/courses/" ++ ToString courseId ++ lit "/assignments")
    (lit "GET") [(lit "per_page", VNum 50)] VNull.

Definition getCourseModules (courseId : JsValue) : Async JsValue :=
  _request (lit "/courses/" ++ ToString courseId ++ lit "/modules")
    (lit "GET") [(lit "per_page", VNum 50)] VNull.

Definition getUpcomingEvents : Async JsValue :=
  _request (lit "/users/self/upcoming_events") (lit "GET") [] VNull.

Definition getTodoItems : Async JsValue :=
  _request (lit "/users/self/todo") (lit "GET") [] VNull.

Definition getCourseGrades : Async JsValue :=
  _request (lit "/courses") (lit "GET")
    [(lit "include",
      VArr [VStr (lit "total_scores");
            VStr (lit "current_grading_period_scores")]);
     (lit "enrollment_type", VStr (lit "student"));
     (lit "enrollment_state", VStr (lit "active"));
     (lit "per_page", VNum 50)]
    VNull.

Definition testConnection : Async bool :=
  try_catch
    (_ <- getUserProfile ;; ret true)%async
    (fun error => ret false).

(** The public operations that return the decoded body, by name and
    arguments. *)
Inductive PublicOp :=
| GetUserProfile
| GetCourses (enrollmentType enrollmentState : option jsstring)
| GetCourseAssignments (courseId : JsValue)
| GetCourseModules (courseId : JsValue)
| GetUpcomingEvents
| GetTodoItems
| GetCourseGrades.

Definition call (op : PublicOp) : Async JsValue :=
  match op with
  | GetUserProfile => getUserProfile
  | GetCourses enrollmentType enrollmentState =>
      getCourses enrollmentType enrollmentState
  | GetCourseAssignments courseId => getCourseAssignments courseId
  | GetCourseModules courseId => getCourseModules courseId
  | GetUpcomingEvents => getUpcomingEvents
  | GetTodoItems => getTodoItems
  | GetCourseGrades => getCourseGrades
  end.

End Methods.

End CanvasAPI.

(** ** Observations used in the statements *)

Module Observe.
Import JS Obsidian.

(** [String.prototype.endsWith]. *)
Definition endsWith (s search : jsstring) : bool :=
  is_prefix (rev search) (rev s).

(** The number of positions of [s] at which [search] occurs. *)
Fixpoint occurrences (s search : jsstring) : nat :=
  (if is_prefix search s then 1 else 0) +
  match s with
  | [] => 0
  | _ :: s' => occurrences s' search
  end.

(** The pieces of [s] between the occurrences of the code unit [sep]. *)
Fixpoint split_on (sep : code_unit) (s : jsstring) : list jsstring :=
  match s with
  | [] => [[]]
  | c :: s' =>
      if (c =? sep)%N then [] :: split_on sep s'
      else match split_on sep s' with
           | piece :: pieces => (c :: piece) :: pieces
           | [] => [[c]]
           end
  end.

(** [s] cut at its first [sep]. *)
Fixpoint cut_at (sep : code_unit) (s : jsstring) : jsstring * jsstring :=
  match s with
  | [] => ([], [])
  | c :: s' =>
      if (c =? sep)%N then ([], s')
      else let (name, value) := cut_at sep s' in (c :: name, value)
  end.

(** The name-value pairs a query string is made of: the pieces between
    ampersands, each cut at its first equals sign. *)
Definition query_pairs (query : jsstring) : list (jsstring * jsstring) :=
  map (cut_at 61%N) (split_on 38%N query).

(** One serialized pair: encoded name, equals sign, encoded value. *)
Definition pair_text (nv : jsstring * jsstring) : jsstring :=
  fst nv ++ lit "=" ++ snd nv.

Definition encode_pair (nv : jsstring * jsstring) : jsstring * jsstring :=
  (form_urlencode (fst nv), form_urlencode (snd nv)).

(** The pairs of the query string, as names and values before encoding. *)
Definition stringified (params : JsObject) : list (jsstring * jsstring) :=
  map (fun kv => (fst kv, ToString (snd kv))) (Object_entries params).

(** The URL of a request before the proxy step, in the words of the
    specification: base URL, normalized path, and the query string after a
    question mark when the parameter mapping is not empty. *)
Definition target_url (base endpoint : jsstring) (params : JsObject)
  : jsstring :=
  base
    ++ CanvasAPI.ensure_api_version (CanvasAPI.ensure_leading_slash endpoint)
    ++ match params with
       | [] => []
       | _ :: _ => lit "?" ++ CanvasAPI.query_string params
       end.

(** The message of the error raised for a response. *)
Definition failure_message (response : RequestUrlResponse) : jsstring :=
  lit "Canvas API request failed: " ++ number_to_string (status response)
    ++ lit " - " ++ text response.

(** What an operation makes of the answer to its request. *)
Definition outcome_of (answer : Completion RequestUrlResponse)
  : Completion JsValue :=
  match answer with
  | Return response =>
      if (400 <=? status response)%Z
      then Throw (Error (failure_message response))
      else Return (json response)
  | Throw e => Throw e
  end.

(** The request a client sends for a final URL, with [GET] and no body. *)
Definition get_request (this : CanvasAPI.t) (url : jsstring) : RequestUrlParam :=
  {| url := url;
     method := lit "GET";
     headers :=
       [(lit "Authorization", lit "Bearer " ++ CanvasAPI.accessToken this);
        (lit "Content-Type", lit "application/json")];
     body := None;
     throw := false |}.

(** The final URLs sent for a URL [target]: its proxied form, or nothing
    when the proxy step raises. *)
Definition final_urls (this : CanvasAPI.t) (target : jsstring) : list jsstring :=
  match CanvasAPI.use_proxy this target with
  | Return url => [url]
  | Throw _ => []
  end.

Definition resolved {A} (c : Completion A) : bool :=
  match c with
  | Return _ => true
  | Throw _ => false
  end.

(** Simulated remote sides and a stand-in for [JSON.stringify], for the
    examples. *)
Definition not_found : Server :=
  fun _ _ => Return {| status := 404; text := lit "Not Found"; json := VNull |}.

Definition ok_with (body : JsValue) : Server :=
  fun _ _ => Return {| status := 200; text := lit "ok"; json := body |}.

Definition unreachable : Server :=
  fun _ _ => Throw (Error (lit "net::ERR_CONNECTION_REFUSED")).

Definition stringify_stub : JsValue -> jsstring := ToString.

Definition default_client : CanvasAPI.t :=
  CanvasAPI.constructor Settings.DEFAULT_SETTINGS.

(** The default client with the proxy switched on, and with the proxy
    switched on while the proxy URL field is blank. *)
Definition proxied_client : CanvasAPI.t :=
  CanvasAPI.constructor
    {| Settings.mySetting := lit "default";
       Settings.canvasApiUrl := lit "https://canvas.instructure.com";
       Settings.canvasApiToken := lit "";
       Settings.useProxy := true;
       Settings.corsProxyUrl := lit "https://cors-anywhere.herokuapp.com/" |}.

Definition blank_proxy_client : CanvasAPI.t :=
  CanvasAPI.constructor
    {| Settings.mySetting := lit "default";
       Settings.canvasApiUrl := lit "https://canvas.instructure.com";
       Settings.canvasApiToken := lit "";
       Settings.useProxy := true;
       Settings.corsProxyUrl := lit "" |}.

(** The parameters of [getCourseGrades]. *)
Definition grades_params : JsObject :=
  [(lit "include",
    VArr [VStr (lit "total_scores");
          VStr (lit "current_grading_period_scores")]);
   (lit "enrollment_type", VStr (lit "student"));
   (lit "enrollment_state", VStr (lit "active"));
   (lit "per_page", VNum 50)].

(** The URLs of the requests sent. *)
Definition sent_urls (n : Network) : list jsstring := map url n.

End Observe.

(** ** Values of type [any]: properties, coercions, loops *)

Module Dynamic.
Import JS.

Definition TypeError (message : jsstring) : Exn :=
  mkExn (lit "TypeError") message.

Definition nl : jsstring := [10%N].

Fixpoint lookup (props : list (jsstring * JsValue)) (k : jsstring)
  : option JsValue :=
  match props with
  | [] => None
  | (k', v) :: props' =>
      if list_eq_dec N.eq_dec k k' then Some v else lookup props' k
  end.

Definition is_length (k : jsstring) : bool :=
  if list_eq_dec N.eq_dec k (lit "length") then true else false.

(** [v.k], for the property names of this program: none of them is an array
    index or a member of a prototype, and [length] is the only one an array
    or a string has of its own.  Reading a property of [undefined] or
    [null] raises a [TypeError], worded as V8 does. *)
Definition get (v : JsValue) (k : jsstring) : Completion JsValue :=
  match v with
  | VUndefined =>
      Throw (TypeError (lit "Cannot read properties of undefined (reading '"
                          ++ k ++ lit "')"))
  | VNull =>
      Throw (TypeError (lit "Cannot read properties of null (reading '"
                          ++ k ++ lit "')"))
  | VObj props =>
      Return (match lookup props k with Some x => x | None => VUndefined end)
  | VArr elems =>
      Return (if is_length k then VNum (Z.of_nat (List.length elems))
              else VUndefined)
  | VStr s =>
      Return (if is_length k then VNum (Z.of_nat (List.length s))
              else VUndefined)
  | VBool _ | VNum _ => Return VUndefined
  end.

(** [v[0]] *)
Definition get_first (v : JsValue) : Completion JsValue :=
  match v with
  | VUndefined =>
      Throw (TypeError (lit "Cannot read properties of undefined (reading '0')"))
  | VNull =>
      Throw (TypeError (lit "Cannot read properties of null (reading '0')"))
  | VObj props =>
      Return (match lookup props (lit "0") with Some x => x | None => VUndefined end)
  | VArr elems =>
      Return (match elems with e :: _ => e | [] => VUndefined end)
  | VStr s =>
      Return (match s with c :: _ => VStr [c] | [] => VUndefined end)
  | VBool _ | VNum _ => Return VUndefined
  end.

(** [a || b] *)
Definition or_else (a b : JsValue) : JsValue :=
  if ToBoolean a then a else b.

(** [error.message || 'Unknown error'] *)
Definition message_or_unknown (error : Exn) : jsstring :=
  ToString (or_else (VStr (exn_message error)) (VStr (lit "Unknown error"))).

(** The strings a [for ... of] loop takes from a string: its code points. *)
Fixpoint code_point_strings (s : jsstring) : list jsstring :=
  match s with
  | [] => []
  | c :: s' =>
      if is_high_surrogate c then
        match s' with
        | lo :: s'' =>
            if is_low_surrogate lo then [c; lo] :: code_point_strings s''
            else [c] :: code_point_strings s'
        | [] => [[c]]
        end
      else [c] :: code_point_strings s'
  end.

(** The values a [for (const x of v)] loop goes through; [name] is the
    source text of [v], which V8 puts in the message. *)
Definition iterate (v : JsValue) (name : jsstring) : Completion (list JsValue) :=
  match v with
  | VArr elems => Return elems
  | VStr s => Return (map VStr (code_point_strings s))
  | _ => Throw (TypeError (name ++ lit " is not iterable"))
  end.

(** [v.forEach(callback)], the callback updating the local variables [st]
    of the caller.  Only an array has a [forEach]. *)
Definition forEach {S : Type} (v : JsValue) (name : jsstring)
  (callback : JsValue -> S -> Completion S) (st : S) : Completion S :=
  match v with
  | VArr elems =>
      fold_left (fun acc e => cbind acc (callback e)) elems (Return st)
  | VUndefined =>
      Throw (TypeError (lit "Cannot read properties of undefined (reading 'forEach')"))
  | VNull =>
      Throw (TypeError (lit "Cannot read properties of null (reading 'forEach')"))
  | _ => Throw (TypeError (name ++ lit ".forEach is not a function"))
  end.

Section Coercion.

(** Whether the number a string converts to ([StringToNumber]) is above
    zero. *)
Variable string_is_positive : jsstring -> bool.

(** [v > 0]: a string is converted to a number, an array through its
    string; an object gives [NaN]. *)
Definition gt_zero (v : JsValue) : bool :=
  match v with
  | VUndefined | VNull => false
  | VBool b => b
  | VNum z => (0 <? z)%Z
  | VStr s => string_is_positive s
  | VArr _ => string_is_positive (ToString v)
  | VObj _ => false
  end.

(** [v && v.length > 0], as a condition. *)
Definition has_items (v : JsValue) : Completion bool :=
  if ToBoolean v then cbind (get v (lit "length")) (fun len => Return (gt_zero len))
  else Return false.

End Coercion.

End Dynamic.

Declare Scope completion_scope.
Delimit Scope completion_scope with completion.
Notation "x <- c ;; k" := (JS.cbind c (fun x => k))
  (at level 61, c at next level, right associativity) : completion_scope.

(** ** The plugin *)

Module MyPlugin.
Import JS Obsidian Dynamic.

(** What the plugin does to its host: the requests sent, the notices
    shown, and the texts put into the active document with
    [editor.replaceRange(text, cursor)], each oldest first.  [activeEditor]
    tells whether the workspace has an active Markdown view. *)
Record World := mkWorld {
  network : Network;
  notices : list jsstring;
  insertions : list jsstring;
  activeEditor : bool
}.

Definition Task (A : Type) := World -> Completion A * World.

Definition ret {A} (a : A) : Task A := fun w => (Return a, w).
Definition pure {A} (c : Completion A) : Task A := fun w => (c, w).

Definition bind {A B} (c : Task A) (k : A -> Task B) : Task B :=
  fun w =>
    match c w with
    | (Return a, w') => k a w'
    | (Throw e, w') => (Throw e, w')
    end.

Definition try_catch {A} (c : Task A) (handler : Exn -> Task A) : Task A :=
  fun w =>
    match c w with
    | (Return a, w') => (Return a, w')
    | (Throw e, w') => handler e w'
    end.

(** [await] of a call of the client. *)
Definition await {A} (c : Async A) : Task A :=
  fun w =>
    let (outcome, n) := c (network w) in
    (outcome, mkWorld n (notices w) (insertions w) (activeEditor w)).

(** [new Notice(message)] *)
Definition Notice (message : jsstring) : Task unit :=
  fun w =>
    (Return tt,
     mkWorld (network w) (notices w ++ [message]) (insertions w) (activeEditor w)).

(** A loop with [await] in its body, the body updating [st]. *)
Fixpoint for_each_task {S : Type} (items : list JsValue)
  (body : JsValue -> S -> Task S) (st : S) : Task S :=
  match items with
  | [] => ret st
  | item :: items' =>
      bind (body item st) (fun st' => for_each_task items' body st')
  end.

End MyPlugin.

Declare Scope task_scope.
Delimit Scope task_scope with task.
Notation "x <- c ;; k" := (MyPlugin.bind c (fun x => k))
  (at level 61, c at next level, right associativity) : task_scope.
Notation "c ;;; k" := (MyPlugin.bind c (fun _ => k))
  (at level 61, right associativity) : task_scope.

Module MyPluginMethods.
Import JS Obsidian Dynamic MyPlugin.

Section Methods.

Variable JSON_stringify : JsValue -> jsstring.
Variable server : Server.
Variable string_is_positive : jsstring -> bool.

(** [new Date(value).toLocaleDateString()] and [toLocaleTimeString()], which
    depend on the locale and the time zone of the host. *)
Variable toLocaleDateString : JsValue -> jsstring.
Variable toLocaleTimeString : JsValue -> jsstring.

(** [this.canvasApi] *)
Variable canvasApi : CanvasAPI.t.

Definition formatDate (dateStr : JsValue) : jsstring :=
  if negb (ToBoolean dateStr) then lit "No date"
  else toLocaleDateString dateStr ++ lit " " ++ toLocaleTimeString dateStr.

Definition insertTextIntoCurrentDocument (text : jsstring) : Task bool :=
  fun w =>
    if activeEditor w then
      (Return true,
       mkWorld (network w) (notices w) (insertions w ++ [text]) (activeEditor w))
    else
      (Return false,
       mkWorld (network w)
         (notices w ++ [lit "No active document to insert text into"])
         (insertions w) (activeEditor w)).

(** The end of every fetch method: insert the text when asked to, and say
    so when it went in. *)
Definition insert_when_asked (insertIntoNote : bool)
  (outputText done : jsstring) : Task unit :=
  if insertIntoNote then
    (inserted <- insertTextIntoCurrentDocument outputText ;;
     if inserted then Notice done else ret tt)%task
  else ret tt.

Definition testCanvasConnection : Task bool :=
  try_catch
    (Notice (lit "Testing Canvas API connection...") ;;;
     isConnected <- await (CanvasAPI.testConnection JSON_stringify server canvasApi) ;;
     if isConnected then
       Notice (lit "Canvas API connection successful!") ;;; ret true
     else
       Notice (lit "Failed to connect to Canvas API.") ;;; ret false)%task
    (fun error =>
       (Notice (lit "Connection test failed: " ++ message_or_unknown error) ;;;
        ret false)%task).

(** One assignment of the table of [fetchCanvasData]; the local variables
    are the text and the two counters. *)
Definition assignment_row (assignment : JsValue)
  (st : jsstring * nat * nat) : Completion (jsstring * nat * nat) :=
  let '(outputText, completedCount, pendingCount) := st in
  (due_at <- get assignment (lit "due_at") ;;
   if ToBoolean due_at then
     submitted <- get assignment (lit "has_submitted_submissions") ;;
     let status :=
       if ToBoolean submitted then 0x2705%N :: lit " Completed"
       else 0x23F3%N :: lit " Pending" in
     let counts :=
       if ToBoolean submitted then (S completedCount, pendingCount)
       else (completedCount, S pendingCount) in
     name <- get assignment (lit "name") ;;
     due_at' <- get assignment (lit "due_at") ;;
     Return (outputText ++ lit "| " ++ ToString name ++ lit " | "
               ++ formatDate due_at' ++ lit " | " ++ status ++ lit " |" ++ nl,
             fst counts, snd counts)
   else Return st)%completion.

(** The text for the assignments of one course. *)
Definition assignments_section (assignments : JsValue) (outputText : jsstring)
  : Completion jsstring :=
  (some <- has_items string_is_positive assignments ;;
   if some then
     let outputText :=
       outputText ++ lit "| Assignment | Due Date | Status |" ++ nl
         ++ lit "| --- | --- | --- |" ++ nl in
     st <- forEach assignments (lit "assignments") assignment_row
             (outputText, 0%nat, 0%nat) ;;
     let '(outputText, completedCount, pendingCount) := st in
     Return (outputText ++ nl ++ lit "**Summary:** "
               ++ number_to_string (Z.of_nat completedCount)
               ++ lit " completed, "
               ++ number_to_string (Z.of_nat pendingCount)
               ++ lit " pending assignments" ++ nl ++ nl)
   else
     Return (outputText ++ lit "No assignments found for this course." ++ nl ++ nl)
  )%completion.

Definition course_line (course : JsValue) (outputText : jsstring)
  : Completion jsstring :=
  (name <- get course (lit "name") ;;
   id <- get course (lit "id") ;;
   Return (outputText ++ lit "- **" ++ ToString name ++ lit "** (ID: "
             ++ ToString id ++ lit ")" ++ nl))%completion.

Definition course_assignments (course : JsValue) (outputText : jsstring)
  : Task jsstring :=
  (name <- pure (get course (lit "name")) ;;
   let outputText :=
     outputText ++ nl ++ lit "### Assignments for " ++ ToString name ++ nl ++ nl in
   id <- pure (get course (lit "id")) ;;
   assignments <- await (CanvasAPI.getCourseAssignments JSON_stringify server
                           canvasApi id) ;;
   pure (assignments_section assignments outputText))%task.

Definition fetchCanvasData (insertIntoNote : bool) : Task unit :=
  try_catch
    (Notice (lit "Fetching Canvas courses...") ;;;
     courses <- await (CanvasAPI.getCourses JSON_stringify server canvasApi
                         (Some (lit "student")) (Some (lit "active"))) ;;
     let outputText : jsstring := [] in
     some <- pure (has_items string_is_positive courses) ;;
     outputText <-
       (if some : bool then
          let outputText := outputText ++ lit "## Canvas Active Courses" ++ nl ++ nl in
          outputText <- pure (forEach courses (lit "courses") course_line outputText) ;;
          items <- pure (iterate courses (lit "courses")) ;;
          for_each_task items course_assignments outputText
        else ret outputText) ;;
     length <- pure (get courses (lit "length")) ;;
     Notice (lit "Fetched " ++ ToString length ++ lit " courses") ;;;
     insert_when_asked insertIntoNote outputText
       (lit "Canvas courses data inserted into note"))%task
    (fun error =>
       Notice (lit "Failed to fetch Canvas data: " ++ message_or_unknown error)).

Definition fetchCanvasUserProfile (insertIntoNote : bool) : Task unit :=
  try_catch
    (Notice (lit "Fetching Canvas user profile...") ;;;
     profile <- await (CanvasAPI.getUserProfile JSON_stringify server canvasApi) ;;
     name <- pure (get profile (lit "name")) ;;
     id <- pure (get profile (lit "id")) ;;
     primary_email <- pure (get profile (lit "primary_email")) ;;
     email <- pure (get profile (lit "email")) ;;
     login_id <- pure (get profile (lit "login_id")) ;;
     let outputText :=
       lit "## Canvas User Profile" ++ nl ++ nl
         ++ lit "- **Name:** " ++ ToString name ++ nl
         ++ lit "- **ID:** " ++ ToString id ++ nl
         ++ lit "- **Email:** " ++ ToString (or_else primary_email email) ++ nl
         ++ lit "- **Login ID:** " ++ ToString login_id ++ nl ++ nl in
     Notice (lit "Fetched profile for " ++ ToString name) ;;;
     insert_when_asked insertIntoNote outputText
       (lit "Canvas profile data inserted into note"))%task
    (fun error =>
       Notice (lit "Failed to fetch user profile: " ++ message_or_unknown error)).

Definition event_row (event : JsValue) (outputText : jsstring)
  : Completion jsstring :=
  (title <- get event (lit "title") ;;
   start_at <- get event (lit "start_at") ;;
   context_name <- get event (lit "context_name") ;;
   Return (outputText ++ lit "| " ++ ToString title ++ lit " | "
             ++ formatDate start_at ++ lit " | "
             ++ ToString (or_else context_name (VStr (lit "N/A")))
             ++ lit " |" ++ nl))%completion.

Definition fetchCanvasEvents (insertIntoNote : bool) : Task unit :=
  try_catch
    (Notice (lit "Fetching Canvas upcoming events...") ;;;
     events <- await (CanvasAPI.getUpcomingEvents JSON_stringify server canvasApi) ;;
     let outputText := lit "## Canvas Upcoming Events" ++ nl ++ nl in
     some <- pure (has_items string_is_positive events) ;;
     outputText <-
       pure (if some : bool then
               forEach events (lit "events") event_row
                 (outputText ++ lit "| Event | Date | Course |" ++ nl
                    ++ lit "| --- | --- | --- |" ++ nl)
             else Return (outputText ++ lit "No upcoming events found." ++ nl)) ;;
     length <- pure (get events (lit "length")) ;;
     Notice (lit "Fetched " ++ ToString length ++ lit " upcoming events") ;;;
     insert_when_asked insertIntoNote outputText
       (lit "Canvas events data inserted into note"))%task
    (fun error =>
       Notice (lit "Failed to fetch events: " ++ message_or_unknown error)).

Definition todo_row (todo : JsValue) (outputText : jsstring)
  : Completion jsstring :=
  (assignment <- get todo (lit "assignment") ;;
   name <- get assignment (lit "name") ;;
   context_name <- get todo (lit "context_name") ;;
   assignment' <- get todo (lit "assignment") ;;
   due_at <- get assignment' (lit "due_at") ;;
   Return (outputText ++ lit "| " ++ ToString name ++ lit " | "
             ++ ToString context_name ++ lit " | " ++ formatDate due_at
             ++ lit " |" ++ nl))%completion.

Definition fetchCanvasTodoItems (insertIntoNote : bool) : Task unit :=
  try_catch
    (Notice (lit "Fetching Canvas todo items...") ;;;
     todos <- await (CanvasAPI.getTodoItems JSON_stringify server canvasApi) ;;
     let outputText := lit "## Canvas Todo Items" ++ nl ++ nl in
     some <- pure (has_items string_is_positive todos) ;;
     outputText <-
       pure (if some : bool then
               forEach todos (lit "todos") todo_row
                 (outputText ++ lit "| Assignment | Course | Due Date |" ++ nl
                    ++ lit "| --- | --- | --- |" ++ nl)
             else Return (outputText ++ lit "No todo items found." ++ nl)) ;;
     length <- pure (get todos (lit "length")) ;;
     Notice (lit "Fetched " ++ ToString length ++ lit " todo items") ;;;
     insert_when_asked insertIntoNote outputText
       (lit "Canvas todo items inserted into note"))%task
    (fun error =>
       Notice (lit "Failed to fetch todo items: " ++ message_or_unknown error)).

Definition grade_row (course : JsValue) (outputText : jsstring)
  : Completion jsstring :=
  (enrollments <- get course (lit "enrollments") ;;
   some <- has_items string_is_positive enrollments ;;
   if some : bool then
     enrollments' <- get course (lit "enrollments") ;;
     enrollment <- get_first enrollments' ;;
     computed_current_grade <- get enrollment (lit "computed_current_grade") ;;
     let grade := or_else computed_current_grade (VStr (lit "N/A")) in
     computed_current_score <- get enrollment (lit "computed_current_score") ;;
     let score := or_else computed_current_score (VStr (lit "N/A")) in
     name <- get course (lit "name") ;;
     Return (outputText ++ lit "| " ++ ToString name ++ lit " | "
               ++ ToString grade ++ lit " | " ++ ToString score ++ lit " |" ++ nl)
   else
     name <- get course (lit "name") ;;
     Return (outputText ++ lit "| " ++ ToString name
               ++ lit " | No grade | No score |" ++ nl))%completion.

Definition fetchCanvasGrades (insertIntoNote : bool) : Task unit :=
  try_catch
    (Notice (lit "Fetching Canvas course grades...") ;;;
     courses <- await (CanvasAPI.getCourseGrades JSON_stringify server canvasApi) ;;
     let outputText :=
       lit "## Canvas Course Grades" ++ nl ++ nl
         ++ lit "| Course | Grade | Score |" ++ nl
         ++ lit "| --- | --- | --- |" ++ nl in
     some <- pure (has_items string_is_positive courses) ;;
     outputText <-
       pure (if some : bool then
               forEach courses (lit "courses") grade_row outputText
             else Return (outputText ++ lit "No courses with grades found." ++ nl)) ;;
     length <- pure (get courses (lit "length")) ;;
     Notice (lit "Fetched grades for " ++ ToString length ++ lit " courses") ;;;
     insert_when_asked insertIntoNote outputText
       (lit "Canvas grades data inserted into note"))%task
    (fun error =>
       Notice (lit "Failed to fetch grades: " ++ message_or_unknown error)).

End Methods.

End MyPluginMethods.

(** ** The fetch commands, by their parts *)

Module Report.
Import JS Dynamic MyPlugin MyPluginMethods Obsidian Observe.

Inductive FetchCommand := Courses | Profile | Events | Todos | Grades.

Definition start_notice (c : FetchCommand) : jsstring :=
  match c with
  | Courses => lit "Fetching Canvas courses..."
  | Profile => lit "Fetching Canvas user profile..."
  | Events => lit "Fetching Canvas upcoming events..."
  | Todos => lit "Fetching Canvas todo items..."
  | Grades => lit "Fetching Canvas course grades..."
  end.

Definition failure_prefix (c : FetchCommand) : jsstring :=
  match c with
  | Courses => lit "Failed to fetch Canvas data: "
  | Profile => lit "Failed to fetch user profile: "
  | Events => lit "Failed to fetch events: "
  | Todos => lit "Failed to fetch todo items: "
  | Grades => lit "Failed to fetch grades: "
  end.

Definition inserted_notice (c : FetchCommand) : jsstring :=
  match c with
  | Courses => lit "Canvas courses data inserted into note"
  | Profile => lit "Canvas profile data inserted into note"
  | Events => lit "Canvas events data inserted into note"
  | Todos => lit "Canvas todo items inserted into note"
  | Grades => lit "Canvas grades data inserted into note"
  end.

(** The notice that counts what was fetched, around the count. *)
Definition fetched_notice (c : FetchCommand) (count : jsstring) : jsstring :=
  match c with
  | Courses => lit "Fetched " ++ count ++ lit " courses"
  | Profile => lit "Fetched profile for " ++ count
  | Events => lit "Fetched " ++ count ++ lit " upcoming events"
  | Todos => lit "Fetched " ++ count ++ lit " todo items"
  | Grades => lit "Fetched grades for " ++ count ++ lit " courses"
  end.

(** The world with other requests sent. *)
Definition with_network (w : World) (n : Network) : World :=
  mkWorld n (notices w) (insertions w) (activeEditor w).

(** How a fetch command ends, from the world [w] it started in, the
    requests [n] sent by then, and what it gathered: the notice of what was
    fetched and the text, or the error that stopped it. *)
Definition finish (c : FetchCommand) (insertIntoNote : bool) (w : World)
  (gathered : Completion (jsstring * jsstring)) (n : Network)
  : Completion unit * World :=
  match gathered with
  | Throw error =>
      (Return tt,
       mkWorld n
         (notices w ++ [start_notice c;
                        failure_prefix c ++ message_or_unknown error])
         (insertions w) (activeEditor w))
  | Return (fetched, outputText) =>
      if insertIntoNote then
        if activeEditor w then
          (Return tt,
           mkWorld n (notices w ++ [start_notice c; fetched; inserted_notice c])
             (insertions w ++ [outputText]) (activeEditor w))
        else
          (Return tt,
           mkWorld n
             (notices w ++ [start_notice c; fetched;
                            lit "No active document to insert text into"])
             (insertions w) (activeEditor w))
      else
        (Return tt,
         mkWorld n (notices w ++ [start_notice c; fetched])
           (insertions w) (activeEditor w))
  end.

(** The value of a property of a value that is not [undefined] or [null]. *)
Definition prop (v : JsValue) (k : jsstring) : JsValue :=
  match get v k with
  | Return x => x
  | Throw _ => VUndefined
  end.

Definition defined (v : JsValue) : bool :=
  match v with
  | VUndefined | VNull => false
  | _ => true
  end.

(** The elements of an array; nothing for any other value. *)
Definition elements (v : JsValue) : list JsValue :=
  match v with
  | VArr elems => elems
  | _ => []
  end.

(** The heading of each text, with the head of its table. *)
Definition heading (c : FetchCommand) : jsstring :=
  match c with
  | Courses => lit "## Canvas Active Courses" ++ nl ++ nl
  | Profile => lit "## Canvas User Profile" ++ nl ++ nl
  | Events => lit "## Canvas Upcoming Events" ++ nl ++ nl
  | Todos => lit "## Canvas Todo Items" ++ nl ++ nl
  | Grades => lit "## Canvas Course Grades" ++ nl ++ nl
                ++ lit "| Course | Grade | Score |" ++ nl
                ++ lit "| --- | --- | --- |" ++ nl
  end.

Definition table_head (c : FetchCommand) : jsstring :=
  match c with
  | Events => lit "| Event | Date | Course |" ++ nl ++ lit "| --- | --- | --- |" ++ nl
  | Todos => lit "| Assignment | Course | Due Date |" ++ nl
               ++ lit "| --- | --- | --- |" ++ nl
  | _ => []
  end.

(** The text for an empty list. *)
Definition nothing_found (c : FetchCommand) : jsstring :=
  match c with
  | Courses => []
  | Profile => []
  | Events => heading Events ++ lit "No upcoming events found." ++ nl
  | Todos => heading Todos ++ lit "No todo items found." ++ nl
  | Grades => heading Grades ++ lit "No courses with grades found." ++ nl
  end.

Section Commands.

Variable JSON_stringify : JsValue -> jsstring.
Variable server : Server.
Variable string_is_positive : jsstring -> bool.
Variable toLocaleDateString : JsValue -> jsstring.
Variable toLocaleTimeString : JsValue -> jsstring.
Variable canvasApi : CanvasAPI.t.

Definition run_fetch (c : FetchCommand) (insertIntoNote : bool) : Task unit :=
  match c with
  | Courses =>
      fetchCanvasData JSON_stringify server string_is_positive
        toLocaleDateString toLocaleTimeString canvasApi insertIntoNote
  | Profile => fetchCanvasUserProfile JSON_stringify server canvasApi insertIntoNote
  | Events =>
      fetchCanvasEvents JSON_stringify server string_is_positive
        toLocaleDateString toLocaleTimeString canvasApi insertIntoNote
  | Todos =>
      fetchCanvasTodoItems JSON_stringify server string_is_positive
        toLocaleDateString toLocaleTimeString canvasApi insertIntoNote
  | Grades =>
      fetchCanvasGrades JSON_stringify server string_is_positive canvasApi
        insertIntoNote
  end.

(** The first call of the client a command makes. *)
Definition first_call (c : FetchCommand) : Async JsValue :=
  match c with
  | Courses =>
      CanvasAPI.getCourses JSON_stringify server canvasApi
        (Some (lit "student")) (Some (lit "active"))
  | Profile => CanvasAPI.getUserProfile JSON_stringify server canvasApi
  | Events => CanvasAPI.getUpcomingEvents JSON_stringify server canvasApi
  | Todos => CanvasAPI.getTodoItems JSON_stringify server canvasApi
  | Grades => CanvasAPI.getCourseGrades JSON_stringify server canvasApi
  end.

(** What the profile command makes of the body. *)
Definition profile_report (profile : JsValue) : Completion (jsstring * jsstring) :=
  (name <- get profile (lit "name") ;;
   Return (fetched_notice Profile (ToString name),
           heading Profile
             ++ lit "- **Name:** " ++ ToString name ++ nl
             ++ lit "- **ID:** " ++ ToString (prop profile (lit "id")) ++ nl
             ++ lit "- **Email:** "
             ++ ToString (or_else (prop profile (lit "primary_email"))
                            (prop profile (lit "email"))) ++ nl
             ++ lit "- **Login ID:** " ++ ToString (prop profile (lit "login_id"))
             ++ nl ++ nl))%completion.

(** What a list command makes of the body, [row] being the callback of its
    [forEach] and [name] the variable the body is in. *)
Definition list_report (c : FetchCommand) (name : jsstring)
  (row : JsValue -> jsstring -> Completion jsstring) (body : JsValue)
  : Completion (jsstring * jsstring) :=
  (some <- has_items string_is_positive body ;;
   outputText <-
     (if some : bool then forEach body name row (heading c ++ table_head c)
      else Return (nothing_found c)) ;;
   length <- get body (lit "length") ;;
   Return (fetched_notice c (ToString length), outputText))%completion.

(** The lines of the three tables, for an element that has its
    properties. *)
Definition event_line (event : JsValue) : jsstring :=
  lit "| " ++ ToString (prop event (lit "title")) ++ lit " | "
    ++ formatDate toLocaleDateString toLocaleTimeString
         (prop event (lit "start_at")) ++ lit " | "
    ++ ToString (or_else (prop event (lit "context_name")) (VStr (lit "N/A")))
    ++ lit " |" ++ nl.

Definition todo_line (todo : JsValue) : jsstring :=
  lit "| " ++ ToString (prop (prop todo (lit "assignment")) (lit "name"))
    ++ lit " | " ++ ToString (prop todo (lit "context_name")) ++ lit " | "
    ++ formatDate toLocaleDateString toLocaleTimeString
         (prop (prop todo (lit "assignment")) (lit "due_at"))
    ++ lit " |" ++ nl.

(** Whether a course has a first enrollment to take the grade from. *)
Definition has_enrollment (course : JsValue) : bool :=
  match has_items string_is_positive (prop course (lit "enrollments")) with
  | Return some => some
  | Throw _ => false
  end.

Definition first_enrollment (course : JsValue) : JsValue :=
  match get_first (prop course (lit "enrollments")) with
  | Return enrollment => enrollment
  | Throw _ => VUndefined
  end.

Definition grade_line (course : JsValue) : jsstring :=
  if has_enrollment course then
    lit "| " ++ ToString (prop course (lit "name")) ++ lit " | "
      ++ ToString (or_else (prop (first_enrollment course)
                              (lit "computed_current_grade"))
                     (VStr (lit "N/A")))
      ++ lit " | "
      ++ ToString (or_else (prop (first_enrollment course)
                              (lit "computed_current_score"))
                     (VStr (lit "N/A")))
      ++ lit " |" ++ nl
  else
    lit "| " ++ ToString (prop course (lit "name"))
      ++ lit " | No grade | No score |" ++ nl.

(** The assignments that get a row: those with a due date; and among them
    the submitted ones. *)
Definition has_due_date (assignment : JsValue) : bool :=
  ToBoolean (prop assignment (lit "due_at")).

Definition is_submitted (assignment : JsValue) : bool :=
  ToBoolean (prop assignment (lit "has_submitted_submissions")).

Definition assignment_line (assignment : JsValue) : jsstring :=
  lit "| " ++ ToString (prop assignment (lit "name")) ++ lit " | "
    ++ formatDate toLocaleDateString toLocaleTimeString
         (prop assignment (lit "due_at")) ++ lit " | "
    ++ (if is_submitted assignment then 0x2705%N :: lit " Completed"
        else 0x23F3%N :: lit " Pending")
    ++ lit " |" ++ nl.

(** The course id of an element of the courses, for its assignments
    request. *)
Definition course_id (course : JsValue) : JsValue := prop course (lit "id").

(** One turn of the loop over the courses in [fetchCanvasData], and the
    loop, as calls of the client. *)
Definition course_calls (course : JsValue) (outputText : jsstring)
  : Async jsstring :=
  (name <- lift (get course (lit "name")) ;;
   id <- lift (get course (lit "id")) ;;
   assignments <- CanvasAPI.getCourseAssignments JSON_stringify server
                    canvasApi id ;;
   lift (assignments_section string_is_positive toLocaleDateString
           toLocaleTimeString assignments
           (outputText ++ nl ++ lit "### Assignments for " ++ ToString name
              ++ nl ++ nl)))%async.

Fixpoint for_each_call {S : Type} (items : list JsValue)
  (body : JsValue -> S -> Async S) (st : S) : Async S :=
  match items with
  | [] => Obsidian.ret st
  | item :: items' =>
      Obsidian.bind (body item st) (fun st' => for_each_call items' body st')
  end.

(** What a command gathers between its first notice and its last ones: the
    notice of what was fetched and the text. *)
Definition gather (c : FetchCommand) : Async (jsstring * jsstring) :=
  match c with
  | Courses =>
      (courses <- first_call Courses ;;
       some <- lift (has_items string_is_positive courses) ;;
       outputText <-
         (if some : bool then
            outputText <- lift (forEach courses (lit "courses") course_line
                                  (heading Courses)) ;;
            items <- lift (iterate courses (lit "courses")) ;;
            for_each_call items course_calls outputText
          else Obsidian.ret []) ;;
       length <- lift (get courses (lit "length")) ;;
       Obsidian.ret (fetched_notice Courses (ToString length), outputText))%async
  | Profile => (body <- first_call Profile ;; lift (profile_report body))%async
  | Events =>
      (body <- first_call Events ;;
       lift (list_report Events (lit "events")
               (event_row toLocaleDateString toLocaleTimeString) body))%async
  | Todos =>
      (body <- first_call Todos ;;
       lift (list_report Todos (lit "todos")
               (todo_row toLocaleDateString toLocaleTimeString) body))%async
  | Grades =>
      (body <- first_call Grades ;;
       lift (list_report Grades (lit "courses")
               (grade_row string_is_positive) body))%async
  end.

(** The line of the table of a list command for one element, and the
    elements a line can be made for: they are not [undefined] or [null], a
    todo item has its [assignment], and a course with enrollments has a
    first one. *)
Definition line (c : FetchCommand) (item : JsValue) : jsstring :=
  match c with
  | Events => event_line item
  | Todos => todo_line item
  | Grades => grade_line item
  | Courses | Profile => []
  end.

Definition row_ok (c : FetchCommand) (item : JsValue) : bool :=
  match c with
  | Events => defined item
  | Todos => defined item && defined (prop item (lit "assignment"))
  | Grades =>
      defined item
      && (negb (has_enrollment item) || defined (first_enrollment item))
  | Courses | Profile => false
  end.

Definition is_list_command (c : FetchCommand) : bool :=
  match c with
  | Events | Todos | Grades => true
  | Courses | Profile => false
  end.

(** The URL, before the proxy step, of the assignments request for a
    course. *)
Definition assignments_target (course : JsValue) : jsstring :=
  target_url (CanvasAPI.apiUrl canvasApi)
    (lit "/courses/" ++ ToString (course_id course) ++ lit "/assignments")
    [(lit "per_page", VNum 50)].

End Commands.

End Report.

(** ** The client object, its fields holding values of any type *)

Module CanvasAPIObject.
Import JS Dynamic.

(** The fields of a [CanvasAPI] object.  The declared types of the
    settings are not checked when the program runs: a field holds what the
    settings object held, and only [apiUrl] is certain to be a string, the
    result of [replace]. *)
Record t := mk {
  apiUrl : jsstring;
  accessToken : JsValue;
  useProxy : JsValue;
  corsProxyUrl : JsValue
}.

(** [value.replace(/\/$/, '')]: a string has the method [replace], no other
    value of a data file has; [name] is the source text of [value]. *)
Definition replace_of (value : JsValue) (name : jsstring) : Completion jsstring :=
  match value with
  | VStr s => Return (replace_trailing_slash s)
  | VUndefined =>
      Throw (TypeError (lit "Cannot read properties of undefined (reading 'replace')"))
  | VNull =>
      Throw (TypeError (lit "Cannot read properties of null (reading 'replace')"))
  | _ => Throw (TypeError (name ++ lit ".replace is not a function"))
  end.

Definition constructor (settings : JsObject) : Completion t :=
  (canvasApiUrl <- get (VObj settings) (lit "canvasApiUrl") ;;
   apiUrl <- replace_of canvasApiUrl (lit "settings.canvasApiUrl") ;;
   accessToken <- get (VObj settings) (lit "canvasApiToken") ;;
   useProxy <- get (VObj settings) (lit "useProxy") ;;
   corsProxyUrl <- get (VObj settings) (lit "corsProxyUrl") ;;
   Return (mk apiUrl accessToken useProxy corsProxyUrl))%completion.

(** The object as a client of the declared types, when its fields hold
    values of these types. *)
Definition as_declared (this : t) : option CanvasAPI.t :=
  match accessToken this, useProxy this, corsProxyUrl this with
  | VStr token, VBool flag, VStr proxy =>
      Some (CanvasAPI.mkCanvasAPI (apiUrl this) token flag proxy)
  | _, _, _ => None
  end.

End CanvasAPIObject.

(** ** The settings of the plugin and their file *)

Module Persistence.
Import JS Dynamic.

(** [Object.assign(target, ...sources)], the sources being [null] (here
    [None]) or objects: a source that is [null] is skipped, and the
    properties of an object are assigned to the target in their order. *)
Definition assign_from (target : JsObject) (source : option JsObject) : JsObject :=
  match source with
  | None => target
  | Some props => fold_left (fun o kv => obj_set o (fst kv) (snd kv)) props target
  end.

Definition Object_assign (target : JsObject) (sources : list (option JsObject))
  : JsObject :=
  fold_left assign_from sources target.

(** A settings value as the object it is. *)
Definition settings_object (s : Settings.MyPluginSettings) : JsObject :=
  [(lit "mySetting", VStr (Settings.mySetting s));
   (lit "canvasApiUrl", VStr (Settings.canvasApiUrl s));
   (lit "canvasApiToken", VStr (Settings.canvasApiToken s));
   (lit "useProxy", VBool (Settings.useProxy s));
   (lit "corsProxyUrl", VStr (Settings.corsProxyUrl s))].

(** An object read as a settings value, when its five properties have the
    declared types. *)
Definition typed_settings (o : JsObject) : option Settings.MyPluginSettings :=
  match lookup o (lit "mySetting"), lookup o (lit "canvasApiUrl"),
        lookup o (lit "canvasApiToken"), lookup o (lit "useProxy"),
        lookup o (lit "corsProxyUrl") with
  | Some (VStr a), Some (VStr b), Some (VStr c), Some (VBool d), Some (VStr e) =>
      Some (Settings.mkSettings a b c d e)
  | _, _, _, _, _ => None
  end.

(** [loadSettings]: [data] is what [loadData()] resolves with, [null] when
    there is no data file yet. *)
Definition loadSettings (data : option JsObject) : JsObject :=
  Object_assign [] [Some (settings_object Settings.DEFAULT_SETTINGS); data].

(** *** The data file

    The data file holds JSON.  [JSON_copy v] is
    [JSON.parse(JSON.stringify(v))], what is read back after [v] was
    written: a property whose value is [undefined] is left out,
    [undefined] in an array and an infinite number become [null], and every
    other value comes back as it was. *)
Fixpoint JSON_copy (v : JsValue) : JsValue :=
  match v with
  | VUndefined => VNull
  | VNum z => if is_finite z then v else VNull
  | VArr elems => VArr (map JSON_copy elems)
  | VObj props =>
      VObj (flat_map (fun kv : jsstring * JsValue =>
                        let (k, x) := kv in
                        match x with
                        | VUndefined => @nil (jsstring * JsValue)
                        | _ => [(k, JSON_copy x)]
                        end) props)
  | _ => v
  end.

Definition JSON_props (o : JsObject) : JsObject :=
  flat_map (fun kv : jsstring * JsValue =>
              let (k, x) := kv in
              match x with
              | VUndefined => @nil (jsstring * JsValue)
              | _ => [(k, JSON_copy x)]
              end) o.

(** The values that are written as they are: no [undefined] and no
    infinite number anywhere. *)
Fixpoint is_JSON (v : JsValue) : bool :=
  match v with
  | VUndefined => false
  | VNum z => is_finite z
  | VArr elems => forallb is_JSON elems
  | VObj props =>
      forallb (fun kv : jsstring * JsValue => let (_, x) := kv in is_JSON x) props
  | _ => true
  end.

(** A property name that is kept in its place and assigned as any other:
    it does not start with a digit, as an array index does, and it is not
    [__proto__]. *)
Definition plain_name (k : jsstring) : bool :=
  match k with
  | c :: _ => negb (is_digit c)
  | [] => true
  end
  && (if list_eq_dec N.eq_dec k (lit "__proto__") then false else true).

(** An object of a data file: its property names are distinct and plain,
    its values are JSON. *)
Definition JSON_object (o : JsObject) : Prop :=
  NoDup (map fst o)
  /\ forallb plain_name (map fst o) = true
  /\ is_JSON (VObj o) = true.

(** A data file: none, or a JSON object. *)
Definition data_file (file : option JsObject) : Prop :=
  match file with
  | None => True
  | Some o => JSON_object o
  end.

(** The settings have the properties of [DEFAULT_SETTINGS], as after
    [loadSettings]. *)
Definition has_defaults (o : JsObject) : bool :=
  forallb (fun k => match lookup o k with Some _ => true | None => false end)
    (Object_keys (settings_object Settings.DEFAULT_SETTINGS)).

(** The settings as [loadSettings] and the settings tab leave them. *)
Definition kept_settings (o : JsObject) : Prop :=
  JSON_object o /\ has_defaults o = true.

(** The plugin: its settings, its client, and the content of its data
    file.  [this.settings] is the object [Object.assign] made, with every
    property of the data file, whatever its name and the type of its
    value. *)
Record Plugin := mkPlugin {
  settings : JsObject;
  canvasApi : CanvasAPIObject.t;
  data : option JsObject
}.

(** [saveSettings]; [failure] is the error [saveData] rejects with, if it
    does, and a save that fails leaves the file as it was.  The client is
    made after the file is written. *)
Definition saveSettings (failure : option Exn) (p : Plugin)
  : Completion unit * Plugin :=
  match failure with
  | Some error => (Throw error, p)
  | None =>
      let written := Some (JSON_props (settings p)) in
      match CanvasAPIObject.constructor (settings p) with
      | Return client =>
          (Return tt,
           {| settings := settings p; canvasApi := client; data := written |})
      | Throw error =>
          (Throw error,
           {| settings := settings p; canvasApi := canvasApi p; data := written |})
      end
  end.

(** The four fields of the settings tab: three text fields and a
    toggle. *)
Inductive Change :=
| SetCanvasApiUrl (value : jsstring)
| SetCanvasApiToken (value : jsstring)
| SetUseProxy (value : bool)
| SetCorsProxyUrl (value : jsstring).

(** [this.plugin.settings.canvasApiUrl = value] and the like. *)
Definition apply_change (c : Change) (settings : JsObject) : JsObject :=
  match c with
  | SetCanvasApiUrl value => obj_set settings (lit "canvasApiUrl") (VStr value)
  | SetCanvasApiToken value => obj_set settings (lit "canvasApiToken") (VStr value)
  | SetUseProxy value => obj_set settings (lit "useProxy") (VBool value)
  | SetCorsProxyUrl value => obj_set settings (lit "corsProxyUrl") (VStr value)
  end.

(** The [onChange] handler of a field: set the field, then
    [saveSettings]. *)
Definition onChange (c : Change) (failure : option Exn) (p : Plugin)
  : Completion unit * Plugin :=
  saveSettings failure
    {| settings := apply_change c (settings p);
       canvasApi := canvasApi p;
       data := data p |}.

(** A session in the settings tab: changes, each with the outcome of its
    save, and each settled before the next one is made. *)
Fixpoint session (events : list (Change * option Exn)) (p : Plugin) : Plugin :=
  match events with
  | [] => p
  | (c, failure) :: events' => session events' (snd (onChange c failure p))
  end.

(** The start of [onload]: [loadSettings], then the client.  Nothing checks
    the types of what the data file holds; [onload] rejects when the
    constructor raises. *)
Definition onload (file : option JsObject) : Completion Plugin :=
  let settings := loadSettings file in
  (client <- CanvasAPIObject.constructor settings ;;
   Return {| settings := settings; canvasApi := client; data := file |})%completion.

(** The client a restart would make from the data file. *)
Definition client_after_restart (p : Plugin) : Completion CanvasAPIObject.t :=
  CanvasAPIObject.constructor (loadSettings (data p)).

End Persistence.

(** ** Sample answers and worlds, for the examples *)

Module Samples.
Import JS Obsidian Dynamic MyPlugin Observe.

(** A world in which nothing has happened yet and an editor is active. *)
Definition fresh_world : World := mkWorld [] [] [] true.

(** Stand-ins for the conversions of the host. *)
Definition no_string_is_positive (s : jsstring) : bool := false.
Definition date_stub (value : JsValue) : jsstring := ToString value.
Definition time_stub (value : JsValue) : jsstring := lit "noon".

Definition get_to (path : jsstring) : RequestUrlParam :=
  get_request default_client (lit "https://canvas.instructure.com" ++ path).

Definition two_events : list JsValue :=
  [VObj [(lit "title", VStr (lit "Quiz"));
         (lit "start_at", VStr (lit "2025-01-10"));
         (lit "context_name", VStr (lit "Algebra"))];
   VObj [(lit "title", VStr (lit "Open day"))]].

Definition three_assignments : list JsValue :=
  [VObj [(lit "name", VStr (lit "Essay"));
         (lit "due_at", VStr (lit "2025-02-01"));
         (lit "has_submitted_submissions", VBool true)];
   VObj [(lit "name", VStr (lit "Reading"))];
   VObj [(lit "name", VStr (lit "Lab"));
         (lit "due_at", VStr (lit "2025-02-03"));
         (lit "has_submitted_submissions", VBool false)]].

Definition two_courses : JsValue :=
  VArr [VObj [(lit "name", VStr (lit "Algebra")); (lit "id", VNum 11)];
        VObj [(lit "name", VStr (lit "Botany")); (lit "id", VNum 12)]].

(** A remote side with two courses, each with the three assignments. *)
Definition school : Server :=
  fun _ param =>
    if includes (url param) (lit "/assignments")
    then Return {| status := 200; text := lit "[...]";
                   json := VArr three_assignments |}
    else Return {| status := 200; text := lit "[...]"; json := two_courses |}.

(** A data file left by another version of the plugin: its flag is no
    boolean, and it has a property that is no declared setting; the
    settings and the client [onload] makes of it. *)
Definition old_file : JsObject :=
  [(lit "useProxy", VStr (lit "yes")); (lit "lastCourse", VNum 11)].

Definition old_settings : JsObject :=
  [(lit "mySetting", VStr (lit "default"));
   (lit "canvasApiUrl", VStr (lit "https://canvas.instructure.com"));
   (lit "canvasApiToken", VStr []);
   (lit "useProxy", VStr (lit "yes"));
   (lit "corsProxyUrl", VStr (lit "https://cors-anywhere.herokuapp.com/"));
   (lit "lastCourse", VNum 11)].

Definition old_client : CanvasAPIObject.t :=
  CanvasAPIObject.mk (lit "https://canvas.instructure.com") (VStr [])
    (VStr (lit "yes")) (VStr (lit "https://cors-anywhere.herokuapp.com/")).

Definition old_plugin : Persistence.Plugin :=
  Persistence.mkPlugin old_settings old_client (Some old_file).

(** A client whose base URL has a surrogate without its partner. *)
Definition malformed_base : jsstring := lit "https://canvas" ++ [0xD800%N].

End Samples.

(** ** Further observations on requests *)

Module Shape.
Import JS Obsidian.

(** Every code unit fits in sixteen bits, as in any JavaScript string. *)
Definition proper (s : jsstring) : bool :=
  forallb (fun c => (c <? 65536)%N) s.

(** The characters a percent-encoded component is made of: the unreserved
    ones (the hexadecimal digits are among them) and the percent sign. *)
Definition uri_char (c : code_unit) : bool :=
  uri_unreserved c || (c =? 37)%N.

(** The delimiters of a URL: [/ ? # & = : @ +] and the space. *)
Definition url_delimiter (c : code_unit) : bool :=
  existsb (N.eqb c) [47; 63; 35; 38; 61; 58; 64; 43; 32]%N.

(** The property an optional argument of [getCourses] contributes: none when
    the argument is left out or is the empty string. *)
Definition optional_param (name : jsstring) (arg : option jsstring) : JsObject :=
  match arg with
  | Some (c :: s) => [(name, VStr (c :: s))]
  | _ => []
  end.

(** The endpoint and the parameters of each public operation, as the table
    of operations has them. *)
Definition endpoint_of (op : CanvasAPI.PublicOp) : jsstring :=
  match op with
  | CanvasAPI.GetUserProfile => lit "/users/self"
  | CanvasAPI.GetCourses _ _ => lit "/courses"
  | CanvasAPI.GetCourseAssignments courseId =>
      lit "/courses/" ++ ToString courseId ++ lit "/assignments"
  | CanvasAPI.GetCourseModules courseId =>
      lit "/courses/" ++ ToString courseId ++ lit "/modules"
  | CanvasAPI.GetUpcomingEvents => lit "/users/self/upcoming_events"
  | CanvasAPI.GetTodoItems => lit "/users/self/todo"
  | CanvasAPI.GetCourseGrades => lit "/courses"
  end.

Definition params_of (op : CanvasAPI.PublicOp) : JsObject :=
  match op with
  | CanvasAPI.GetCourses enrollmentType enrollmentState =>
      [(lit "per_page", VNum 50)]
        ++ optional_param (lit "enrollment_type") enrollmentType
        ++ optional_param (lit "enrollment_state") enrollmentState
  | CanvasAPI.GetCourseAssignments _ | CanvasAPI.GetCourseModules _ =>
      [(lit "per_page", VNum 50)]
  | CanvasAPI.GetCourseGrades => Observe.grades_params
  | CanvasAPI.GetUserProfile | CanvasAPI.GetUpcomingEvents
  | CanvasAPI.GetTodoItems => []
  end.

(** The same, as a pair of the query string. *)
Definition optional_pair (name : jsstring) (arg : option jsstring)
  : list (jsstring * jsstring) :=
  match arg with
  | Some (c :: s) => [(name, form_urlencode (c :: s))]
  | _ => []
  end.

(** The characters of the string of a number: the digits, the minus sign,
    the point, [e] and [+] of the exponent form, and the letters of
    [Infinity]. *)
Definition number_char (c : code_unit) : bool :=
  is_digit c
  || existsb (N.eqb c) [45; 46; 101; 43; 73; 110; 102; 105; 116; 121]%N.

(** The path of a request: the endpoint with its leading slash and its
    version segment. *)
Definition normalized_path (endpoint : jsstring) : jsstring :=
  CanvasAPI.ensure_api_version (CanvasAPI.ensure_leading_slash endpoint).

(** The headers of every request of a client. *)
Definition client_headers (this : CanvasAPI.t) : list (jsstring * jsstring) :=
  [(lit "Authorization", lit "Bearer " ++ CanvasAPI.accessToken this);
   (lit "Content-Type", lit "application/json")].

End Shape.

Import JS Obsidian Observe Shape Samples.
Local Open Scope list_scope.

(** ** Strings: prefixes, occurrences, the trailing slash *)

Section StringFacts.

Lemma is_prefix_refl_app (p s : jsstring) : is_prefix p (p ++ s) = true.
Proof.
  induction p as [|a p IH]; simpl; [reflexivity|].
  now rewrite N.eqb_refl, IH.
Qed.

Lemma is_prefix_app_inv (p s : jsstring) :
  is_prefix p s = true -> exists r, s = p ++ r.
Proof.
  revert s; induction p as [|a p IH]; intros s H; simpl in *.
  - now exists s.
  - destruct s as [|b s]; [discriminate|].
    apply andb_true_iff in H as [Hab Hp].
    apply N.eqb_eq in Hab; subst b.
    destruct (IH _ Hp) as [r ->]. now exists r.
Qed.

Lemma includes_app (a s b : jsstring) : includes (a ++ s ++ b) s = true.
Proof.
  induction a as [|c a IH]; simpl.
  - destruct s as [|x s]; simpl.
    + destruct b; reflexivity.
    + now rewrite N.eqb_refl, is_prefix_refl_app.
  - rewrite IH. apply orb_true_r.
Qed.

Lemma includes_occurrences (s p : jsstring) :
  includes s p = negb (occurrences s p =? 0)%nat.
Proof.
  induction s as [|c s IH]; simpl.
  - destruct (is_prefix p []); reflexivity.
  - destruct (is_prefix p (c :: s)); simpl; [reflexivity|exact IH].
Qed.

Lemma api_v1_units : lit "/api/v1" = [47; 97; 112; 105; 47; 118; 49]%N.
Proof. reflexivity. Qed.

Lemma slash_units : lit "/" = [47%N].
Proof. reflexivity. Qed.

(** The version segment does not overlap itself: in front of [s], it adds
    one occurrence and no more. *)
Lemma occurrences_api_v1_app (s : jsstring) :
  occurrences (lit "/api/v1" ++ s) (lit "/api/v1")
  = S (occurrences s (lit "/api/v1")).
Proof.
  rewrite api_v1_units. cbn [app occurrences is_prefix].
  rewrite !N.eqb_refl. cbn. reflexivity.
Qed.

Lemma endsWith_slash_cons (c : code_unit) (s : jsstring) :
  endsWith (c :: s) (lit "/")
  = match s with [] => (c =? 47)%N | _ :: _ => endsWith s (lit "/") end.
Proof.
  unfold endsWith. rewrite slash_units. cbn [rev app].
  destruct s as [|d s].
  - cbn. rewrite N.eqb_sym. apply andb_true_r.
  - cbn [rev]. destruct (rev s ++ [d]) eqn:E.
    + destruct (rev s); discriminate.
    + reflexivity.
Qed.

Lemma replace_trailing_slash_spec (s : jsstring) :
  replace_trailing_slash s
  = if endsWith s (lit "/") then removelast s else s.
Proof.
  induction s as [|c s IH]; [reflexivity|].
  rewrite endsWith_slash_cons.
  destruct s as [|d s].
  - cbn. destruct (c =? 47)%N; reflexivity.
  - change (replace_trailing_slash (c :: d :: s))
      with (c :: replace_trailing_slash (d :: s)).
    rewrite IH. destruct (endsWith (d :: s) (lit "/")); reflexivity.
Qed.

Lemma replace_trailing_slash_app (s : jsstring) :
  replace_trailing_slash (s ++ lit "/") = s.
Proof.
  rewrite slash_units.
  induction s as [|c s IH]; [reflexivity|].
  cbn [app]. destruct (s ++ [47%N]) eqn:E.
  - destruct s; discriminate.
  - change (c :: replace_trailing_slash (c0 :: l) = c :: s).
    now rewrite IH.
Qed.

End StringFacts.

(** ** The constructor and the endpoint path *)

Section Normalization.
Import CanvasAPI.

(** C6. The client's base URL is the configured URL without its last code
    unit when that is a slash, and the configured URL itself otherwise; a
    configured URL [s ++ "/"] gives [s], whatever [s] ends in, so one slash
    goes and no more.  The other three fields are copied. *)
Theorem constructor_strips_one_trailing_slash :
  forall settings : Settings.MyPluginSettings,
    let base := Settings.canvasApiUrl settings in
    apiUrl (constructor settings)
      = (if endsWith base (lit "/") then removelast base else base)
    /\ (forall m s tok up px,
          apiUrl (constructor (Settings.mkSettings m (s ++ lit "/") tok up px)) = s)
    /\ accessToken (constructor settings) = Settings.canvasApiToken settings
    /\ useProxy (constructor settings) = Settings.useProxy settings
    /\ corsProxyUrl (constructor settings) = Settings.corsProxyUrl settings.
Proof.
  intros settings base. repeat split.
  - apply replace_trailing_slash_spec.
  - intros. apply replace_trailing_slash_app.
Qed.

Lemma ensure_leading_slash_starts (endpoint : jsstring) :
  startsWith (ensure_leading_slash endpoint) (lit "/") = true.
Proof.
  unfold ensure_leading_slash.
  destruct (startsWith endpoint (lit "/")) eqn:E; [exact E|].
  apply is_prefix_refl_app.
Qed.

Lemma includes_leading_slash (endpoint : jsstring) :
  includes (ensure_leading_slash endpoint) (lit "/api/v1")
  = includes endpoint (lit "/api/v1") || startsWith endpoint (lit "api/v1").
Proof.
  unfold ensure_leading_slash, startsWith.
  destruct (is_prefix (lit "/") endpoint) eqn:E.
  - destruct endpoint as [|c e]; [discriminate|].
    rewrite slash_units in E. cbn [is_prefix] in E.
    rewrite andb_true_r in E. apply N.eqb_eq in E. subst c.
    replace (is_prefix (lit "api/v1") (47%N :: e)) with false by reflexivity.
    now rewrite orb_false_r.
  - rewrite slash_units. cbn [app includes].
    change (is_prefix (lit "/api/v1") (47%N :: endpoint))
      with (is_prefix (lit "api/v1") endpoint).
    apply orb_comm.
Qed.

(** C4. The leading slash is added when the path does not start with one
    and only then; the version segment is put in front when the path, with
    its leading slash, does not contain [/api/v1] and only then.  After
    that the segment occurs once if it was absent and as often as before if
    it was present, and normalizing again changes nothing.  A path has the
    segment, once it has its leading slash, when it contains [/api/v1] or
    starts with [api/v1]. *)
Theorem endpoint_normalization :
  forall endpoint : jsstring,
    let slashed := ensure_leading_slash endpoint in
    let path := ensure_api_version slashed in
    slashed = (if startsWith endpoint (lit "/") then endpoint
               else lit "/" ++ endpoint)
    /\ path = (if includes slashed (lit "/api/v1") then slashed
               else lit "/api/v1" ++ slashed)
    /\ occurrences path (lit "/api/v1")
       = Nat.max 1 (occurrences slashed (lit "/api/v1"))
    /\ includes slashed (lit "/api/v1")
       = includes endpoint (lit "/api/v1") || startsWith endpoint (lit "api/v1")
    /\ ensure_api_version (ensure_leading_slash path) = path.
Proof.
  intros endpoint slashed path.
  split; [reflexivity|]. split; [reflexivity|].
  split; [|split; [apply includes_leading_slash|]].
  - subst path. unfold ensure_api_version.
    pose proof (includes_occurrences slashed (lit "/api/v1")) as Hinc.
    destruct (includes slashed (lit "/api/v1")).
    + destruct (occurrences slashed (lit "/api/v1")); [discriminate|].
      now rewrite Nat.max_r by lia.
    + rewrite occurrences_api_v1_app.
      destruct (occurrences slashed (lit "/api/v1")); [reflexivity|discriminate].
  - assert (Hs : ensure_leading_slash path = path).
    { subst path. unfold ensure_api_version.
      destruct (includes slashed (lit "/api/v1")).
      - unfold ensure_leading_slash at 1. subst slashed.
        now rewrite ensure_leading_slash_starts.
      - reflexivity. }
    rewrite Hs. subst path. unfold ensure_api_version.
    destruct (includes slashed (lit "/api/v1")) eqn:E.
    + now rewrite E.
    + pose proof (includes_app [] (lit "/api/v1") slashed) as H.
      cbn [app] in H. now rewrite H.
Qed.

End Normalization.

(** ** The query string *)

Section QueryString.
Import CanvasAPI.

Lemma hex_digit_plain (d : N) : hex_digit d <> 38%N /\ hex_digit d <> 61%N.
Proof.
  unfold hex_digit. destruct (d <? 10)%N eqn:E.
  - apply N.ltb_lt in E. lia.
  - apply N.ltb_ge in E. lia.
Qed.

Lemma form_byte_plain (b c : N) :
  In c (form_byte b) -> c <> 38%N /\ c <> 61%N.
Proof.
  unfold form_byte. destruct (b =? 32)%N.
  - intros [<-|[]]; lia.
  - destruct (form_safe b) eqn:E.
    + intros [<-|[]]. split; intros ->; discriminate.
    + unfold percent_byte. intros [<-|[<-|[<-|[]]]];
        [lia | apply hex_digit_plain | apply hex_digit_plain].
Qed.

(** An encoded name or value has no ampersand and no equals sign. *)
Lemma form_urlencode_plain (s : jsstring) :
  ~ In 38%N (form_urlencode s) /\ ~ In 61%N (form_urlencode s).
Proof.
  unfold form_urlencode.
  split; intros H; apply in_flat_map in H as (b & _ & H);
    apply form_byte_plain in H; lia.
Qed.

(** The head [c] of a string without [sep] is not [sep]; the induction
    hypothesis [IH] then rewrites the tail. *)
Ltac head_is_not_sep c sep H IH :=
  destruct (N.eqb_spec c sep) as [->|_];
  [ exfalso; apply H; now left
  | rewrite IH; [reflexivity | intros Hin; apply H; now right] ].

Lemma split_on_plain (sep : code_unit) (a : jsstring) :
  ~ In sep a -> split_on sep a = [a].
Proof.
  induction a as [|c a IH]; intros H; [reflexivity|].
  cbn [split_on]. head_is_not_sep c sep H IH.
Qed.

Lemma split_on_app (sep : code_unit) (a rest : jsstring) :
  ~ In sep a -> split_on sep (a ++ sep :: rest) = a :: split_on sep rest.
Proof.
  induction a as [|c a IH]; intros H; cbn [app split_on].
  - now rewrite N.eqb_refl.
  - head_is_not_sep c sep H IH.
Qed.

Lemma cut_at_app (sep : code_unit) (a b : jsstring) :
  ~ In sep a -> cut_at sep (a ++ sep :: b) = (a, b).
Proof.
  induction a as [|c a IH]; intros H; cbn [app cut_at].
  - now rewrite N.eqb_refl.
  - head_is_not_sep c sep H IH.
Qed.

Lemma pair_text_plain (nv : jsstring * jsstring) :
  ~ In 38%N (pair_text (encode_pair nv)).
Proof.
  unfold pair_text, encode_pair. cbn [fst snd].
  intros H. apply in_app_or in H as [H|H].
  - now apply (proj1 (form_urlencode_plain (fst nv))).
  - apply in_app_or in H as [[H|[]]|H]; [discriminate|].
    now apply (proj1 (form_urlencode_plain (snd nv))).
Qed.

Lemma cut_pair_text (nv : jsstring * jsstring) :
  cut_at 61%N (pair_text (encode_pair nv)) = encode_pair nv.
Proof.
  unfold pair_text, encode_pair. cbn [fst snd].
  change (lit "=" ++ form_urlencode (snd nv))
    with (61%N :: form_urlencode (snd nv)).
  apply cut_at_app, form_urlencode_plain.
Qed.

Lemma split_join (pieces : list jsstring) :
  pieces <> [] -> Forall (fun p => ~ In 38%N p) pieces ->
  split_on 38%N (join (lit "&") pieces) = pieces.
Proof.
  induction pieces as [|p pieces IH]; intros Hne Hall; [congruence|].
  inversion Hall as [|? ? Hp Hrest]; subst.
  destruct pieces as [|p' pieces].
  - cbn [join]. now apply split_on_plain.
  - change (join (lit "&") (p :: p' :: pieces))
      with (p ++ 38%N :: join (lit "&") (p' :: pieces)).
    rewrite split_on_app by assumption.
    rewrite IH; [reflexivity|discriminate|assumption].
Qed.

(** The serializer's running output, once it is not empty, grows by an
    ampersand and a pair at each step. *)
Lemma serialize_from (q : URLSearchParams) (out : jsstring) :
  out <> [] ->
  fold_left serialize_step q out
  = out ++ flat_map (fun nv => lit "&" ++ pair_text (encode_pair nv)) q.
Proof.
  revert out. induction q as [|nv q IH]; intros out Hne.
  - cbn. now rewrite app_nil_r.
  - cbn [fold_left flat_map]. rewrite IH.
    + unfold serialize_step at 1. destruct out as [|c out]; [congruence|].
      unfold pair_text, encode_pair. cbn [fst snd].
      now rewrite <- !app_assoc.
    + unfold serialize_step. destruct out; [congruence|]. discriminate.
Qed.

Lemma join_flat (p : jsstring) (pieces : list jsstring) :
  join (lit "&") (p :: pieces)
  = p ++ flat_map (fun x => lit "&" ++ x) pieces.
Proof.
  revert p. induction pieces as [|p' pieces IH]; intros p.
  - cbn. now rewrite app_nil_r.
  - change (join (lit "&") (p :: p' :: pieces))
      with (p ++ lit "&" ++ join (lit "&") (p' :: pieces)).
    rewrite IH. cbn [flat_map]. now rewrite <- !app_assoc.
Qed.

Lemma toString_join (q : URLSearchParams) :
  URLSearchParams_toString q
  = join (lit "&") (map (fun nv => pair_text (encode_pair nv)) q).
Proof.
  unfold URLSearchParams_toString. destruct q as [|nv q]; [reflexivity|].
  cbn [fold_left map]. rewrite join_flat, serialize_from.
  - unfold serialize_step at 1. cbn [app]. f_equal.
    induction q as [|x q IH]; [reflexivity|].
    cbn [flat_map map]. now rewrite IH.
  - unfold serialize_step. cbn [app].
    destruct (form_urlencode (fst nv)); discriminate.
Qed.

Lemma append_all (params : JsObject) (q : URLSearchParams) :
  fold_left
    (fun queryParams kv =>
       URLSearchParams_append queryParams (fst kv) (ToString (snd kv)))
    params q
  = q ++ map (fun kv => (fst kv, ToString (snd kv))) params.
Proof.
  revert q. induction params as [|kv params IH]; intros q.
  - cbn. now rewrite app_nil_r.
  - cbn [fold_left map]. rewrite IH. unfold URLSearchParams_append.
    now rewrite <- app_assoc.
Qed.

Lemma query_string_join (params : JsObject) :
  query_string params
  = join (lit "&")
      (map (fun nv => pair_text (encode_pair nv)) (stringified params)).
Proof.
  unfold query_string, new_URLSearchParams, stringified, Object_entries.
  now rewrite append_all, toString_join.
Qed.

Lemma query_pairs_query_string (params : JsObject) :
  params <> [] ->
  query_pairs (query_string params) = map encode_pair (stringified params).
Proof.
  intros Hne. rewrite query_string_join. unfold query_pairs.
  rewrite split_join.
  - rewrite map_map. apply map_ext. intros nv. apply cut_pair_text.
  - unfold stringified, Object_entries. destruct params; [congruence|discriminate].
  - apply Forall_forall. intros p Hp. apply in_map_iff in Hp as (nv & <- & _).
    apply pair_text_plain.
Qed.

End QueryString.

(** ** The request primitive *)

Section Request.
Import CanvasAPI.

Variable JSON_stringify : JsValue -> jsstring.
Variable server : Server.

Lemma add_query_target (base endpoint : jsstring) (params : JsObject) :
  add_query (base ++ ensure_api_version (ensure_leading_slash endpoint)) params
  = target_url base endpoint params.
Proof.
  unfold add_query, target_url, Object_keys.
  destruct params; cbn [map List.length Nat.ltb Nat.leb].
  - now rewrite app_nil_r.
  - now rewrite <- app_assoc.
Qed.

(** What one call of [_request] does: the URL is computed, wrapped for the
    proxy, the request is sent, and the response is turned into the
    outcome. *)
Lemma _request_run (this : t) (endpoint method : jsstring) (params : JsObject)
  (data : JsValue) (n : Network) :
  _request JSON_stringify server this endpoint method params data n
  = match use_proxy this (target_url (apiUrl this) endpoint params) with
    | Throw e => (Throw e, n)
    | Return url =>
        let param :=
          {| url := url;
             method := method;
             headers :=
               [(lit "Authorization", lit "Bearer " ++ accessToken this);
                (lit "Content-Type", lit "application/json")];
             body := if ToBoolean data then Some (JSON_stringify data) else None;
             throw := false |} in
        (outcome_of (server n param), n ++ [param])
    end.
Proof.
  unfold _request, try_catch, bind, lift, requestUrl, raise, ret.
  rewrite add_query_target.
  destruct (use_proxy this (target_url (apiUrl this) endpoint params));
    [|reflexivity].
  cbv zeta. unfold outcome_of.
  destruct (server n _) as [response|e]; [|reflexivity].
  unfold failure_message.
  destruct (400 <=? status response)%Z; reflexivity.
Qed.

Lemma failure_message_includes (response : RequestUrlResponse) :
  includes (failure_message response) (number_to_string (status response)) = true
  /\ includes (failure_message response) (text response) = true.
Proof.
  unfold failure_message. split.
  - apply includes_app.
  - rewrite !app_assoc.
    rewrite <- (app_nil_r (text response)) at 1.
    apply includes_app.
Qed.

(** Every public operation is one call of [_request] with [GET] and no
    body. *)
Lemma call_is_request (this : t) (op : PublicOp) :
  exists endpoint params,
    call JSON_stringify server this op
    = _request JSON_stringify server this endpoint (lit "GET") params VNull.
Proof.
  destruct op; cbn [call]; try (eexists; eexists; reflexivity).
Qed.

(** An operation sends one request, or none when the URL cannot be
    encoded for the proxy. *)
Lemma call_sends_at_most_one (this : t) (op : PublicOp) (n : Network) :
  (snd (call JSON_stringify server this op n) = n
   /\ exists e, fst (call JSON_stringify server this op n) = Throw e)
  \/ exists param, snd (call JSON_stringify server this op n) = n ++ [param].
Proof.
  destruct (call_is_request this op) as (endpoint & params & ->).
  rewrite _request_run.
  destruct (use_proxy this _) as [url|e].
  - right. eexists. reflexivity.
  - left. split; [reflexivity|]. now exists e.
Qed.

(** Every public operation is the call of [_request] for its endpoint and
    its parameters. *)
Lemma call_request_of (this : t) (op : PublicOp) :
  call JSON_stringify server this op
  = _request JSON_stringify server this (endpoint_of op) (lit "GET")
      (params_of op) VNull.
Proof.
  destruct op as [|enrollmentType enrollmentState| | | | |]; try reflexivity.
  destruct enrollmentType as [[|c s]|], enrollmentState as [[|c' s']|];
    reflexivity.
Qed.

(** C1. Every public operation sends the [GET] request for its URL (unless
    the proxy is in use and that URL cannot be encoded: then nothing is sent
    and the operation rejects with the error of the encoding).  A response
    with status 400 or more makes it reject with an [Error] whose message
    contains the status as a string and the response text; a response with a
    smaller status makes it resolve with the decoded body of that response;
    an error of the transport is the error it rejects with. *)
Theorem public_operations_status_handling :
  forall (this : t) (op : PublicOp) (n : Network),
    match use_proxy this
            (target_url (apiUrl this) (endpoint_of op) (params_of op)) with
    | Throw e => call JSON_stringify server this op n = (Throw e, n)
    | Return url =>
        snd (call JSON_stringify server this op n) = n ++ [get_request this url]
        /\ match server n (get_request this url) with
           | Return response =>
               if (400 <=? status response)%Z then
                 exists message,
                   fst (call JSON_stringify server this op n)
                   = Throw (Error message)
                   /\ includes message (number_to_string (status response)) = true
                   /\ includes message (text response) = true
               else
                 fst (call JSON_stringify server this op n)
                 = Return (json response)
           | Throw e => fst (call JSON_stringify server this op n) = Throw e
           end
    end.
Proof.
  intros this op n. rewrite call_request_of, _request_run.
  destruct (use_proxy this _) as [url|e]; [|reflexivity].
  cbn [fst snd ToBoolean]. fold (get_request this url).
  split; [reflexivity|]. unfold outcome_of.
  destruct (server n _) as [response|e]; [|reflexivity].
  destruct (400 <=? status response)%Z; [|reflexivity].
  exists (failure_message response).
  split; [reflexivity|apply failure_message_includes].
Qed.

(** C2. [testConnection] resolves, with [true] when [getUserProfile]
    resolves and with [false] when it rejects, and sends what
    [getUserProfile] sends; so it is [true] exactly when the profile call
    resolves. *)
Theorem testConnection_reports_profile_outcome :
  forall (this : t) (n : Network),
    testConnection JSON_stringify server this n
    = (Return (resolved (fst (getUserProfile JSON_stringify server this n))),
       snd (getUserProfile JSON_stringify server this n))
    /\ (fst (testConnection JSON_stringify server this n) = Return true
        <-> exists profile,
              fst (getUserProfile JSON_stringify server this n) = Return profile)
    /\ (fst (testConnection JSON_stringify server this n) = Return false
        <-> exists e,
              fst (getUserProfile JSON_stringify server this n) = Throw e)
    /\ testConnection JSON_stringify server this n
       = match use_proxy this (apiUrl this ++ lit "/api/v1/users/self") with
         | Return url =>
             (Return (resolved (outcome_of (server n (get_request this url)))),
              n ++ [get_request this url])
         | Throw _ => (Return false, n)
         end.
Proof.
  intros this n.
  assert (Hrun :
    testConnection JSON_stringify server this n
    = (Return (resolved (fst (getUserProfile JSON_stringify server this n))),
       snd (getUserProfile JSON_stringify server this n))).
  { unfold testConnection, try_catch, bind, ret.
    now destruct (getUserProfile JSON_stringify server this n) as [[profile|e] n']. }
  split; [exact Hrun|]. rewrite Hrun. cbn [fst].
  split; [|split].
  - destruct (fst (getUserProfile JSON_stringify server this n)) as [profile|e];
      cbn [resolved]; split.
    + intros _. now exists profile.
    + reflexivity.
    + discriminate.
    + intros [profile H]. discriminate.
  - destruct (fst (getUserProfile JSON_stringify server this n)) as [profile|e];
      cbn [resolved]; split.
    + discriminate.
    + intros [e H]. discriminate.
    + intros _. now exists e.
    + reflexivity.
  - unfold getUserProfile. rewrite _request_run.
    replace (target_url (apiUrl this) (lit "/users/self") [])
      with (apiUrl this ++ lit "/api/v1/users/self")
      by (unfold target_url; now rewrite app_nil_r).
    destruct (use_proxy this _) as [url|e]; reflexivity.
Qed.

End Request.

(** ** The final URL *)

Section FinalUrl.
Import CanvasAPI.

Variable JSON_stringify : JsValue -> jsstring.
Variable server : Server.

Lemma sent_urls_request (this : t) (endpoint method : jsstring)
  (params : JsObject) (data : JsValue) (n : Network) :
  sent_urls (snd (_request JSON_stringify server this endpoint method params data n))
  = sent_urls n ++ final_urls this (target_url (apiUrl this) endpoint params).
Proof.
  rewrite _request_run. unfold final_urls, sent_urls.
  destruct (use_proxy this _) as [url|e]; cbn [snd].
  - now rewrite map_app.
  - now rewrite app_nil_r.
Qed.

Lemma unreserved_is_no_surrogate (c : code_unit) :
  uri_unreserved c = true ->
  is_high_surrogate c = false /\ is_low_surrogate c = false.
Proof.
  unfold uri_unreserved, is_alnum, is_digit, is_upper, is_lower,
    is_high_surrogate, is_low_surrogate.
  cbn [existsb]. intros H.
  assert (Hc : (c <= 126)%N).
  { rewrite !orb_true_iff, !andb_true_iff, !N.leb_le, !N.eqb_eq in H. lia. }
  split; apply andb_false_iff; left; apply N.leb_gt; lia.
Qed.

Lemma high_is_not_low (c : code_unit) :
  is_high_surrogate c = true -> is_low_surrogate c = false.
Proof.
  unfold is_high_surrogate, is_low_surrogate. intros H.
  apply andb_true_iff in H as [_ H]. apply N.leb_le in H.
  apply andb_false_iff. left. apply N.leb_gt. lia.
Qed.

Lemma encodeURIComponent_cons (c : code_unit) (s : jsstring) :
  encodeURIComponent (c :: s)
  = if uri_unreserved c then
      cbind (encodeURIComponent s) (fun r => Return (c :: r))
    else if is_low_surrogate c then Throw (URIError (lit "URI malformed"))
    else if is_high_surrogate c then
      match s with
      | lo :: s' =>
          if is_low_surrogate lo then
            cbind (encodeURIComponent s')
              (fun r => Return (flat_map percent_byte
                                  (utf8 (surrogate_pair c lo)) ++ r))
          else Throw (URIError (lit "URI malformed"))
      | [] => Throw (URIError (lit "URI malformed"))
      end
    else
      cbind (encodeURIComponent s)
        (fun r => Return (flat_map percent_byte (utf8 c) ++ r)).
Proof. reflexivity. Qed.

Lemma isWellFormed_cons (c : code_unit) (s : jsstring) :
  isWellFormed (c :: s)
  = if is_high_surrogate c then
      match s with
      | lo :: s' => is_low_surrogate lo && isWellFormed s'
      | [] => false
      end
    else if is_low_surrogate c then false
    else isWellFormed s.
Proof. reflexivity. Qed.

(** [encodeURIComponent] returns on every well-formed string. *)
Lemma encodeURIComponent_well_formed (s : jsstring) :
  isWellFormed s = true -> exists encoded, encodeURIComponent s = Return encoded.
Proof.
  enough (H : (isWellFormed s = true ->
               exists r, encodeURIComponent s = Return r)
              /\ forall c, isWellFormed (c :: s) = true ->
                           exists r, encodeURIComponent (c :: s) = Return r)
    by apply H.
  induction s as [|d s [IH1 IH2]].
  - split; [intros _; now exists []|].
    intros c. rewrite isWellFormed_cons, encodeURIComponent_cons.
    destruct (uri_unreserved c); [intros _; eexists; reflexivity|].
    destruct (is_high_surrogate c); [discriminate|].
    destruct (is_low_surrogate c); [discriminate|].
    intros _. eexists; reflexivity.
  - split; [apply IH2|].
    intros c. rewrite isWellFormed_cons, encodeURIComponent_cons.
    destruct (uri_unreserved c) eqn:U.
    + destruct (unreserved_is_no_surrogate _ U) as [-> ->].
      intros H. destruct (IH2 d H) as [r ->]. eexists; reflexivity.
    + destruct (is_high_surrogate c) eqn:Hh.
      * rewrite (high_is_not_low _ Hh).
        intros H. apply andb_true_iff in H as [-> H].
        destruct (IH1 H) as [r ->]. eexists; reflexivity.
      * destruct (is_low_surrogate c); [discriminate|].
        intros H. destruct (IH2 d H) as [r ->]. eexists; reflexivity.
Qed.

(** C3, amended.  With the proxy flag off, the URL sent is the base URL,
    the normalized path and, for a non-empty mapping, the query string.
    With the flag on and a proxy URL that is not empty, the URL sent is the
    proxy URL followed by the percent-encoding of that URL, which exists
    when the URL is well-formed UTF-16. *)
Theorem request_url_direct_or_proxied :
  forall (base token P endpoint method : jsstring) (params : JsObject)
         (data : JsValue) (n : Network),
    let target := target_url base endpoint params in
    sent_urls (snd (_request JSON_stringify server
                      (mkCanvasAPI base token false P)
                      endpoint method params data n))
      = sent_urls n ++ [target]
    /\ (P <> [] ->
        forall encoded, encodeURIComponent target = Return encoded ->
          sent_urls (snd (_request JSON_stringify server
                            (mkCanvasAPI base token true P)
                            endpoint method params data n))
            = sent_urls n ++ [P ++ encoded])
    /\ (isWellFormed target = true ->
        exists encoded, encodeURIComponent target = Return encoded).
Proof.
  intros base token P endpoint method params data n target.
  split; [|split].
  - now rewrite sent_urls_request.
  - intros HP encoded Henc. rewrite sent_urls_request.
    unfold final_urls, use_proxy. cbn [useProxy corsProxyUrl apiUrl andb ToBoolean].
    destruct P as [|c P]; [congruence|].
    fold target. now rewrite Henc.
  - apply encodeURIComponent_well_formed.
Qed.

(** C9. With the proxy flag on and an empty proxy URL the client behaves as
    a client with the flag off, whatever the proxy URL of that one: the same
    outcome and the same request, whose URL is the unproxied one. *)
Theorem empty_proxy_url_means_no_proxy :
  forall (base token P endpoint method : jsstring) (params : JsObject)
         (data : JsValue) (n : Network),
    _request JSON_stringify server (mkCanvasAPI base token true [])
      endpoint method params data n
    = _request JSON_stringify server (mkCanvasAPI base token false P)
        endpoint method params data n
    /\ sent_urls (snd (_request JSON_stringify server
                         (mkCanvasAPI base token true [])
                         endpoint method params data n))
       = sent_urls n ++ [target_url base endpoint params].
Proof.
  intros. split.
  - rewrite !_request_run. reflexivity.
  - now rewrite sent_urls_request.
Qed.

(** C5. For a mapping that is not empty, the query string is the pairs
    [name=value] joined by ampersands, one pair per property and in the
    order of the properties, the name being the encoded key and the value
    the encoded [String(value)]; cutting the query string at its ampersands
    and equals signs gives these names and values back.  It follows the
    question mark in the URL.  An array of two strings is stringified with
    a comma between them. *)
Theorem query_string_lists_every_key_once :
  forall params : JsObject,
    params <> [] ->
    query_string params
      = join (lit "&")
          (map (fun kv => form_urlencode (fst kv) ++ lit "="
                            ++ form_urlencode (ToString (snd kv)))
               (Object_entries params))
    /\ map fst (query_pairs (query_string params))
       = map form_urlencode (Object_keys params)
    /\ map snd (query_pairs (query_string params))
       = map (fun kv => form_urlencode (ToString (snd kv)))
           (Object_entries params)
    /\ (forall url, add_query url params = url ++ lit "?" ++ query_string params)
    /\ (forall a b, ToString (VArr [VStr a; VStr b]) = a ++ lit "," ++ b).
Proof.
  intros params Hne. split; [|split; [|split; [|split]]].
  - rewrite query_string_join. unfold stringified. now rewrite map_map.
  - rewrite query_pairs_query_string by assumption.
    unfold stringified, Object_entries, Object_keys.
    rewrite !map_map. reflexivity.
  - rewrite query_pairs_query_string by assumption.
    unfold stringified, Object_entries.
    rewrite !map_map. reflexivity.
  - intros url. unfold add_query, Object_keys.
    destruct params; [congruence|reflexivity].
  - intros a b. reflexivity.
Qed.

End FinalUrl.

(** ** The public operations *)

Section Operations.
Import CanvasAPI.

Variable JSON_stringify : JsValue -> jsstring.
Variable server : Server.

Lemma request_get_run (this : t) (endpoint : jsstring) (params : JsObject)
  (n : Network) (target : jsstring) :
  target_url (apiUrl this) endpoint params = target ->
  _request JSON_stringify server this endpoint (lit "GET") params VNull n
  = match use_proxy this target with
    | Return url =>
        (outcome_of (server n (get_request this url)),
         n ++ [get_request this url])
    | Throw e => (Throw e, n)
    end.
Proof.
  intros <-. rewrite _request_run.
  destruct (use_proxy this _); reflexivity.
Qed.

Lemma target_url_closed (base endpoint tail : jsstring) (params : JsObject) :
  target_url [] endpoint params = tail ->
  target_url base endpoint params = base ++ tail.
Proof. intros <-. reflexivity. Qed.

(** C7. [getCourses()] sends the URL, proxied or not, of
    [/api/v1/courses?per_page=50]: the query has the single pair
    [per_page=50].  [getCourses('student', 'active')] sends that of
    [/api/v1/courses] with the three pairs [per_page=50],
    [enrollment_type=student] and [enrollment_state=active]. *)
Theorem getCourses_query_parameters :
  forall (this : t) (n : Network),
    sent_urls (snd (getCourses JSON_stringify server this None None n))
      = sent_urls n
          ++ final_urls this (apiUrl this ++ lit "/api/v1/courses?per_page=50")
    /\ query_pairs (lit "per_page=50") = [(lit "per_page", lit "50")]
    /\ includes (lit "per_page=50") (lit "enrollment_type") = false
    /\ includes (lit "per_page=50") (lit "enrollment_state") = false
    /\ sent_urls (snd (getCourses JSON_stringify server this
                         (Some (lit "student")) (Some (lit "active")) n))
       = sent_urls n
           ++ final_urls this
                (apiUrl this ++
                 lit "/api/v1/courses?per_page=50&enrollment_type=student&enrollment_state=active")
    /\ query_pairs
         (lit "per_page=50&enrollment_type=student&enrollment_state=active")
       = [(lit "per_page", lit "50");
          (lit "enrollment_type", lit "student");
          (lit "enrollment_state", lit "active")].
Proof.
  intros this n. repeat split; try reflexivity.
  - unfold getCourses. rewrite sent_urls_request.
    now rewrite (target_url_closed _ _ (tail := lit "/api/v1/courses?per_page=50")).
  - unfold getCourses. rewrite sent_urls_request.
    now rewrite (target_url_closed _ _
      (tail := lit "/api/v1/courses?per_page=50&enrollment_type=student&enrollment_state=active")).
Qed.

(** C8. [getCourseGrades] is the [GET] request to [/courses] with the four
    parameters [include], [enrollment_type], [enrollment_state] and
    [per_page], in that order and with the values of the table; the two
    included names travel comma-joined under the one key.  It resolves
    with the decoded body of a response whose status is below 400. *)
Theorem getCourseGrades_request :
  forall (this : t) (n : Network),
    getCourseGrades JSON_stringify server this n
      = _request JSON_stringify server this (lit "/courses") (lit "GET")
          grades_params VNull n
    /\ getCourseGrades JSON_stringify server this n
       = match
           use_proxy this
             (apiUrl this ++
              lit "/api/v1/courses?include=total_scores%2Ccurrent_grading_period_scores&enrollment_type=student&enrollment_state=active&per_page=50")
         with
         | Return url =>
             (outcome_of (server n (get_request this url)),
              n ++ [get_request this url])
         | Throw e => (Throw e, n)
         end
    /\ query_pairs (query_string grades_params)
       = [(lit "include", lit "total_scores%2Ccurrent_grading_period_scores");
          (lit "enrollment_type", lit "student");
          (lit "enrollment_state", lit "active");
          (lit "per_page", lit "50")]
    /\ (forall response,
          (status response < 400)%Z ->
          outcome_of (Return response) = Return (json response)).
Proof.
  intros this n. split; [reflexivity|]. split; [|split].
  - unfold getCourseGrades. apply request_get_run.
    now apply target_url_closed.
  - reflexivity.
  - intros response H. unfold outcome_of.
    destruct (400 <=? status response)%Z eqn:E; [|reflexivity].
    apply Z.leb_le in E. lia.
Qed.

(** C10. Empty strings for the two arguments of [getCourses], or for one of
    them with the other left out, give the call without arguments: the same
    request and the same outcome. *)
Theorem getCourses_empty_strings_are_omitted :
  forall (this : t) (n : Network),
    getCourses JSON_stringify server this (Some []) (Some []) n
      = getCourses JSON_stringify server this None None n
    /\ getCourses JSON_stringify server this (Some []) None n
       = getCourses JSON_stringify server this None None n
    /\ getCourses JSON_stringify server this None (Some []) n
       = getCourses JSON_stringify server this None None n.
Proof.
  intros this n. repeat split.
Qed.

End Operations.

(** ** Concrete runs *)

Section Examples.
Import CanvasAPI.

(** The 404 example: C1 at [getCourses('student', 'active')] against a
    remote side that answers 404 Not Found. *)
Lemma public_operations_status_handling_witness :
  snd (call stringify_stub not_found default_client
         (GetCourses (Some (lit "student")) (Some (lit "active"))) [])
    = [] ++ [get_request default_client
               (lit "https://canvas.instructure.com/api/v1/courses?per_page=50&enrollment_type=student&enrollment_state=active")]
  /\ exists message,
       fst (call stringify_stub not_found default_client
              (GetCourses (Some (lit "student")) (Some (lit "active"))) [])
         = Throw (Error message)
       /\ includes message (lit "404") = true
       /\ includes message (lit "Not Found") = true.
Proof.
  exact (public_operations_status_handling stringify_stub not_found
           default_client
           (GetCourses (Some (lit "student")) (Some (lit "active"))) []).
Defined.

(** The 200 example and a failure of the transport. *)
Example todo_items_resolve_with_body :
  fst (call stringify_stub (ok_with (VArr [VNum 7])) default_client GetTodoItems [])
  = Return (VArr [VNum 7]).
Proof. reflexivity. Qed.

Example transport_error_is_rethrown :
  fst (call stringify_stub unreachable default_client GetUserProfile [])
  = Throw (Error (lit "net::ERR_CONNECTION_REFUSED"))
  /\ testConnection stringify_stub unreachable default_client []
     = (Return false,
        [get_request default_client
           (lit "https://canvas.instructure.com/api/v1/users/self")]).
Proof. split; reflexivity. Qed.

(** C3 with the default proxy. *)
Lemma request_url_direct_or_proxied_witness :
  lit "https://cors-anywhere.herokuapp.com/" <> []
  /\ encodeURIComponent
       (target_url (lit "https://canvas.instructure.com") (lit "courses")
          [(lit "per_page", VNum 50)])
     = Return (lit "https%3A%2F%2Fcanvas.instructure.com%2Fapi%2Fv1%2Fcourses%3Fper_page%3D50")
  /\ sent_urls (snd (_request stringify_stub (ok_with VNull)
                       (mkCanvasAPI (lit "https://canvas.instructure.com") (lit "tok")
                          true (lit "https://cors-anywhere.herokuapp.com/"))
                       (lit "courses") (lit "GET") [(lit "per_page", VNum 50)]
                       VNull []))
     = sent_urls [] ++
       [lit "https://cors-anywhere.herokuapp.com/" ++
        lit "https%3A%2F%2Fcanvas.instructure.com%2Fapi%2Fv1%2Fcourses%3Fper_page%3D50"].
Proof.
  split; [discriminate|]. split; [reflexivity|].
  apply (proj1 (proj2
           (request_url_direct_or_proxied stringify_stub (ok_with VNull)
              (lit "https://canvas.instructure.com") (lit "tok")
              (lit "https://cors-anywhere.herokuapp.com/")
              (lit "courses") (lit "GET") [(lit "per_page", VNum 50)]
              VNull []))).
  - discriminate.
  - reflexivity.
Defined.

(** C3 as stated fails where the flag is on and the proxy URL is blank: the
    URL sent for the profile is the unproxied one, not the blank proxy URL
    followed by its percent-encoding. *)
Lemma proxied_url_claim_fails_for_blank_proxy_url :
  useProxy blank_proxy_client = true
  /\ encodeURIComponent
       (target_url (apiUrl blank_proxy_client) (lit "/users/self") [])
     = Return (lit "https%3A%2F%2Fcanvas.instructure.com%2Fapi%2Fv1%2Fusers%2Fself")
  /\ sent_urls (snd (getUserProfile stringify_stub (ok_with VNull)
                       blank_proxy_client []))
     = [lit "https://canvas.instructure.com/api/v1/users/self"]
  /\ sent_urls (snd (getUserProfile stringify_stub (ok_with VNull)
                       blank_proxy_client []))
     <> [corsProxyUrl blank_proxy_client ++
         lit "https%3A%2F%2Fcanvas.instructure.com%2Fapi%2Fv1%2Fusers%2Fself"].
Proof.
  repeat split; try reflexivity.
  vm_compute. discriminate.
Qed.

(** C5 at the parameters of [getCourseGrades]. *)
Lemma query_string_lists_every_key_once_witness :
  grades_params <> []
  /\ map fst (query_pairs (query_string grades_params))
     = map form_urlencode (Object_keys grades_params).
Proof.
  split; [discriminate|].
  apply (query_string_lists_every_key_once (params := grades_params)).
  discriminate.
Defined.

(** C8 at a response with status 200. *)
Lemma getCourseGrades_request_witness :
  (200 < 400)%Z
  /\ outcome_of (Return {| status := 200; text := lit "[]"; json := VArr [] |})
     = Return (VArr []).
Proof.
  split; [reflexivity|].
  apply (proj2 (proj2 (proj2
    (getCourseGrades_request stringify_stub (ok_with (VArr [])) default_client []))))
    with (response := {| status := 200; text := lit "[]"; json := VArr [] |}).
  reflexivity.
Defined.

End Examples.

(** ** The shape of the requests *)

Section RequestShape.
Import CanvasAPI.

Variable JSON_stringify : JsValue -> jsstring.
Variable server : Server.

(** X1. The request of a public operation is a [GET] without a body, with
    [throw] cleared, and its headers are the bearer token of the client and
    the JSON content type, in that order. *)
Theorem public_requests_are_get_without_body :
  forall (this : t) (op : PublicOp) (n : Network) (param : RequestUrlParam),
    snd (call JSON_stringify server this op n) = n ++ [param] ->
    method param = lit "GET"
    /\ body param = None
    /\ throw param = false
    /\ headers param = client_headers this.
Proof.
  intros this op n param.
  destruct (call_is_request JSON_stringify server this op)
    as (endpoint & params & ->).
  rewrite _request_run.
  destruct (use_proxy this _) as [url|e]; cbn [snd].
  - intros H. apply app_inj_tail in H as [_ <-]. now repeat split.
  - intros H. exfalso. apply (f_equal (@List.length _)) in H.
    rewrite length_app in H. cbn in H. lia.
Qed.

(** X2. An operation only adds to the requests sent, and adds at most one,
    whatever the remote side answers: a failure is not retried.  It adds
    exactly one when the proxy is off, and [testConnection] adds what
    [getUserProfile] adds. *)
Theorem operations_send_at_most_one_request :
  forall (this : t) (op : PublicOp) (n : Network),
    (exists sent,
        snd (call JSON_stringify server this op n) = n ++ sent
        /\ (List.length sent <= 1)%nat
        /\ (useProxy this = false -> List.length sent = 1%nat))
    /\ snd (testConnection JSON_stringify server this n)
       = snd (getUserProfile JSON_stringify server this n).
Proof.
  intros this op n. split.
  - destruct (call_is_request JSON_stringify server this op)
      as (endpoint & params & ->).
    rewrite _request_run. unfold use_proxy.
    destruct (useProxy this); cbn [andb].
    + destruct (ToBoolean (VStr (corsProxyUrl this))).
      * destruct (encodeURIComponent _) as [encoded|e]; cbn [cbind snd].
        -- eexists [_]. split; [reflexivity|]. split; [apply Nat.le_refl|].
           discriminate.
        -- exists []. rewrite app_nil_r. split; [reflexivity|].
           split; [apply Nat.le_0_l|discriminate].
      * eexists [_]. cbn [snd]. split; [reflexivity|].
        split; [apply Nat.le_refl|discriminate].
    + eexists [_]. cbn [snd]. split; [reflexivity|].
      split; [apply Nat.le_refl|reflexivity].
  - unfold testConnection, try_catch, bind, ret.
    now destruct (getUserProfile JSON_stringify server this n) as [[profile|e] n'].
Qed.

End RequestShape.

(** ** Percent-encoding and the proxy *)

Section ProxyEncoding.
Import CanvasAPI.

Variable JSON_stringify : JsValue -> jsstring.
Variable server : Server.

Lemma cbind_Return {A B} (c : Completion A) (k : A -> B) (b : B) :
  cbind c (fun a => Return (k a)) = Return b ->
  exists a, c = Return a /\ b = k a.
Proof.
  destruct c as [a|e]; cbn; [|discriminate].
  intros H. injection H as <-. now exists a.
Qed.

Lemma hex_digit_alnum (d : N) : (d < 16)%N -> is_alnum (hex_digit d) = true.
Proof.
  intros Hd. unfold hex_digit, is_alnum, is_digit, is_upper.
  destruct (N.ltb_spec d 10).
  - apply orb_true_iff. left. apply orb_true_iff. left.
    apply andb_true_iff. split; apply N.leb_le; lia.
  - apply orb_true_iff. left. apply orb_true_iff. right.
    apply andb_true_iff. split; apply N.leb_le; lia.
Qed.

Lemma percent_byte_chars (b : N) :
  (b < 256)%N -> forallb uri_char (percent_byte b) = true.
Proof.
  intros Hb. unfold percent_byte. cbn [forallb].
  assert (H1 : (b / 16 < 16)%N) by (apply N.Div0.div_lt_upper_bound; lia).
  assert (H2 : (b mod 16 < 16)%N) by (apply N.mod_lt; lia).
  unfold uri_char at 2 3, uri_unreserved.
  now rewrite !hex_digit_alnum by assumption.
Qed.

Lemma percent_bytes_chars (bytes : list N) :
  Forall (fun b => (b < 256)%N) bytes ->
  forallb uri_char (flat_map percent_byte bytes) = true.
Proof.
  induction 1 as [|b bytes Hb _ IH]; [reflexivity|].
  cbn [flat_map]. rewrite forallb_app, IH, percent_byte_chars by assumption.
  reflexivity.
Qed.

Lemma utf8_bytes (cp : N) :
  (cp < 0x110000)%N -> Forall (fun b => (b < 256)%N) (utf8 cp).
Proof.
  intros Hcp. unfold utf8.
  destruct (N.ltb_spec cp 0x80); [repeat constructor; lia|].
  destruct (N.ltb_spec cp 0x800).
  { assert ((cp / 0x40 < 0x20)%N) by (apply N.Div0.div_lt_upper_bound; lia).
    assert ((cp mod 0x40 < 0x40)%N) by (apply N.mod_lt; lia).
    repeat constructor; lia. }
  destruct (N.ltb_spec cp 0x10000).
  { assert ((cp / 0x1000 < 0x10)%N) by (apply N.Div0.div_lt_upper_bound; lia).
    assert (((cp / 0x40) mod 0x40 < 0x40)%N) by (apply N.mod_lt; lia).
    assert ((cp mod 0x40 < 0x40)%N) by (apply N.mod_lt; lia).
    repeat constructor; lia. }
  assert ((cp / 0x40000 < 0x5)%N) by (apply N.Div0.div_lt_upper_bound; lia).
  assert (((cp / 0x1000) mod 0x40 < 0x40)%N) by (apply N.mod_lt; lia).
  assert (((cp / 0x40) mod 0x40 < 0x40)%N) by (apply N.mod_lt; lia).
  assert ((cp mod 0x40 < 0x40)%N) by (apply N.mod_lt; lia).
  repeat constructor; lia.
Qed.

Lemma surrogate_pair_bound (hi lo : code_unit) :
  is_high_surrogate hi = true -> is_low_surrogate lo = true ->
  (surrogate_pair hi lo < 0x110000)%N.
Proof.
  unfold is_high_surrogate, is_low_surrogate, surrogate_pair.
  rewrite !andb_true_iff, !N.leb_le. lia.
Qed.

(** What [encodeURIComponent] returns is made of unreserved characters and
    percent signs. *)
Lemma encodeURIComponent_chars (s : jsstring) :
  forall encoded,
    proper s = true -> encodeURIComponent s = Return encoded ->
    forallb uri_char encoded = true.
Proof.
  enough (H : (forall r, proper s = true -> encodeURIComponent s = Return r ->
                         forallb uri_char r = true)
              /\ forall c r, proper (c :: s) = true ->
                             encodeURIComponent (c :: s) = Return r ->
                             forallb uri_char r = true)
    by apply H.
  assert (step : forall c s',
    (forall r, proper s' = true -> encodeURIComponent s' = Return r ->
               forallb uri_char r = true) ->
    (forall lo s'', s' = lo :: s'' ->
       forall r, proper s'' = true -> encodeURIComponent s'' = Return r ->
                 forallb uri_char r = true) ->
    forall r, proper (c :: s') = true -> encodeURIComponent (c :: s') = Return r ->
              forallb uri_char r = true).
  { intros c s' IHs IHs2 r Hp. rewrite encodeURIComponent_cons.
    unfold proper in Hp. cbn [forallb] in Hp.
    apply andb_true_iff in Hp as [Hc Hp]. apply N.ltb_lt in Hc.
    destruct (uri_unreserved c) eqn:U.
    - intros H. apply cbind_Return in H as (r' & Hr' & ->).
      cbn [forallb]. unfold uri_char at 1. rewrite U. cbn [orb andb].
      now apply IHs.
    - destruct (is_low_surrogate c); [discriminate|].
      destruct (is_high_surrogate c) eqn:Hh.
      + destruct s' as [|lo s'']; [discriminate|].
        destruct (is_low_surrogate lo) eqn:Hl; [|discriminate].
        intros H. apply cbind_Return in H as (r' & Hr' & ->).
        rewrite forallb_app, percent_bytes_chars
          by (apply utf8_bytes; now apply surrogate_pair_bound).
        cbn [forallb] in Hp. apply andb_true_iff in Hp as [_ Hp].
        now apply (IHs2 lo s'' eq_refl).
      + intros H. apply cbind_Return in H as (r' & Hr' & ->).
        rewrite forallb_app, percent_bytes_chars by (apply utf8_bytes; lia).
        now apply IHs. }
  induction s as [|d s [IH1 IH2]].
  - split; [intros r _ H; injection H as <-; reflexivity|].
    intros c. apply step.
    + intros r _ H. injection H as <-. reflexivity.
    + discriminate.
  - split; [apply IH2|].
    intros c. apply step; [apply IH2|].
    intros lo s'' E. injection E as -> ->. exact IH1.
Qed.

Lemma uri_char_is_no_delimiter (c : code_unit) :
  uri_char c = true -> url_delimiter c = false.
Proof.
  intros H. destruct (url_delimiter c) eqn:D; [|reflexivity].
  unfold url_delimiter in D. cbn [existsb] in D.
  rewrite !orb_true_iff, !N.eqb_eq in D.
  destruct D as [->|[->|[->|[->|[->|[->|[->|[->|[->|D]]]]]]]]];
    try discriminate D; vm_compute in H; discriminate H.
Qed.

(** [encodeURIComponent] raises on every string that is not well-formed. *)
Lemma encodeURIComponent_ill_formed (s : jsstring) :
  isWellFormed s = false ->
  encodeURIComponent s = Throw (URIError (lit "URI malformed")).
Proof.
  enough (H : (isWellFormed s = false ->
               encodeURIComponent s = Throw (URIError (lit "URI malformed")))
              /\ forall c, isWellFormed (c :: s) = false ->
                 encodeURIComponent (c :: s) = Throw (URIError (lit "URI malformed")))
    by apply H.
  induction s as [|d s [IH1 IH2]].
  - split; [discriminate|].
    intros c. rewrite isWellFormed_cons, encodeURIComponent_cons.
    destruct (uri_unreserved c) eqn:U.
    + destruct (unreserved_is_no_surrogate _ U) as [-> ->]. discriminate.
    + destruct (is_high_surrogate c) eqn:Hh.
      * now rewrite (high_is_not_low _ Hh).
      * destruct (is_low_surrogate c); [reflexivity|discriminate].
  - split; [apply IH2|].
    intros c. rewrite isWellFormed_cons, encodeURIComponent_cons.
    destruct (uri_unreserved c) eqn:U.
    + destruct (unreserved_is_no_surrogate _ U) as [-> ->].
      intros H. now rewrite (IH2 d H).
    + destruct (is_high_surrogate c) eqn:Hh.
      * rewrite (high_is_not_low _ Hh).
        destruct (is_low_surrogate d); [|reflexivity].
        cbn [andb]. intros H. now rewrite (IH1 H).
      * destruct (is_low_surrogate c); [reflexivity|].
        intros H. now rewrite (IH2 d H).
Qed.

(** X3. Through the proxy, a well-formed URL is sent as the proxy URL
    followed by a single component: unreserved characters and percent
    signs only, so none of the delimiters [/ ? # & = : @ +] and no space. *)
Theorem proxied_url_is_one_component :
  forall (base token P endpoint method : jsstring) (params : JsObject)
         (data : JsValue) (n : Network),
    P <> [] ->
    proper (target_url base endpoint params) = true ->
    isWellFormed (target_url base endpoint params) = true ->
    exists encoded,
      sent_urls (snd (_request JSON_stringify server
                        (mkCanvasAPI base token true P)
                        endpoint method params data n))
        = sent_urls n ++ [P ++ encoded]
      /\ forallb uri_char encoded = true
      /\ forallb (fun c => negb (url_delimiter c)) encoded = true.
Proof.
  intros base token P endpoint method params data n HP Hproper Hwf.
  destruct (encodeURIComponent_well_formed _ Hwf) as [encoded Henc].
  exists encoded. rewrite sent_urls_request.
  unfold final_urls, use_proxy. cbn [useProxy corsProxyUrl apiUrl andb ToBoolean].
  destruct P as [|c P]; [congruence|]. rewrite Henc. cbn [cbind].
  pose proof (encodeURIComponent_chars _ Hproper Henc) as Hchars.
  repeat split; [exact Hchars|].
  apply forallb_forall. intros x Hx.
  rewrite forallb_forall in Hchars.
  now rewrite (uri_char_is_no_delimiter _ (Hchars x Hx)).
Qed.

(** X4. Through the proxy, a URL with a surrogate that has no partner is
    not sent: the call rejects with the [URIError] of
    [encodeURIComponent] and the requests sent stay as they were. *)
Theorem malformed_url_is_not_sent_through_proxy :
  forall (base token P endpoint method : jsstring) (params : JsObject)
         (data : JsValue) (n : Network),
    P <> [] ->
    isWellFormed (target_url base endpoint params) = false ->
    _request JSON_stringify server (mkCanvasAPI base token true P)
      endpoint method params data n
    = (Throw (URIError (lit "URI malformed")), n).
Proof.
  intros base token P endpoint method params data n HP Hwf.
  rewrite _request_run. unfold use_proxy.
  cbn [useProxy corsProxyUrl apiUrl andb ToBoolean].
  destruct P as [|c P]; [congruence|].
  now rewrite (encodeURIComponent_ill_formed _ Hwf).
Qed.

End ProxyEncoding.

(** ** Endpoints built from arguments *)

Section Endpoints.
Import CanvasAPI.

Variable JSON_stringify : JsValue -> jsstring.
Variable server : Server.

(** When no suffix of [p] starts [rest], an occurrence of [p] at the head of
    [s ++ rest] lies within [s]. *)
Lemma is_prefix_before (p s rest : jsstring) :
  (forall j, (j < List.length p)%nat -> is_prefix (skipn j p) rest = false) ->
  is_prefix p (s ++ rest) = is_prefix p s.
Proof.
  revert p. induction s as [|c s IH]; intros p H.
  - destruct p as [|a p]; [reflexivity|].
    cbn [app]. apply (H 0%nat). cbn. lia.
  - destruct p as [|a p]; [reflexivity|].
    cbn [app is_prefix]. f_equal. apply IH.
    intros j Hj. apply (H (S j)). cbn. lia.
Qed.

Lemma includes_before (p s rest : jsstring) :
  p <> [] ->
  (forall j, (j < List.length p)%nat -> is_prefix (skipn j p) rest = false) ->
  includes (s ++ rest) p = includes s p || includes rest p.
Proof.
  intros Hp H. induction s as [|c s IH].
  - destruct p; [congruence|reflexivity].
  - change (includes ((c :: s) ++ rest) p)
      with (is_prefix p ((c :: s) ++ rest) || includes (s ++ rest) p).
    rewrite (is_prefix_before _ (c :: s) _ H), IH.
    cbn [includes]. now rewrite orb_assoc.
Qed.

Lemma includes_without_slash (s : jsstring) :
  ~ In 47%N s -> includes s (lit "/api/v1") = false.
Proof.
  induction s as [|c s IH]; intros H; [reflexivity|].
  change (includes (c :: s) (lit "/api/v1"))
    with ((47 =? c)%N && is_prefix (lit "api/v1") s || includes s (lit "/api/v1")).
  rewrite IH by (intros Hin; apply H; now right).
  destruct (N.eqb_spec 47 c) as [<-|_]; [|reflexivity].
  exfalso. apply H. now left.
Qed.

Lemma decimal_chars (d : Decimal.uint) :
  forallb number_char (lit (NilEmpty.string_of_uint d)) = true.
Proof.
  induction d; cbn [NilEmpty.string_of_uint lit list_ascii_of_string map forallb];
    [reflexivity|..]; fold (lit (NilEmpty.string_of_uint d)); now rewrite IHd.
Qed.

(** A decimal numeral is made of digits, after a minus sign for a negative
    number. *)
Lemma decimal_number_chars (z : Z) :
  forallb number_char (decimal z) = true.
Proof.
  unfold decimal, NilZero.string_of_int, NilZero.string_of_uint.
  destruct (Z.to_int z) as [d|d].
  - destruct d; try reflexivity; apply decimal_chars.
  - change (forallb number_char
              (45%N :: lit (match d with
                            | Decimal.Nil => "0"%string
                            | _ => NilEmpty.string_of_uint d
                            end)) = true).
    cbn [forallb]. destruct d; try reflexivity; apply decimal_chars.
Qed.

Lemma render_chars (s k n : Z) :
  forallb number_char (render s k n) = true.
Proof.
  unfold render. pose proof (decimal_number_chars s) as Hs.
  destruct (n <=? 21)%Z.
  - rewrite forallb_app, Hs. cbn [andb].
    induction (Z.to_nat (n - k)) as [|m IH]; [reflexivity|exact IH].
  - destruct (decimal s) as [|first rest]; [reflexivity|].
    cbn [forallb] in Hs. apply andb_true_iff in Hs as [Hfirst Hrest].
    cbn [forallb]. rewrite Hfirst, forallb_app, forallb_app.
    rewrite (decimal_number_chars (n - 1)).
    destruct rest; [reflexivity|].
    rewrite forallb_app, Hrest. reflexivity.
Qed.

(** The string of a number, in all its forms, is made of these
    characters. *)
Lemma number_to_string_chars (z : Z) :
  forallb number_char (number_to_string z) = true.
Proof.
  unfold number_to_string.
  destruct (z =? 0)%Z; [reflexivity|].
  rewrite forallb_app.
  replace (forallb number_char (if (z <? 0)%Z then lit "-" else [])) with true
    by now destruct (z <? 0)%Z.
  destruct (double_of (Z.abs z)) as [v|]; [|reflexivity].
  destruct (shortest_from v 1 17) as [[s k] n]. apply render_chars.
Qed.

Lemma number_is_plain (s : jsstring) :
  forallb number_char s = true ->
  startsWith s (lit "api/v1") = false /\ includes s (lit "/api/v1") = false.
Proof.
  intros H. split.
  - destruct s as [|c s]; [reflexivity|].
    cbn [forallb] in H. apply andb_true_iff in H as [H _].
    unfold startsWith.
    change (is_prefix (lit "api/v1") (c :: s))
      with ((97 =? c)%N && is_prefix (lit "pi/v1") s).
    destruct (N.eqb_spec 97 c) as [<-|_]; [discriminate H|reflexivity].
  - apply includes_without_slash. intros Hin.
    rewrite forallb_forall in H. specialize (H _ Hin). discriminate H.
Qed.

(** Whether the path [/courses/<id><rest>] has the version segment, for the
    two endings the client uses. *)
Lemma course_path_includes (id rest : jsstring) :
  rest = lit "/assignments" \/ rest = lit "/modules" ->
  includes (lit "/courses/" ++ id ++ rest) (lit "/api/v1")
  = startsWith id (lit "api/v1") || includes id (lit "/api/v1").
Proof.
  intros Hrest.
  change (includes (lit "/courses/" ++ id ++ rest) (lit "/api/v1"))
    with (is_prefix (lit "api/v1") (id ++ rest)
          || includes (id ++ rest) (lit "/api/v1")).
  rewrite is_prefix_before, includes_before.
  - replace (includes rest (lit "/api/v1")) with false
      by (destruct Hrest as [->| ->]; reflexivity).
    now rewrite orb_false_r.
  - discriminate.
  - intros j Hj.
    do 7 (destruct j as [|j];
          [destruct Hrest as [->| ->]; reflexivity|]).
    cbn in Hj. lia.
  - intros j Hj.
    do 6 (destruct j as [|j];
          [destruct Hrest as [->| ->]; reflexivity|]).
    cbn in Hj. lia.
Qed.

Lemma course_path_normalized (id rest : jsstring) :
  rest = lit "/assignments" \/ rest = lit "/modules" ->
  normalized_path (lit "/courses/" ++ id ++ rest)
  = (if startsWith id (lit "api/v1") || includes id (lit "/api/v1")
     then [] else lit "/api/v1")
    ++ lit "/courses/" ++ id ++ rest.
Proof.
  intros Hrest. unfold normalized_path.
  change (ensure_leading_slash (lit "/courses/" ++ id ++ rest))
    with (lit "/courses/" ++ id ++ rest).
  unfold ensure_api_version. rewrite course_path_includes by assumption.
  now destruct (startsWith id (lit "api/v1") || includes id (lit "/api/v1")).
Qed.

Lemma target_url_per_page (base endpoint : jsstring) :
  target_url base endpoint [(lit "per_page", VNum 50)]
  = base ++ normalized_path endpoint ++ lit "?per_page=50".
Proof. reflexivity. Qed.

(** X5. The assignments and modules of a course are asked for at
    [/api/v1/courses/<id>/...?per_page=50], where [<id>] is the course id as
    a string, unless that string starts with [api/v1] or contains
    [/api/v1]: then the version segment is not put in front. *)
Theorem course_requests_and_the_version_segment :
  forall (this : t) (courseId : JsValue) (n : Network),
    let id := ToString courseId in
    let version :=
      if startsWith id (lit "api/v1") || includes id (lit "/api/v1")
      then [] else lit "/api/v1" in
    sent_urls (snd (getCourseAssignments JSON_stringify server this courseId n))
      = sent_urls n
          ++ final_urls this
               (apiUrl this ++ version ++ lit "/courses/" ++ id
                  ++ lit "/assignments?per_page=50")
    /\ sent_urls (snd (getCourseModules JSON_stringify server this courseId n))
       = sent_urls n
           ++ final_urls this
                (apiUrl this ++ version ++ lit "/courses/" ++ id
                   ++ lit "/modules?per_page=50").
Proof.
  intros this courseId n id version.
  unfold getCourseAssignments, getCourseModules.
  rewrite !sent_urls_request, !target_url_per_page.
  fold id. rewrite !course_path_normalized by (now left + now right).
  fold version. now rewrite <- !app_assoc.
Qed.

(** X6. For a course id that is a number, the version segment is always
    there, whatever form its string takes ([42], [1e+21], [-Infinity]): the
    target is [/api/v1/courses/<String(id)>/assignments] (or [/modules])
    with [per_page=50]. *)
Theorem numeric_course_id_requests :
  forall (this : t) (z : Z) (n : Network),
    sent_urls (snd (getCourseAssignments JSON_stringify server this (VNum z) n))
      = sent_urls n
          ++ final_urls this
               (apiUrl this ++ lit "/api/v1/courses/" ++ number_to_string z
                  ++ lit "/assignments?per_page=50")
    /\ sent_urls (snd (getCourseModules JSON_stringify server this (VNum z) n))
       = sent_urls n
           ++ final_urls this
                (apiUrl this ++ lit "/api/v1/courses/" ++ number_to_string z
                   ++ lit "/modules?per_page=50").
Proof.
  intros this z n.
  unfold getCourseAssignments, getCourseModules.
  rewrite !sent_urls_request, !target_url_per_page.
  rewrite !course_path_normalized by (now left + now right).
  cbn [ToString].
  destruct (number_is_plain _ (number_to_string_chars z)) as [-> ->].
  cbn [orb]. now rewrite <- !app_assoc.
Qed.

(** X7. [getCourses] always asks for [/courses] with [per_page=50] first;
    an argument that is given and is not the empty string adds its
    parameter with that string as the value, [enrollment_type] before
    [enrollment_state], and an argument left out or empty adds nothing. *)
Theorem getCourses_parameters_in_general :
  forall (this : t) (enrollmentType enrollmentState : option jsstring)
         (n : Network),
    let params :=
      [(lit "per_page", VNum 50)]
        ++ optional_param (lit "enrollment_type") enrollmentType
        ++ optional_param (lit "enrollment_state") enrollmentState in
    getCourses JSON_stringify server this enrollmentType enrollmentState n
      = _request JSON_stringify server this (lit "/courses") (lit "GET")
          params VNull n
    /\ query_pairs (query_string params)
       = [(lit "per_page", lit "50")]
           ++ optional_pair (lit "enrollment_type") enrollmentType
           ++ optional_pair (lit "enrollment_state") enrollmentState.
Proof.
  intros this enrollmentType enrollmentState n params. split.
  - destruct enrollmentType as [[|c s]|], enrollmentState as [[|c' s']|];
      reflexivity.
  - rewrite query_pairs_query_string by discriminate.
    subst params.
    destruct enrollmentType as [[|c s]|], enrollmentState as [[|c' s']|];
      reflexivity.
Qed.

(** X8. An endpoint may be written with or without its leading slash and
    with or without [api/v1]: the four spellings of a path that has no
    version segment of its own give the same call. *)
Theorem endpoint_spellings_agree :
  forall (this : t) (e method : jsstring) (params : JsObject) (data : JsValue)
         (n : Network),
    startsWith e (lit "/") = false ->
    includes (lit "/" ++ e) (lit "/api/v1") = false ->
    let run endpoint :=
      _request JSON_stringify server this endpoint method params data n in
    normalized_path e = lit "/api/v1/" ++ e
    /\ run (lit "/" ++ e) = run e
    /\ run (lit "api/v1/" ++ e) = run e
    /\ run (lit "/api/v1/" ++ e) = run e.
Proof.
  intros this e method params data n Hslash Hversion run.
  assert (H0 : normalized_path e = lit "/api/v1/" ++ e).
  { unfold normalized_path, ensure_leading_slash, ensure_api_version.
    now rewrite Hslash, Hversion. }
  assert (H1 : normalized_path (lit "/" ++ e) = lit "/api/v1/" ++ e).
  { unfold normalized_path.
    change (ensure_leading_slash (lit "/" ++ e)) with (lit "/" ++ e).
    unfold ensure_api_version. now rewrite Hversion. }
  assert (H2 : normalized_path (lit "api/v1/" ++ e) = lit "/api/v1/" ++ e)
    by reflexivity.
  assert (H3 : normalized_path (lit "/api/v1/" ++ e) = lit "/api/v1/" ++ e)
    by reflexivity.
  split; [exact H0|].
  subst run. cbv beta. rewrite !_request_run. unfold target_url.
  fold (normalized_path e) (normalized_path (lit "/" ++ e))
    (normalized_path (lit "api/v1/" ++ e))
    (normalized_path (lit "/api/v1/" ++ e)).
  rewrite H0, H1, H2, H3. repeat split.
Qed.

End Endpoints.

(** ** The fetch commands of the plugin *)

Section FetchCommands.
Import Dynamic MyPlugin MyPluginMethods Report.

Variable JSON_stringify : JsValue -> jsstring.
Variable server : Server.
Variable string_is_positive : jsstring -> bool.
Variable toLocaleDateString : JsValue -> jsstring.
Variable toLocaleTimeString : JsValue -> jsstring.
Variable canvasApi : CanvasAPI.t.

Local Abbreviation run_fetch :=
  (Report.run_fetch JSON_stringify server string_is_positive
     toLocaleDateString toLocaleTimeString canvasApi).
Local Abbreviation gather :=
  (Report.gather JSON_stringify server string_is_positive
     toLocaleDateString toLocaleTimeString canvasApi).
Local Abbreviation first_call := (Report.first_call JSON_stringify server canvasApi).
Local Abbreviation course_calls :=
  (Report.course_calls JSON_stringify server string_is_positive
     toLocaleDateString toLocaleTimeString canvasApi).
Local Abbreviation line :=
  (Report.line string_is_positive toLocaleDateString toLocaleTimeString).
Local Abbreviation row_ok := (Report.row_ok string_is_positive).

Lemma try_catch_bind {A B} (m : Task A) (k : A -> Task B)
  (h : Exn -> Task B) (w : World) :
  MyPlugin.try_catch (MyPlugin.bind m k) h w
  = match m w with
    | (Return a, w') => MyPlugin.try_catch (k a) h w'
    | (Throw e, w') => h e w'
    end.
Proof.
  unfold MyPlugin.try_catch, MyPlugin.bind.
  destruct (m w) as [[a|e] w']; reflexivity.
Qed.

Lemma try_catch_pure {A B} (c : Completion A) (k : A -> Task B)
  (h : Exn -> Task B) (w : World) :
  MyPlugin.try_catch (MyPlugin.bind (pure c) k) h w
  = match c with
    | Return a => MyPlugin.try_catch (k a) h w
    | Throw e => h e w
    end.
Proof.
  rewrite try_catch_bind. unfold pure. destruct c; reflexivity.
Qed.

(** The last steps of a command, in each of the three cases of the flag and
    the editor, against [finish]. *)
Ltac run_to_the_end w b :=
  destruct w as [n0 ns ins ed]; destruct b; [destruct ed|];
  cbv [MyPlugin.try_catch MyPlugin.bind Notice insert_when_asked
       insertTextIntoCurrentDocument MyPlugin.ret finish
       network notices insertions activeEditor];
  rewrite <- ?app_assoc; reflexivity.

(** The first two steps of a command: its notice and its first call. *)
Ltac notice_and_call :=
  rewrite try_catch_bind; unfold Notice at 1;
  rewrite try_catch_bind; unfold await at 1; unfold Obsidian.bind at 1;
  cbn [network notices insertions activeEditor].

(** The steps of a list command after its call. *)
Ltac list_steps body w b :=
  unfold lift, list_report;
  rewrite try_catch_pure;
  destruct (has_items string_is_positive body) as [some|?]; cbn [cbind];
    [|run_to_the_end w b];
  rewrite try_catch_pure;
  match goal with
  | |- match ?x with _ => _ end = finish _ _ _ (cbind ?y _) _ =>
      replace x with y by reflexivity; destruct y as [out|?]
  end; cbn [cbind]; [|run_to_the_end w b];
  rewrite try_catch_pure;
  destruct (get body (lit "length")) as [len|?]; cbn [cbind];
    run_to_the_end w b.

Lemma get_defined (v : JsValue) (k : jsstring) :
  defined v = true -> get v k = Return (prop v k).
Proof. destruct v; try discriminate; reflexivity. Qed.

Lemma get_Return_defined (v x : JsValue) (k : jsstring) :
  get v k = Return x -> defined v = true.
Proof. destruct v; try discriminate; reflexivity. Qed.

Lemma course_assignments_calls (course : JsValue) (out : jsstring) (w : World) :
  course_assignments JSON_stringify server string_is_positive
    toLocaleDateString toLocaleTimeString canvasApi course out w
  = await (course_calls course out) w.
Proof.
  destruct w as [n0 ns ins ed].
  unfold course_assignments, Report.course_calls, await, pure, MyPlugin.bind,
    Obsidian.bind, lift.
  cbn [network notices insertions activeEditor].
  destruct (get course (lit "name")) as [name|e]; [|reflexivity].
  destruct (get course (lit "id")) as [id|e]; [|reflexivity].
  destruct (CanvasAPI.getCourseAssignments JSON_stringify server canvasApi id n0)
    as [[a|e] n1]; reflexivity.
Qed.

Lemma for_each_task_calls (items : list JsValue) (out : jsstring) (w : World) :
  for_each_task items
    (course_assignments JSON_stringify server string_is_positive
       toLocaleDateString toLocaleTimeString canvasApi) out w
  = await (for_each_call items course_calls out) w.
Proof.
  revert out w. induction items as [|item items IH]; intros out w.
  - destruct w. reflexivity.
  - cbn [for_each_task for_each_call]. unfold MyPlugin.bind at 1.
    rewrite course_assignments_calls.
    destruct w as [n0 ns ins ed].
    unfold await, Obsidian.bind.
    cbn [network notices insertions activeEditor].
    destruct (course_calls item out n0) as [[out'|e] n1]; [|reflexivity].
    rewrite IH. unfold await. cbn [network notices insertions activeEditor].
    reflexivity.
Qed.

(** A command is its notice, what it gathers with the client, and the
    end. *)
Lemma run_fetch_finish (c : FetchCommand) (b : bool) (w : World) :
  run_fetch c b w
  = let (gathered, n) := gather c (network w) in finish c b w gathered n.
Proof.
  destruct c; unfold Report.run_fetch, Report.gather, Report.first_call.
  - (* fetchCanvasData *)
    unfold fetchCanvasData. notice_and_call.
    destruct (CanvasAPI.getCourses _ _ _ _ _ (network w)) as [[courses|e] n];
      [|run_to_the_end w b].
    rewrite try_catch_pure. unfold Obsidian.bind at 1, lift at 1.
    destruct (has_items string_is_positive courses) as [some|e];
      [|run_to_the_end w b].
    rewrite try_catch_bind. unfold Obsidian.bind at 1.
    destruct some.
    + unfold MyPlugin.bind at 1, pure at 1. unfold Obsidian.bind at 1, lift at 1.
      cbn [app].
      change (lit "## Canvas Active Courses" ++ nl ++ nl) with (heading Courses).
      destruct (forEach courses (lit "courses") course_line (heading Courses))
        as [out|e]; [|run_to_the_end w b].
      unfold MyPlugin.bind at 1, pure at 1. unfold Obsidian.bind at 1, lift at 1.
      destruct (iterate courses (lit "courses")) as [items|e];
        [|run_to_the_end w b].
      rewrite for_each_task_calls. unfold await at 1.
      cbn [network notices insertions activeEditor].
      destruct (for_each_call items _ out n) as [[out'|e] n'];
        [|run_to_the_end w b].
      rewrite try_catch_pure. unfold Obsidian.bind, lift, Obsidian.ret.
      destruct (get courses (lit "length")) as [len|e]; run_to_the_end w b.
    + unfold MyPlugin.ret at 1, Obsidian.ret at 1.
      rewrite try_catch_pure. unfold Obsidian.bind, lift, Obsidian.ret.
      destruct (get courses (lit "length")) as [len|e]; run_to_the_end w b.
  - (* fetchCanvasUserProfile *)
    unfold fetchCanvasUserProfile. notice_and_call.
    destruct (CanvasAPI.getUserProfile _ _ _ (network w)) as [[body|e] n];
      [|run_to_the_end w b].
    unfold lift, profile_report. rewrite try_catch_pure.
    destruct (get body (lit "name")) as [name|e] eqn:E; cbn [cbind];
      [|run_to_the_end w b].
    pose proof (get_Return_defined _ _ E) as D.
    rewrite !(get_defined _ _ D), !try_catch_pure.
    run_to_the_end w b.
  - (* fetchCanvasEvents *)
    unfold fetchCanvasEvents. notice_and_call.
    destruct (CanvasAPI.getUpcomingEvents _ _ _ (network w)) as [[body|e] n];
      [|run_to_the_end w b].
    list_steps body w b.
  - (* fetchCanvasTodoItems *)
    unfold fetchCanvasTodoItems. notice_and_call.
    destruct (CanvasAPI.getTodoItems _ _ _ (network w)) as [[body|e] n];
      [|run_to_the_end w b].
    list_steps body w b.
  - (* fetchCanvasGrades *)
    unfold fetchCanvasGrades. notice_and_call.
    destruct (CanvasAPI.getCourseGrades _ _ _ (network w)) as [[body|e] n];
      [|run_to_the_end w b].
    list_steps body w b.
Qed.

(** What a command gathers starts with its notice of what was fetched. *)
Lemma gather_fetched_notice (c : FetchCommand) (n n' : Network)
  (fetched text : jsstring) :
  gather c n = (Return (fetched, text), n') ->
  exists count, fetched = fetched_notice c count.
Proof.
  intros H.
  destruct c;
    unfold Report.gather, list_report, profile_report, Obsidian.bind, lift,
      Obsidian.ret, cbind in H;
    repeat match type of H with
           | context [match ?x with _ => _ end] => destruct x; try discriminate H
           end;
    injection H as <- _ _; eexists; reflexivity.
Qed.

(** X9. Whatever the remote side does, be it an answer that is not what
    the command expects or an error thrown on the way, a fetch command
    resolves: every error is caught and ends in the failure notice.  (What
    is thrown is an error object throughout, see [Exn].)  Its notices are
    its first notice and then either the failure notice, with nothing
    inserted, or the notice of what was fetched; after that one, asked to
    insert, it inserts one text and says so when an editor is active, and
    says that there is no active document when none is. *)
Theorem fetch_commands_resolve_and_report :
  forall (c : FetchCommand) (insertIntoNote : bool) (w : World),
    let after := snd (run_fetch c insertIntoNote w) in
    fst (run_fetch c insertIntoNote w) = Return tt
    /\ activeEditor after = activeEditor w
    /\ ((exists error,
           notices after
           = notices w ++ [start_notice c;
                           failure_prefix c ++ message_or_unknown error]
           /\ insertions after = insertions w)
        \/ exists count,
             if insertIntoNote && activeEditor w then
               exists text,
                 notices after
                 = notices w ++ [start_notice c; fetched_notice c count;
                                 inserted_notice c]
                 /\ insertions after = insertions w ++ [text]
             else
               notices after
               = notices w
                   ++ start_notice c :: fetched_notice c count
                        :: (if insertIntoNote
                            then [lit "No active document to insert text into"]
                            else [])
               /\ insertions after = insertions w).
Proof.
  intros c b w after. subst after. rewrite run_fetch_finish.
  destruct (gather c (network w)) as [[[fetched text]|e] n] eqn:G;
    unfold finish.
  - destruct (gather_fetched_notice _ _ G) as [count ->].
    destruct b; [destruct (activeEditor w) eqn:E|]; cbn [fst snd andb];
      cbn [network notices insertions activeEditor];
      (split; [reflexivity|]); (split; [now rewrite ?E|]);
      right; exists count.
    + now exists text.
    + now split.
    + now split.
  - cbn [fst snd network notices insertions activeEditor].
    split; [reflexivity|]. split; [reflexivity|].
    left. now exists e.
Qed.

Lemma gather_rejected (c : FetchCommand) (n n' : Network) (e : Exn) :
  first_call c n = (Throw e, n') -> gather c n = (Throw e, n').
Proof.
  intros H. destruct c; unfold Report.gather, Obsidian.bind; now rewrite H.
Qed.

(** X10. When the first call of a command rejects (a status of 400 or more,
    a failure of the transport, a URL that cannot be encoded), the command
    shows its first notice and then the failure notice with the message of
    the error, or with [Unknown error] when the message is empty; it inserts
    nothing and sends nothing more. *)
Theorem rejected_call_ends_in_failure_notice :
  forall (c : FetchCommand) (insertIntoNote : bool) (w : World)
         (e : Exn) (n : Network),
    first_call c (network w) = (Throw e, n) ->
    run_fetch c insertIntoNote w
    = (Return tt,
       mkWorld n
         (notices w ++
          [start_notice c;
           failure_prefix c ++
           match exn_message e with
           | [] => lit "Unknown error"
           | _ :: _ => exn_message e
           end])
         (insertions w) (activeEditor w)).
Proof.
  intros c b w e n H. rewrite run_fetch_finish, (@gather_rejected c _ _ _ H).
  unfold finish, message_or_unknown, or_else. cbn [ToBoolean].
  now destruct (exn_message e).
Qed.

Lemma gather_null (c : FetchCommand) (n n' : Network) :
  first_call c n = (Return VNull, n') ->
  gather c n
  = (Throw (TypeError
              (lit "Cannot read properties of null (reading '"
                 ++ match c with Profile => lit "name" | _ => lit "length" end
                 ++ lit "')")), n').
Proof.
  intros H. destruct c; unfold Report.gather, Obsidian.bind; now rewrite H.
Qed.

(** X11. When the body of the answer is [null], the command fails although
    the call resolved: reading [length] (for the profile, [name]) of [null]
    raises a [TypeError], whose message ends up in the failure notice, and
    nothing is inserted. *)
Theorem null_body_is_reported_as_failure :
  forall (c : FetchCommand) (insertIntoNote : bool) (w : World) (n : Network),
    first_call c (network w) = (Return VNull, n) ->
    run_fetch c insertIntoNote w
    = (Return tt,
       mkWorld n
         (notices w ++
          [start_notice c;
           failure_prefix c ++ lit "Cannot read properties of null (reading '"
             ++ match c with Profile => lit "name" | _ => lit "length" end
             ++ lit "')"])
         (insertions w) (activeEditor w)).
Proof.
  intros c b w n H. rewrite run_fetch_finish, (@gather_null c _ _ H).
  destruct c; reflexivity.
Qed.

Lemma gather_empty (c : FetchCommand) (n n' : Network) :
  c <> Profile ->
  first_call c n = (Return (VArr []), n') ->
  gather c n = (Return (fetched_notice c (lit "0"), nothing_found c), n').
Proof.
  intros Hc H.
  destruct c; try congruence; unfold Report.gather, Obsidian.bind;
    now rewrite H.
Qed.

(** X12. When the answer is an empty list, a list command reports zero
    items and its text is the heading with the line that nothing was found;
    for the courses the text is empty, and it is still inserted, with the
    notice of the insertion, when that was asked for and an editor is
    active. *)
Theorem empty_list_is_reported :
  forall (c : FetchCommand) (insertIntoNote : bool) (w : World) (n : Network),
    c <> Profile ->
    first_call c (network w) = (Return (VArr []), n) ->
    run_fetch c insertIntoNote w
      = finish c insertIntoNote w
          (Return (fetched_notice c (lit "0"), nothing_found c)) n
    /\ (c = Courses -> insertIntoNote = true -> activeEditor w = true ->
        insertions (snd (run_fetch c insertIntoNote w)) = insertions w ++ [[]]
        /\ notices (snd (run_fetch c insertIntoNote w))
           = notices w ++ [lit "Fetching Canvas courses...";
                           lit "Fetched 0 courses";
                           lit "Canvas courses data inserted into note"]).
Proof.
  intros c b w n Hc H.
  rewrite run_fetch_finish, (@gather_empty c _ _ Hc H).
  split; [reflexivity|].
  intros -> -> E. unfold finish. rewrite E. now split.
Qed.

Lemma forEach_lines (name : jsstring)
  (row : JsValue -> jsstring -> Completion jsstring)
  (line : JsValue -> jsstring) (items : list JsValue) (out : jsstring) :
  (forall item, In item items ->
     forall o, row item o = Return (o ++ line item)) ->
  forEach (VArr items) name row out = Return (out ++ flat_map line items).
Proof.
  unfold forEach. revert out.
  induction items as [|item items IH]; intros out H.
  - cbn. now rewrite app_nil_r.
  - cbn [fold_left flat_map cbind]. rewrite (H item) by now left.
    rewrite IH by (intros x Hx; apply H; now right).
    now rewrite app_assoc.
Qed.

Lemma has_items_array (items : list JsValue) :
  has_items string_is_positive (VArr items)
  = Return (match items with [] => false | _ :: _ => true end).
Proof. destruct items; reflexivity. Qed.

Lemma length_array (items : list JsValue) :
  get (VArr items) (lit "length") = Return (VNum (Z.of_nat (List.length items))).
Proof. reflexivity. Qed.

Lemma has_items_total (v : JsValue) :
  exists some, has_items string_is_positive v = Return some.
Proof.
  unfold has_items. destruct (ToBoolean v) eqn:T; [|now exists false].
  destruct v; try discriminate; cbn [get cbind]; eexists; reflexivity.
Qed.

Lemma row_line (c : FetchCommand) (item : JsValue) (o : jsstring) :
  row_ok c item = true ->
  match c with
  | Events => event_row toLocaleDateString toLocaleTimeString item o
  | Todos => todo_row toLocaleDateString toLocaleTimeString item o
  | Grades => grade_row string_is_positive item o
  | Courses | Profile => Return (o ++ line c item)
  end
  = Return (o ++ line c item).
Proof.
  destruct c; cbn [Report.row_ok Report.line]; try discriminate.
  - intros D. unfold event_row. now rewrite !(get_defined _ _ D).
  - intros D. apply andb_true_iff in D as [D1 D2].
    unfold todo_row. rewrite !(get_defined _ _ D1). cbn [cbind].
    now rewrite !(get_defined _ _ D2).
  - intros D. apply andb_true_iff in D as [D1 D2].
    unfold grade_row, grade_line, has_enrollment, first_enrollment in *.
    rewrite !(get_defined _ _ D1). cbn [cbind].
    destruct (has_items_total (prop item (lit "enrollments"))) as [some Hs].
    rewrite Hs in *. cbn [cbind]. destruct some; [|reflexivity].
    cbn [negb orb] in D2.
    assert (Hf : exists x, get_first (prop item (lit "enrollments")) = Return x).
    { unfold has_items in Hs.
      destruct (prop item (lit "enrollments")); try discriminate Hs;
        eexists; reflexivity. }
    destruct Hf as [x Hx].
    rewrite Hx in *. cbn [cbind]. now rewrite !(get_defined _ _ D2).
Qed.

Lemma gather_list (c : FetchCommand) (items : list JsValue) (n n' : Network) :
  is_list_command c = true ->
  items <> [] ->
  forallb (row_ok c) items = true ->
  first_call c n = (Return (VArr items), n') ->
  gather c n
  = (Return (fetched_notice c (number_to_string (Z.of_nat (List.length items))),
             heading c ++ table_head c
               ++ flat_map (line c) items), n').
Proof.
  intros Hc Hne Hok H.
  rewrite forallb_forall in Hok.
  destruct c; try discriminate Hc;
    unfold Report.gather, Obsidian.bind; rewrite H;
    unfold lift, list_report;
    rewrite has_items_array, length_array;
    (destruct items as [|i0 items0] eqn:Ei; [congruence|]);
    rewrite <- Ei in *; cbn [cbind];
    rewrite (forEach_lines _ _ (line _))
      by (intros item Hin o;
          apply (row_line _ _ o (Hok _ Hin)));
    cbn [cbind ToString]; now rewrite <- app_assoc.
Qed.

(** X13. A list command whose answer is a list that is not empty, of
    elements a line can be made for, gives the heading, the head of the
    table and one line for each element, in the order of the list, and
    reports the number of elements. *)
Theorem list_commands_make_one_line_per_item :
  forall (c : FetchCommand) (insertIntoNote : bool) (w : World)
         (items : list JsValue) (n : Network),
    is_list_command c = true ->
    items <> [] ->
    forallb (row_ok c) items = true ->
    first_call c (network w) = (Return (VArr items), n) ->
    run_fetch c insertIntoNote w
    = finish c insertIntoNote w
        (Return (fetched_notice c (number_to_string (Z.of_nat (List.length items))),
                 heading c ++ table_head c
                   ++ flat_map (line c) items)) n.
Proof.
  intros c b w items n Hc Hne Hok H.
  now rewrite run_fetch_finish, (@gather_list c items _ _ Hc Hne Hok H).
Qed.

Local Abbreviation assignment_row :=
  (MyPluginMethods.assignment_row toLocaleDateString toLocaleTimeString).
Local Abbreviation assignment_line :=
  (Report.assignment_line toLocaleDateString toLocaleTimeString).
Local Abbreviation assignments_section :=
  (MyPluginMethods.assignments_section string_is_positive toLocaleDateString
     toLocaleTimeString).
Local Abbreviation assignments_target := (Report.assignments_target canvasApi).

Lemma assignment_rows (items : list JsValue) (out : jsstring) (c p : nat) :
  forallb defined items = true ->
  forEach (VArr items) (lit "assignments") assignment_row (out, c, p)
  = Return
      (out ++ flat_map assignment_line (filter has_due_date items),
       (c + List.length (filter is_submitted (filter has_due_date items)))%nat,
       (p + List.length (filter (fun a => negb (is_submitted a))
                           (filter has_due_date items)))%nat).
Proof.
  unfold forEach. revert out c p.
  induction items as [|a items IH]; intros out c p H.
  - cbn. now rewrite app_nil_r, !Nat.add_0_r.
  - cbn [forallb] in H. apply andb_true_iff in H as [D H].
    cbn [fold_left cbind filter].
    unfold MyPluginMethods.assignment_row at 2.
    rewrite !(get_defined _ _ D). cbn [cbind].
    fold (has_due_date a). destruct (has_due_date a).
    + cbn [cbind]. fold (is_submitted a). cbn [filter flat_map].
      destruct (is_submitted a) eqn:S; cbn [fst snd negb filter List.length];
        rewrite IH by assumption;
        unfold Report.assignment_line at 2; rewrite S;
        rewrite <- !app_assoc, ?Nat.add_succ_r; reflexivity.
    + now rewrite IH.
Qed.

(** X14. The table of the assignments of a course has one line for each
    assignment with a due date, in their order, and the two numbers of the
    summary are those of the submitted and of the other ones among them:
    they add up to the number of lines. *)
Theorem assignment_summary_counts_the_lines :
  forall (items : list JsValue) (out : jsstring),
    items <> [] ->
    forallb defined items = true ->
    let due := filter has_due_date items in
    let completed := List.length (filter is_submitted due) in
    let pending := List.length (filter (fun a => negb (is_submitted a)) due) in
    assignments_section (VArr items) out
      = Return (out ++ lit "| Assignment | Due Date | Status |" ++ nl
                  ++ lit "| --- | --- | --- |" ++ nl
                  ++ flat_map assignment_line due
                  ++ nl ++ lit "**Summary:** "
                  ++ number_to_string (Z.of_nat completed)
                  ++ lit " completed, "
                  ++ number_to_string (Z.of_nat pending)
                  ++ lit " pending assignments" ++ nl ++ nl)
    /\ (completed + pending = List.length due)%nat.
Proof.
  intros items out Hne Hd due completed pending. split.
  - unfold MyPluginMethods.assignments_section.
    assert (Hi : has_items string_is_positive (VArr items) = Return true)
      by (rewrite has_items_array; destruct items; [congruence|reflexivity]).
    rewrite Hi. cbn [cbind].
    rewrite assignment_rows by assumption. cbn [cbind Nat.add].
    fold due. fold completed. fold pending.
    now rewrite <- !app_assoc.
  - apply filter_length.
Qed.

(** One turn of the loop: nothing is sent when the course cannot be read,
    and otherwise the assignments request of the course is. *)
Lemma course_calls_step (c : JsValue) (out : jsstring) (n : Network) :
  (exists e, course_calls c out n = (Throw e, n))
  \/ exists r n1,
       course_calls c out n = (r, n1)
       /\ sent_urls n1
          = sent_urls n ++ final_urls canvasApi (assignments_target c).
Proof.
  unfold Report.course_calls, Obsidian.bind, lift.
  destruct (get c (lit "name")) as [name|e] eqn:En;
    [|left; now exists e].
  pose proof (get_Return_defined _ _ En) as D.
  rewrite (get_defined _ _ D). right.
  pose proof (sent_urls_request JSON_stringify server canvasApi
                (lit "/courses/" ++ ToString (prop c (lit "id"))
                   ++ lit "/assignments")
                (lit "GET") [(lit "per_page", VNum 50)] VNull n) as Hsent.
  fold (CanvasAPI.getCourseAssignments JSON_stringify server canvasApi
          (prop c (lit "id"))) in Hsent.
  destruct (CanvasAPI.getCourseAssignments JSON_stringify server canvasApi
              (prop c (lit "id")) n) as [[assignments|e] n1];
    cbn [snd] in Hsent.
  - destruct (MyPluginMethods.assignments_section _ _ _ assignments _);
      eexists; eexists; split; try reflexivity; exact Hsent.
  - eexists; eexists; split; [reflexivity|exact Hsent].
Qed.

(** What the loop over the courses sends: one assignments request for each
    course it gets to, in order; it gets to all of them or stops with an
    error. *)
Lemma course_loop_requests (items : list JsValue) (out : jsstring) (n : Network) :
  exists k,
    (k <= List.length items)%nat
    /\ sent_urls (snd (for_each_call items course_calls out n))
       = sent_urls n
           ++ flat_map (fun c => final_urls canvasApi (assignments_target c))
                (firstn k items)
    /\ (k = List.length items
        \/ exists e, fst (for_each_call items course_calls out n) = Throw e).
Proof.
  revert out n. induction items as [|c items IH]; intros out n.
  - exists 0%nat. cbn. rewrite app_nil_r.
    split; [apply Nat.le_refl|]. split; [reflexivity|now left].
  - cbn [for_each_call]. unfold Obsidian.bind.
    destruct (course_calls_step c out n) as [[e ->]|(r & n1 & -> & Hsent)].
    { exists 0%nat. cbn [firstn flat_map fst snd].
      rewrite app_nil_r. split; [apply Nat.le_0_l|].
      split; [reflexivity|]. right. now exists e. }
    destruct r as [out'|e].
    + destruct (IH out' n1) as (k & Hk & Hurls & Hend).
      exists (S k). cbn [firstn flat_map List.length].
      split; [lia|]. split.
      * rewrite Hurls, Hsent. now rewrite <- !app_assoc.
      * destruct Hend as [->|He]; [now left|now right].
    + exists 1%nat. cbn [firstn flat_map fst snd List.length].
      rewrite app_nil_r. split; [lia|]. split; [exact Hsent|].
      right. now exists e.
Qed.

Lemma gather_courses_requests (courses : JsValue) (n0 n : Network) :
  first_call Courses n0 = (Return courses, n) ->
  exists k g n',
    gather Courses n0 = (g, n')
    /\ (k <= List.length (elements courses))%nat
    /\ sent_urls n'
       = sent_urls n
           ++ flat_map (fun c => final_urls canvasApi (assignments_target c))
                (firstn k (elements courses))
    /\ (k = List.length (elements courses) \/ exists e, g = Throw e).
Proof.
  intros H. unfold Report.gather. unfold Obsidian.bind at 1. rewrite H.
  assert (Hnone : forall g,
    (elements courses = [] \/ exists e, g = Throw e) ->
    exists k (g' : Completion (jsstring * jsstring)) n',
      (g, n) = (g', n')
      /\ (k <= List.length (elements courses))%nat
      /\ sent_urls n'
         = sent_urls n
             ++ flat_map (fun c => final_urls canvasApi (assignments_target c))
                  (firstn k (elements courses))
      /\ (k = List.length (elements courses) \/ exists e, g' = Throw e)).
  { intros g Hg. exists 0%nat, g, n. cbn [firstn flat_map].
    rewrite app_nil_r. split; [reflexivity|]. split; [apply Nat.le_0_l|].
    split; [reflexivity|].
    destruct Hg as [->|Hg]; [now left|now right]. }
  unfold Obsidian.bind at 1, lift at 1.
  destruct (has_items string_is_positive courses) as [some|e] eqn:Hs;
    [|apply Hnone; right; now exists e].
  unfold Obsidian.bind at 1.
  destruct some.
  - unfold Obsidian.bind at 1, lift at 1.
    destruct (forEach courses (lit "courses") course_line (heading Courses))
      as [out|e] eqn:Hf; [|apply Hnone; right; now exists e].
    assert (Hit : iterate courses (lit "courses") = Return (elements courses))
      by (destruct courses; try discriminate Hf; reflexivity).
    unfold Obsidian.bind at 1, lift at 1.
    rewrite Hit.
    destruct (course_loop_requests (elements courses) out n)
      as (k & Hk & Hurls & Hend).
    destruct (for_each_call (elements courses) course_calls out n)
      as [[out'|e] n'] eqn:Hloop; cbn [fst snd] in Hurls, Hend.
    + unfold Obsidian.bind, lift, Obsidian.ret.
      destruct (get courses (lit "length")) as [len|e];
        exists k; eexists; exists n';
        (split; [reflexivity|]); (split; [exact Hk|]); (split; [exact Hurls|]).
      * left. destruct Hend as [->|[e He]]; [reflexivity|discriminate He].
      * right. now exists e.
    + exists k; eexists; exists n'.
      split; [reflexivity|]. split; [exact Hk|]. split; [exact Hurls|].
      right. now exists e.
  - assert (He : elements courses = []).
    { destruct courses; try reflexivity.
      rewrite has_items_array in Hs. destruct elems; [reflexivity|discriminate]. }
    unfold Obsidian.ret at 1. unfold Obsidian.bind, lift, Obsidian.ret.
    destruct (get courses (lit "length")); apply Hnone; now left.
Qed.

(** X15. [fetchCanvasData] sends its courses request and then one
    assignments request for each course of the answer, in the order of the
    answer, sequentially: either for every course, or up to the course at
    which something fails, and then it shows the failure notice. *)
Theorem one_assignments_request_per_course :
  forall (insertIntoNote : bool) (w : World) (courses : JsValue) (n : Network),
    first_call Courses (network w) = (Return courses, n) ->
    exists k,
      (k <= List.length (elements courses))%nat
      /\ sent_urls (network (snd (run_fetch Courses insertIntoNote w)))
         = sent_urls n
             ++ flat_map (fun c => final_urls canvasApi (assignments_target c))
                  (firstn k (elements courses))
      /\ (k = List.length (elements courses)
          \/ exists e,
               notices (snd (run_fetch Courses insertIntoNote w))
               = notices w ++ [start_notice Courses;
                               failure_prefix Courses ++ message_or_unknown e]).
Proof.
  intros b w courses n H.
  rewrite run_fetch_finish.
  destruct (gather_courses_requests _ H) as (k & g & n' & -> & Hk & Hurls & Hend).
  assert (Hnet : network (snd (finish Courses b w g n')) = n').
  { unfold finish.
    destruct g as [[f t]|e]; [destruct b; [destruct (activeEditor w)|]|];
      reflexivity. }
  exists k. rewrite Hnet. split; [exact Hk|]. split; [exact Hurls|].
  destruct Hend as [->|[e ->]]; [now left|right]. now exists e.
Qed.

Lemma testConnection_run (n : Network) :
  CanvasAPI.testConnection JSON_stringify server canvasApi n
  = (Return (resolved (fst (CanvasAPI.getUserProfile JSON_stringify server
                              canvasApi n))),
     snd (CanvasAPI.getUserProfile JSON_stringify server canvasApi n)).
Proof.
  unfold CanvasAPI.testConnection, Obsidian.try_catch, Obsidian.bind, Obsidian.ret.
  now destruct (CanvasAPI.getUserProfile JSON_stringify server canvasApi n)
    as [[profile|e] n'].
Qed.

(** X16. [testCanvasConnection] resolves with what [testConnection] tells:
    [true] exactly when the profile call resolves.  It shows two notices,
    that the test runs and then its result; the notice of its [catch] is
    never shown. *)
Theorem testCanvasConnection_shows_the_result :
  forall (w : World),
    let profile :=
      CanvasAPI.getUserProfile JSON_stringify server canvasApi (network w) in
    testCanvasConnection JSON_stringify server canvasApi w
    = (Return (resolved (fst profile)),
       mkWorld (snd profile)
         (notices w ++
          [lit "Testing Canvas API connection...";
           if resolved (fst profile)
           then lit "Canvas API connection successful!"
           else lit "Failed to connect to Canvas API."])
         (insertions w) (activeEditor w)).
Proof.
  intros w profile. subst profile.
  unfold testCanvasConnection.
  rewrite try_catch_bind. unfold Notice at 1.
  rewrite try_catch_bind. unfold await at 1.
  cbn [network notices insertions activeEditor].
  rewrite testConnection_run.
  destruct (CanvasAPI.getUserProfile JSON_stringify server canvasApi (network w))
    as [[body|e] n]; cbn [fst snd resolved];
    unfold MyPlugin.try_catch, MyPlugin.bind, Notice, MyPlugin.ret;
    cbn [network notices insertions activeEditor];
    now rewrite <- app_assoc.
Qed.

End FetchCommands.

(** ** Loading and saving the settings *)

Section SettingsFile.
Import Dynamic Persistence.

Lemma lookup_obj_set (o : JsObject) (k k' : jsstring) (v : JsValue) :
  lookup (obj_set o k v) k'
  = if list_eq_dec N.eq_dec k' k then Some v else lookup o k'.
Proof.
  induction o as [|[k0 v0] o IH]; cbn [obj_set lookup].
  - reflexivity.
  - destruct (list_eq_dec N.eq_dec k k0) as [->|Hk]; cbn [lookup].
    + destruct (list_eq_dec N.eq_dec k' k0); reflexivity.
    + rewrite IH. destruct (list_eq_dec N.eq_dec k' k0) as [->|Hk'].
      * destruct (list_eq_dec N.eq_dec k0 k); [congruence|reflexivity].
      * reflexivity.
Qed.

Lemma lookup_absent (o : JsObject) (k : jsstring) :
  ~ In k (map fst o) -> lookup o k = None.
Proof.
  induction o as [|[k0 v0] o IH]; intros H; [reflexivity|].
  cbn [lookup]. destruct (list_eq_dec N.eq_dec k k0) as [->|_].
  - exfalso. apply H. now left.
  - apply IH. intros Hin. apply H. now right.
Qed.

(** Assigning the properties of [source] to [target]: a property of the
    source wins, the others stay as they were. *)
Lemma lookup_assign (source target : JsObject) (k : jsstring) :
  NoDup (map fst source) ->
  lookup (assign_from target (Some source)) k
  = match lookup source k with
    | Some v => Some v
    | None => lookup target k
    end.
Proof.
  unfold assign_from. revert target.
  induction source as [|[k0 v0] source IH]; intros target H; [reflexivity|].
  cbn [map fst] in H. inversion H as [|? ? Hout Hrest]; subst.
  cbn [fold_left fst snd lookup]. rewrite IH by assumption.
  destruct (list_eq_dec N.eq_dec k k0) as [->|Hk].
  - rewrite (lookup_absent _ _ Hout), lookup_obj_set.
    destruct (list_eq_dec N.eq_dec k0 k0); [reflexivity|congruence].
  - destruct (lookup source k); [reflexivity|].
    rewrite lookup_obj_set.
    destruct (list_eq_dec N.eq_dec k k0); [congruence|reflexivity].
Qed.

(** X17. [loadSettings] gives the defaults when there is no data file.  For
    a data file, each property is the one of the file when the file has
    it, and the default otherwise: so the five settings are always
    there. *)
Theorem loadSettings_fills_in_the_defaults :
  loadSettings None = settings_object Settings.DEFAULT_SETTINGS
  /\ forall (file : JsObject) (k : jsstring),
       NoDup (map fst file) ->
       lookup (loadSettings (Some file)) k
       = match lookup file k with
         | Some v => Some v
         | None => lookup (settings_object Settings.DEFAULT_SETTINGS) k
         end.
Proof.
  split; [reflexivity|].
  intros file k H. unfold loadSettings, Object_assign.
  cbn [fold_left]. now rewrite lookup_assign.
Qed.

(** What is read back from a file is what was written, when that was
    JSON. *)
Lemma JSON_copy_id (v : JsValue) : is_JSON v = true -> JSON_copy v = v.
Proof.
  induction v as [| | |z| |elems H|props H] using JsValue_nested_ind;
    try reflexivity; try discriminate.
  - cbn [is_JSON JSON_copy]. now intros ->.
  - cbn [is_JSON JSON_copy]. intros Hall. f_equal.
    induction H as [|x l Hx Hl IH]; [reflexivity|].
    cbn [forallb] in Hall. apply andb_true_iff in Hall as [H1 H2].
    cbn [map]. now rewrite Hx, IH.
  - cbn [is_JSON JSON_copy]. intros Hall. f_equal.
    induction H as [|[k x] l Hx Hl IH]; [reflexivity|].
    cbn [forallb] in Hall. apply andb_true_iff in Hall as [H1 H2].
    cbn [flat_map]. cbn [snd] in Hx. rewrite IH by assumption.
    destruct x; try discriminate H1; try reflexivity; now rewrite (Hx H1).
Qed.

Lemma JSON_props_id (o : JsObject) :
  is_JSON (VObj o) = true -> JSON_props o = o.
Proof.
  intros H. apply JSON_copy_id in H.
  change (JSON_copy (VObj o)) with (VObj (JSON_props o)) in H.
  now injection H.
Qed.

Lemma lookup_present (o : JsObject) (k : jsstring) :
  lookup o k <> None -> In k (map fst o).
Proof.
  intros H. destruct (in_dec (list_eq_dec N.eq_dec) k (map fst o)) as [Hin|Hout];
    [exact Hin|].
  now rewrite lookup_absent in H.
Qed.

(** Loading settings that have the default properties gives their
    properties back. *)
Lemma load_back (o : JsObject) (k : jsstring) :
  NoDup (map fst o) -> has_defaults o = true ->
  lookup (loadSettings (Some o)) k = lookup o k.
Proof.
  intros Hkeys Hdefaults.
  unfold loadSettings, Object_assign. cbn [fold_left].
  rewrite lookup_assign by assumption.
  destruct (lookup o k) eqn:E; [reflexivity|].
  destruct (lookup (assign_from [] (Some (settings_object Settings.DEFAULT_SETTINGS))) k)
    eqn:D; [|reflexivity].
  exfalso.
  assert (Hin : In k (Object_keys (settings_object Settings.DEFAULT_SETTINGS))).
  { apply lookup_present. change (settings_object Settings.DEFAULT_SETTINGS)
      with (assign_from [] (Some (settings_object Settings.DEFAULT_SETTINGS))).
    now rewrite D. }
  unfold has_defaults in Hdefaults. rewrite forallb_forall in Hdefaults.
  specialize (Hdefaults _ Hin). now rewrite E in Hdefaults.
Qed.

(** The constructor reads four properties of the settings and nothing
    else. *)
Lemma constructor_lookup (a b : JsObject) :
  (forall k, lookup a k = lookup b k) ->
  CanvasAPIObject.constructor a = CanvasAPIObject.constructor b.
Proof.
  intros H. unfold CanvasAPIObject.constructor, get. now rewrite !H.
Qed.

(** The constructor raises exactly when [canvasApiUrl] is no string. *)
Lemma constructor_of_string (o : JsObject) (url : jsstring) :
  lookup o (lit "canvasApiUrl") = Some (VStr url) ->
  exists client, CanvasAPIObject.constructor o = Return client.
Proof.
  intros H. unfold CanvasAPIObject.constructor, get. rewrite H.
  eexists. reflexivity.
Qed.

Lemma constructor_Return_string (o : JsObject) (client : CanvasAPIObject.t) :
  CanvasAPIObject.constructor o = Return client ->
  exists url, lookup o (lit "canvasApiUrl") = Some (VStr url).
Proof.
  unfold CanvasAPIObject.constructor, get. cbn [cbind].
  destruct (lookup o (lit "canvasApiUrl")) as [[| | | |url| |]|];
    try discriminate.
  intros _. now exists url.
Qed.

Lemma keys_obj_set (o : JsObject) (k k' : jsstring) (v : JsValue) :
  In k' (map fst (obj_set o k v)) <-> k' = k \/ In k' (map fst o).
Proof.
  induction o as [|[k0 v0] o IH]; cbn [obj_set map fst In].
  - intuition congruence.
  - destruct (list_eq_dec N.eq_dec k k0) as [->|Hk]; cbn [map fst In].
    + intuition congruence.
    + rewrite IH. intuition congruence.
Qed.

Lemma NoDup_obj_set (o : JsObject) (k : jsstring) (v : JsValue) :
  NoDup (map fst o) -> NoDup (map fst (obj_set o k v)).
Proof.
  induction o as [|[k0 v0] o IH]; cbn [obj_set map fst]; intros H.
  - repeat constructor. intros [].
  - inversion H as [|? ? Hout Hrest]; subst.
    destruct (list_eq_dec N.eq_dec k k0) as [->|Hk]; cbn [map fst].
    + now constructor.
    + constructor; [|now apply IH].
      rewrite keys_obj_set. intros [->|Hin]; [congruence|contradiction].
Qed.

Lemma NoDup_assign (source target : JsObject) :
  NoDup (map fst target) ->
  NoDup (map fst (assign_from target (Some source))).
Proof.
  unfold assign_from. revert target.
  induction source as [|[k v] source IH]; intros target H; [exact H|].
  cbn [fold_left fst snd]. apply IH. now apply NoDup_obj_set.
Qed.

Lemma is_JSON_obj_set (o : JsObject) (k : jsstring) (v : JsValue) :
  is_JSON (VObj o) = true -> is_JSON v = true ->
  is_JSON (VObj (obj_set o k v)) = true.
Proof.
  cbn [is_JSON]. intros Ho Hv.
  induction o as [|[k0 v0] o IH]; cbn [obj_set forallb].
  - now rewrite Hv.
  - cbn [forallb] in Ho. apply andb_true_iff in Ho as [H0 Ho].
    destruct (list_eq_dec N.eq_dec k k0); cbn [forallb].
    + now rewrite Hv, Ho.
    + now rewrite H0, IH.
Qed.

Lemma is_JSON_assign (source target : JsObject) :
  is_JSON (VObj target) = true -> is_JSON (VObj source) = true ->
  is_JSON (VObj (assign_from target (Some source))) = true.
Proof.
  unfold assign_from. revert target.
  induction source as [|[k v] source IH]; intros target Ht Hs; [exact Ht|].
  cbn [is_JSON forallb] in Hs. apply andb_true_iff in Hs as [Hv Hs].
  cbn [fold_left fst snd]. apply IH; [|exact Hs].
  now apply is_JSON_obj_set.
Qed.

Lemma has_defaults_obj_set (o : JsObject) (k : jsstring) (v : JsValue) :
  has_defaults o = true -> has_defaults (obj_set o k v) = true.
Proof.
  unfold has_defaults. rewrite !forallb_forall. intros H k' Hin.
  rewrite lookup_obj_set. destruct (list_eq_dec N.eq_dec k' k); [reflexivity|].
  now apply H.
Qed.

Lemma plain_obj_set (o : JsObject) (k : jsstring) (v : JsValue) :
  forallb plain_name (map fst o) = true -> plain_name k = true ->
  forallb plain_name (map fst (obj_set o k v)) = true.
Proof.
  rewrite !forallb_forall. intros Ho Hk k' Hin.
  apply keys_obj_set in Hin as [->|Hin]; [exact Hk|now apply Ho].
Qed.

Lemma plain_assign (source target : JsObject) :
  forallb plain_name (map fst target) = true ->
  forallb plain_name (map fst source) = true ->
  forallb plain_name (map fst (assign_from target (Some source))) = true.
Proof.
  unfold assign_from. revert target.
  induction source as [|[k v] source IH]; intros target Ht Hs; [exact Ht|].
  cbn [map fst forallb] in Hs. apply andb_true_iff in Hs as [Hk Hs].
  cbn [fold_left fst snd]. apply IH; [|exact Hs].
  now apply plain_obj_set.
Qed.

(** The settings [loadSettings] makes of a data file: the default
    properties are there, the names are distinct, the values are JSON. *)
Lemma loadSettings_kept (file : option JsObject) :
  data_file file -> kept_settings (loadSettings file).
Proof.
  destruct file as [o|]; cbn [data_file].
  - intros (Hkeys & Hplain & Hjson). unfold loadSettings, Object_assign.
    cbn [fold_left]. split; [split; [|split]|].
    + apply NoDup_assign. apply (NoDup_assign _ []). constructor.
    + apply plain_assign; [reflexivity|exact Hplain].
    + apply is_JSON_assign; [reflexivity|exact Hjson].
    + unfold has_defaults. rewrite forallb_forall. intros k Hin.
      rewrite lookup_assign by assumption.
      destruct (lookup o k); [reflexivity|].
      destruct (lookup (assign_from [] (Some (settings_object Settings.DEFAULT_SETTINGS))) k)
        eqn:D; [reflexivity|].
      exfalso. cbn in Hin.
      repeat (destruct Hin as [<-|Hin]; [discriminate D|]). exact Hin.
  - intros _. split; [split; [|split]|]; try reflexivity.
    repeat constructor; cbn; intuition discriminate.
Qed.

Lemma apply_change_kept (c : Change) (o : JsObject) :
  kept_settings o -> kept_settings (apply_change c o).
Proof.
  intros ((Hkeys & Hplain & Hjson) & Hdefaults).
  destruct c; cbn [apply_change];
    (split; [split; [|split]|]);
    first [now apply NoDup_obj_set | now apply plain_obj_set
          | now apply is_JSON_obj_set | now apply has_defaults_obj_set].
Qed.

Lemma apply_change_string (c : Change) (o : JsObject) :
  (exists url, lookup o (lit "canvasApiUrl") = Some (VStr url)) ->
  exists url, lookup (apply_change c o) (lit "canvasApiUrl") = Some (VStr url).
Proof.
  intros [url H]. destruct c; cbn [apply_change]; rewrite lookup_obj_set.
  - now exists value.
  - now exists url.
  - now exists url.
  - now exists url.
Qed.

(** X18. Settings survive a save and a load.  For settings as
    [loadSettings] and the settings tab leave them, the file gets the
    settings object as it is, with every property it has (also those that
    are no declared settings, and whatever the types of their values);
    loading that file gives each property back, and a restart constructs
    from it what the constructor makes of the settings.  [saveSettings]
    sets that client when the constructor returns; when it raises,
    [saveSettings] rejects after the file was written, the old client
    staying in place. *)
Theorem saved_settings_load_back :
  forall (p : Plugin),
    kept_settings (settings p) ->
    let saved := snd (saveSettings None p) in
    data saved = Some (settings p)
    /\ (forall k, lookup (loadSettings (data saved)) k = lookup (settings p) k)
    /\ client_after_restart saved = CanvasAPIObject.constructor (settings p)
    /\ saveSettings None p
       = match CanvasAPIObject.constructor (settings p) with
         | Return client =>
             (Return tt, mkPlugin (settings p) client (Some (settings p)))
         | Throw error =>
             (Throw error, mkPlugin (settings p) (canvasApi p) (Some (settings p)))
         end.
Proof.
  intros p ((Hkeys & Hplain & Hjson) & Hdefaults) saved.
  assert (Hdata : data saved = Some (settings p)).
  { subst saved. unfold saveSettings. rewrite (JSON_props_id _ Hjson).
    now destruct (CanvasAPIObject.constructor (settings p)). }
  split; [exact Hdata|]. split; [|split].
  - intros k. rewrite Hdata. now apply load_back.
  - unfold client_after_restart. rewrite Hdata.
    apply constructor_lookup. intros k. now apply load_back.
  - unfold saveSettings. rewrite (JSON_props_id _ Hjson).
    now destruct (CanvasAPIObject.constructor (settings p)).
Qed.

Lemma settings_session (events : list (Change * option Exn)) (p : Plugin) :
  settings (session events p)
  = fold_left (fun s ev => apply_change (fst ev) s) events (settings p).
Proof.
  revert p. induction events as [|[c failure] events IH]; intros p;
    [reflexivity|].
  cbn [session fold_left fst]. rewrite IH. f_equal.
  unfold onChange, saveSettings. destruct failure; [reflexivity|].
  cbn [settings]. now destruct (CanvasAPIObject.constructor _).
Qed.

(** What a session keeps: the shape of the settings, the string in
    [canvasApiUrl], and the client being the one of the data file. *)
Lemma onChange_keeps (c : Change) (failure : option Exn) (p : Plugin) :
  kept_settings (settings p) ->
  (exists url, lookup (settings p) (lit "canvasApiUrl") = Some (VStr url)) ->
  client_after_restart p = Return (canvasApi p) ->
  let p' := snd (onChange c failure p) in
  settings p' = apply_change c (settings p)
  /\ client_after_restart p' = Return (canvasApi p')
  /\ (failure = None ->
      CanvasAPIObject.constructor (settings p') = Return (canvasApi p')
      /\ data p' = Some (settings p')).
Proof.
  intros Hkept Hurl Hclient p'. subst p'.
  apply (apply_change_kept c) in Hkept
    as ((Hkeys & Hplain & Hjson) & Hdefaults).
  apply (apply_change_string c) in Hurl as [url Hurl].
  destruct (constructor_of_string _ Hurl) as [client Hnew].
  unfold onChange, saveSettings. destruct failure as [e|].
  - cbn [snd settings]. split; [reflexivity|].
    split; [exact Hclient|discriminate].
  - cbn [settings]. rewrite Hnew, (JSON_props_id _ Hjson).
    cbn [snd settings canvasApi data]. split; [reflexivity|].
    split; [|intros _; now split].
    unfold client_after_restart. cbn [data canvasApi].
    rewrite <- Hnew. apply constructor_lookup. intros k. now apply load_back.
Qed.

(** X19. Through a session in the settings tab, whatever JSON object the
    data file held when the plugin was loaded and whichever saves fail: the
    settings in memory are the result of all the changes; the client stays
    the one a restart would construct from the data file, so a change whose
    save failed has not reached it; and when the last save went through,
    the client is the one of the settings in memory, which are the content
    of the file, and it is the client of the declared types when the
    settings have these types. *)
Theorem client_follows_the_saved_settings :
  forall (file : option JsObject) (p0 : Plugin)
         (events : list (Change * option Exn)),
    data_file file ->
    onload file = Return p0 ->
    let p := session events p0 in
    settings p = fold_left (fun s ev => apply_change (fst ev) s) events (settings p0)
    /\ kept_settings (settings p)
    /\ client_after_restart p = Return (canvasApi p)
    /\ (forall c earlier, events = earlier ++ [(c, None)] ->
        CanvasAPIObject.constructor (settings p) = Return (canvasApi p)
        /\ data p = Some (settings p)
        /\ forall s, typed_settings (settings p) = Some s ->
             CanvasAPIObject.as_declared (canvasApi p)
             = Some (CanvasAPI.constructor s)).
Proof.
  intros file p0 events Hfile Hload p. subst p.
  split; [now rewrite settings_session|].
  assert (Hstart :
    kept_settings (settings p0)
    /\ (exists url, lookup (settings p0) (lit "canvasApiUrl") = Some (VStr url))
    /\ client_after_restart p0 = Return (canvasApi p0)).
  { unfold onload in Hload.
    destruct (CanvasAPIObject.constructor (loadSettings file)) as [client|e]
      eqn:Hclient; [|discriminate].
    cbn [cbind] in Hload. injection Hload as <-.
    cbn [settings canvasApi data]. split; [now apply loadSettings_kept|].
    split; [now apply (constructor_Return_string _ Hclient)|exact Hclient]. }
  clear Hfile Hload. revert p0 Hstart.
  induction events as [|[c failure] events IH] using rev_ind;
    intros p0 (Hkept & Hurl & Hclient).
  - cbn [session]. split; [exact Hkept|]. split; [exact Hclient|].
    intros c earlier H. now destruct earlier.
  - assert (Hrun : forall q, session (events ++ [(c, failure)]) q
                             = snd (onChange c failure (session events q))).
    { clear. induction events as [|[c0 f0] events IH]; intros q;
        [reflexivity|]. cbn [app session]. apply IH. }
    rewrite Hrun.
    destruct (IH p0 (conj Hkept (conj Hurl Hclient))) as (Hk & Hc & _).
    assert (Hu : exists url,
               lookup (settings (session events p0)) (lit "canvasApiUrl")
               = Some (VStr url)).
    { rewrite settings_session. clear - Hurl. revert Hurl.
      generalize (settings p0). induction events as [|[c0 f0] events IH];
        intros o Ho; [exact Ho|].
      cbn [fold_left fst]. apply IH. now apply apply_change_string. }
    destruct (@onChange_keeps c failure (session events p0) Hk Hu Hc)
      as (Hs & Hc' & Hsaved).
    split; [|split; [exact Hc'|]].
    + rewrite Hs. now apply apply_change_kept.
    + intros c' earlier H. apply app_inj_tail in H as [_ H].
      injection H as _ ->.
      destruct (Hsaved eq_refl) as [Hnew Hdata].
      split; [exact Hnew|]. split; [exact Hdata|].
      intros s Hs'. revert Hnew Hs'.
      generalize (settings (snd (onChange c None (session events p0)))).
      generalize (canvasApi (snd (onChange c None (session events p0)))).
      intros client o. unfold CanvasAPIObject.constructor, typed_settings, get.
      cbn [cbind].
      destruct (lookup o (lit "mySetting")) as [[| | | |a| |]|]; try discriminate.
      destruct (lookup o (lit "canvasApiUrl")) as [[| | | |b| |]|];
        try discriminate.
      destruct (lookup o (lit "canvasApiToken")) as [[| | | |t| |]|];
        try discriminate.
      destruct (lookup o (lit "useProxy")) as [[| |d| | | |]|]; try discriminate.
      destruct (lookup o (lit "corsProxyUrl")) as [[| | | |e| |]|];
        try discriminate.
      cbn [CanvasAPIObject.replace_of cbind].
      intros [= <-] [= <-]. reflexivity.
Qed.

End SettingsFile.

(** ** Concrete runs of the further properties *)

Section MoreExamples.
Import CanvasAPI Dynamic MyPlugin MyPluginMethods Report Persistence.

Local Abbreviation run_sample server :=
  (run_fetch stringify_stub server no_string_is_positive date_stub time_stub
     default_client).
Local Abbreviation first_sample server :=
  (first_call stringify_stub server default_client).

Lemma public_requests_are_get_without_body_witness :
  snd (call stringify_stub not_found default_client GetTodoItems [])
    = [] ++ [get_to (lit "/api/v1/users/self/todo")]
  /\ (method (get_to (lit "/api/v1/users/self/todo")) = lit "GET"
      /\ body (get_to (lit "/api/v1/users/self/todo")) = None
      /\ throw (get_to (lit "/api/v1/users/self/todo")) = false
      /\ headers (get_to (lit "/api/v1/users/self/todo"))
         = client_headers default_client).
Proof.
  split; [reflexivity|].
  exact (public_requests_are_get_without_body stringify_stub not_found
           default_client GetTodoItems []
           (get_to (lit "/api/v1/users/self/todo")) eq_refl).
Defined.

Lemma operations_send_at_most_one_request_witness :
  useProxy default_client = false
  /\ snd (testConnection stringify_stub unreachable default_client [])
     = snd (getUserProfile stringify_stub unreachable default_client []).
Proof.
  split; [reflexivity|].
  exact (proj2 (operations_send_at_most_one_request stringify_stub unreachable
                  default_client GetUserProfile [])).
Defined.

Lemma proxied_url_is_one_component_witness :
  lit "https://cors-anywhere.herokuapp.com/" <> []
  /\ proper (target_url (lit "https://canvas.instructure.com") (lit "courses")
               [(lit "per_page", VNum 50)]) = true
  /\ isWellFormed (target_url (lit "https://canvas.instructure.com")
                     (lit "courses") [(lit "per_page", VNum 50)]) = true
  /\ exists encoded,
       sent_urls (snd (_request stringify_stub (ok_with VNull)
                         (mkCanvasAPI (lit "https://canvas.instructure.com")
                            (lit "tok") true
                            (lit "https://cors-anywhere.herokuapp.com/"))
                         (lit "courses") (lit "GET")
                         [(lit "per_page", VNum 50)] VNull []))
         = sent_urls [] ++ [lit "https://cors-anywhere.herokuapp.com/" ++ encoded]
       /\ forallb uri_char encoded = true
       /\ forallb (fun c => negb (url_delimiter c)) encoded = true.
Proof.
  split; [discriminate|]. split; [reflexivity|]. split; [reflexivity|].
  apply proxied_url_is_one_component; [discriminate|reflexivity|reflexivity].
Defined.

Lemma malformed_url_is_not_sent_through_proxy_witness :
  lit "https://proxy.example/" <> []
  /\ isWellFormed (target_url malformed_base (lit "/users/self") []) = false
  /\ _request stringify_stub (ok_with VNull)
       (mkCanvasAPI malformed_base (lit "tok") true (lit "https://proxy.example/"))
       (lit "/users/self") (lit "GET") [] VNull []
     = (Throw (URIError (lit "URI malformed")), []).
Proof.
  split; [discriminate|]. split; [reflexivity|].
  apply malformed_url_is_not_sent_through_proxy; [discriminate|reflexivity].
Defined.

Lemma endpoint_spellings_agree_witness :
  startsWith (lit "courses") (lit "/") = false
  /\ includes (lit "/" ++ lit "courses") (lit "/api/v1") = false
  /\ normalized_path (lit "courses") = lit "/api/v1/" ++ lit "courses".
Proof.
  split; [reflexivity|]. split; [reflexivity|].
  apply (@endpoint_spellings_agree stringify_stub (ok_with VNull) default_client
           (lit "courses") (lit "GET") [] VNull []); reflexivity.
Defined.

Lemma rejected_call_ends_in_failure_notice_witness :
  first_sample not_found Todos (network fresh_world)
    = (Throw (Error (lit "Canvas API request failed: 404 - Not Found")),
       [get_to (lit "/api/v1/users/self/todo")])
  /\ run_sample not_found Todos true fresh_world
     = (Return tt,
        mkWorld [get_to (lit "/api/v1/users/self/todo")]
          [lit "Fetching Canvas todo items...";
           lit "Failed to fetch todo items: Canvas API request failed: 404 - Not Found"]
          [] true).
Proof.
  split; [reflexivity|].
  exact (rejected_call_ends_in_failure_notice stringify_stub not_found
           no_string_is_positive date_stub time_stub default_client
           Todos true fresh_world eq_refl).
Defined.

Lemma null_body_is_reported_as_failure_witness :
  first_sample (ok_with VNull) Events (network fresh_world)
    = (Return VNull, [get_to (lit "/api/v1/users/self/upcoming_events")])
  /\ run_sample (ok_with VNull) Events true fresh_world
     = (Return tt,
        mkWorld [get_to (lit "/api/v1/users/self/upcoming_events")]
          [lit "Fetching Canvas upcoming events...";
           lit "Failed to fetch events: Cannot read properties of null (reading 'length')"]
          [] true).
Proof.
  split; [reflexivity|].
  exact (null_body_is_reported_as_failure stringify_stub (ok_with VNull)
           no_string_is_positive date_stub time_stub default_client
           Events true fresh_world eq_refl).
Defined.

Lemma empty_list_is_reported_witness :
  Grades <> Profile
  /\ first_sample (ok_with (VArr [])) Grades (network fresh_world)
     = (Return (VArr []),
        [get_to (lit "/api/v1/courses?include=total_scores%2Ccurrent_grading_period_scores&enrollment_type=student&enrollment_state=active&per_page=50")])
  /\ run_sample (ok_with (VArr [])) Grades false fresh_world
     = finish Grades false fresh_world
         (Return (fetched_notice Grades (lit "0"), nothing_found Grades))
         [get_to (lit "/api/v1/courses?include=total_scores%2Ccurrent_grading_period_scores&enrollment_type=student&enrollment_state=active&per_page=50")].
Proof.
  split; [discriminate|]. split; [reflexivity|].
  apply (@empty_list_is_reported stringify_stub (ok_with (VArr []))
           no_string_is_positive date_stub time_stub default_client
           Grades false fresh_world); [discriminate|reflexivity].
Defined.

Lemma list_commands_make_one_line_per_item_witness :
  is_list_command Events = true
  /\ two_events <> []
  /\ forallb (row_ok no_string_is_positive Events) two_events = true
  /\ first_sample (ok_with (VArr two_events)) Events (network fresh_world)
     = (Return (VArr two_events),
        [get_to (lit "/api/v1/users/self/upcoming_events")])
  /\ run_sample (ok_with (VArr two_events)) Events true fresh_world
     = finish Events true fresh_world
         (Return (lit "Fetched 2 upcoming events",
                  heading Events ++ table_head Events
                    ++ lit "| Quiz | 2025-01-10 noon | Algebra |" ++ nl
                    ++ lit "| Open day | No date | N/A |" ++ nl))
         [get_to (lit "/api/v1/users/self/upcoming_events")].
Proof.
  split; [reflexivity|]. split; [discriminate|]. split; [reflexivity|].
  split; [reflexivity|].
  apply (@list_commands_make_one_line_per_item stringify_stub
           (ok_with (VArr two_events)) no_string_is_positive date_stub time_stub
           default_client Events true fresh_world two_events);
    [reflexivity|discriminate|reflexivity|reflexivity].
Defined.

Lemma assignment_summary_counts_the_lines_witness :
  three_assignments <> []
  /\ forallb defined three_assignments = true
  /\ (List.length (filter is_submitted (filter has_due_date three_assignments))
      + List.length (filter (fun a => negb (is_submitted a))
                       (filter has_due_date three_assignments))
      = List.length (filter has_due_date three_assignments))%nat.
Proof.
  split; [discriminate|]. split; [reflexivity|].
  apply (@assignment_summary_counts_the_lines no_string_is_positive date_stub
           time_stub three_assignments []);
    [discriminate|reflexivity].
Defined.

Lemma one_assignments_request_per_course_witness :
  first_sample school Courses (network fresh_world)
    = (Return two_courses,
       [get_to (lit "/api/v1/courses?per_page=50&enrollment_type=student&enrollment_state=active")])
  /\ exists k,
       (k <= List.length (elements two_courses))%nat
       /\ sent_urls (network (snd (run_sample school Courses true fresh_world)))
          = sent_urls
              [get_to (lit "/api/v1/courses?per_page=50&enrollment_type=student&enrollment_state=active")]
              ++ flat_map (fun c => final_urls default_client
                                      (assignments_target default_client c))
                   (firstn k (elements two_courses))
       /\ (k = List.length (elements two_courses)
           \/ exists e,
                notices (snd (run_sample school Courses true fresh_world))
                = notices fresh_world
                    ++ [start_notice Courses;
                        failure_prefix Courses ++ message_or_unknown e]).
Proof.
  split; [reflexivity|].
  exact (one_assignments_request_per_course stringify_stub school
           no_string_is_positive date_stub time_stub default_client
           true fresh_world eq_refl).
Defined.

(** The run of [fetchCanvasData] against the sample school, in full. *)
Example fetchCanvasData_at_the_school :
  sent_urls (network (snd (run_sample school Courses true fresh_world)))
    = [lit "https://canvas.instructure.com/api/v1/courses?per_page=50&enrollment_type=student&enrollment_state=active";
       lit "https://canvas.instructure.com/api/v1/courses/11/assignments?per_page=50";
       lit "https://canvas.instructure.com/api/v1/courses/12/assignments?per_page=50"]
  /\ notices (snd (run_sample school Courses true fresh_world))
     = [lit "Fetching Canvas courses..."; lit "Fetched 2 courses";
        lit "Canvas courses data inserted into note"]
  /\ List.length (insertions (snd (run_sample school Courses true fresh_world)))
     = 1%nat.
Proof. repeat split. Qed.

Lemma loadSettings_fills_in_the_defaults_witness :
  NoDup (map fst [(lit "useProxy", VBool true)])
  /\ lookup (loadSettings (Some [(lit "useProxy", VBool true)])) (lit "canvasApiUrl")
     = Some (VStr (lit "https://canvas.instructure.com"))
  /\ lookup (loadSettings (Some [(lit "useProxy", VBool true)])) (lit "useProxy")
     = Some (VBool true).
Proof.
  assert (H : NoDup (map fst [(lit "useProxy", VBool true)]))
    by (repeat constructor; intros []).
  split; [exact H|]. split.
  - exact (proj2 loadSettings_fills_in_the_defaults _ (lit "canvasApiUrl") H).
  - exact (proj2 loadSettings_fills_in_the_defaults _ (lit "useProxy") H).
Defined.

(** X18 at the settings made of the old data file. *)
Lemma saved_settings_load_back_witness :
  kept_settings old_settings
  /\ data (snd (saveSettings None old_plugin)) = Some old_settings
  /\ lookup (loadSettings (data (snd (saveSettings None old_plugin))))
       (lit "lastCourse")
     = Some (VNum 11).
Proof.
  assert (H : kept_settings old_settings).
  { split; [split; [|split]|]; try reflexivity.
    repeat constructor; cbn; intuition discriminate. }
  split; [exact H|]. split.
  - exact (proj1 (@saved_settings_load_back old_plugin H)).
  - exact (proj1 (proj2 (@saved_settings_load_back old_plugin H))
             (lit "lastCourse")).
Defined.

(** X19 from the old data file: the token is set and saved, then the flag
    is set and its save fails. *)
Lemma client_follows_the_saved_settings_witness :
  data_file (Some old_file)
  /\ onload (Some old_file) = Return old_plugin
  /\ client_after_restart
       (session [(SetCanvasApiToken (lit "tok"), None);
                 (SetUseProxy true, Some (Error (lit "disk full")))]
          old_plugin)
     = Return (CanvasAPIObject.mk (lit "https://canvas.instructure.com")
                 (VStr (lit "tok")) (VStr (lit "yes"))
                 (VStr (lit "https://cors-anywhere.herokuapp.com/"))).
Proof.
  assert (H : data_file (Some old_file)).
  { split; [|split]; try reflexivity.
    repeat constructor; cbn; intuition discriminate. }
  split; [exact H|]. split; [reflexivity|].
  exact (proj1 (proj2 (proj2
           (@client_follows_the_saved_settings (Some old_file) old_plugin
              [(SetCanvasApiToken (lit "tok"), None);
               (SetUseProxy true, Some (Error (lit "disk full")))]
              H eq_refl)))).
Defined.

(** The same session, in full: after the failed save the flag is set in
    memory, while the file and the client are those of the save before. *)
Example settings_session_at_the_old_file :
  let p := session [(SetCanvasApiToken (lit "tok"), None);
                    (SetUseProxy true, Some (Error (lit "disk full")))]
             old_plugin in
  lookup (settings p) (lit "useProxy") = Some (VBool true)
  /\ CanvasAPIObject.useProxy (canvasApi p) = VStr (lit "yes")
  /\ option_map (fun o => lookup o (lit "useProxy")) (data p)
     = Some (Some (VStr (lit "yes")))
  /\ option_map (fun o => lookup o (lit "lastCourse")) (data p)
     = Some (Some (VNum 11))
  /\ onload (Some [(lit "canvasApiUrl", VNum 5)])
     = Throw (TypeError (lit "settings.canvasApiUrl.replace is not a function")).
Proof. repeat split. Qed.

(** The strings of numbers, in their forms. *)
Example number_to_string_forms :
  number_to_string 50 = lit "50"
  /\ number_to_string (-7) = lit "-7"
  /\ number_to_string (2 ^ 53 + 1) = lit "9007199254740992"
  /\ number_to_string (2 ^ 60) = lit "1152921504606847000"
  /\ number_to_string (10 ^ 21) = lit "1e+21"
  /\ number_to_string 1234567890123456789012345 = lit "1.2345678901234568e+24"
  /\ number_to_string (2 ^ 1024) = lit "Infinity".
Proof. repeat split; vm_compute; reflexivity. Qed.

(** X6 at the course id [1e21]. *)
Lemma numeric_course_id_requests_witness :
  sent_urls (snd (getCourseAssignments stringify_stub (ok_with VNull)
                    default_client (VNum (10 ^ 21)) []))
  = [lit "https://canvas.instructure.com/api/v1/courses/1e+21/assignments?per_page=50"].
Proof.
  exact (proj1 (numeric_course_id_requests stringify_stub (ok_with VNull)
                  default_client (10 ^ 21) [])).
Defined.

End MoreExamples.
